(** * XMLTableEditor: the XMLWorker document model

    A shallow embedding of [xmlworker.cpp] (class [XMLWorker]) together with
    the part of Qt's DOM that the class relies on.

    Qt's DOM is modelled by a rose tree.  A node handle ([QDomNode],
    [QDomElement]) obtained from a tree is modelled by the node's path from
    the element that was searched, so that "this very node" keeps its
    meaning when the tree is edited.  The operations follow the Qt
    documentation:

    - [elementsByTagName] lists every DESCENDANT element with the given tag,
      in preorder, and the list is live (it is recomputed after every edit);
    - [removeChild] removes a DIRECT child only and otherwise does nothing;
    - [attribute] returns the empty string for an absent attribute;
    - [text] concatenates the text of all descendant text nodes.

    Comment and processing-instruction nodes, which no operation of the
    class looks at, are left out. *)

From Stdlib Require Import String List ZArith Lia Bool Arith DecimalString
  DecimalNat.
Import ListNotations.
Local Open Scope string_scope.
Local Open Scope list_scope.

Set Warnings "-register-all".

(* ------------------------------------------------------------------ *)
(** ** The DOM tree *)

Inductive QDomNode : Type :=
| Element (tagName : string) (attributes : list (string * string))
          (childNodes : list QDomNode)
| TextNode (data : string).

(** A handle on a node below some element: the child indices to follow. *)
Abbreviation Path := (list nat) (only parsing).

Abbreviation Located := (list nat * QDomNode)%type (only parsing).

(** The value of the attribute [name] of [n], when [n] has one. *)
Definition attributeNode (n : QDomNode) (name : string) : option string :=
  match n with
  | Element _ attrs _ =>
      option_map snd (find (fun kv => String.eqb (fst kv) name) attrs)
  | TextNode _ => None
  end.

(** [QDomElement::attribute(name)], default value the empty string. *)
Definition attribute (n : QDomNode) (name : string) : string :=
  match attributeNode n name with
  | Some v => v
  | None => ""
  end.

Definition under (i : nat) (l : list Located) : list Located :=
  map (fun pn => (i :: fst pn, snd pn)) l.

(** Preorder traversal of the subtree below [n], [n] itself excluded. *)
Fixpoint descendants (n : QDomNode) : list Located :=
  match n with
  | TextNode _ => []
  | Element _ _ kids =>
      (fix walk (i : nat) (ks : list QDomNode) {struct ks} : list Located :=
         match ks with
         | [] => []
         | k :: ks' => ([i], k) :: under i (descendants k) ++ walk (S i) ks'
         end) 0 kids
  end.

(** The traversal of a list of siblings, the first of which is child [i]. *)
Fixpoint walkChildren (i : nat) (ks : list QDomNode) : list Located :=
  match ks with
  | [] => []
  | k :: ks' => ([i], k) :: under i (descendants k) ++ walkChildren (S i) ks'
  end.

Definition isElementNamed (tag : string) (n : QDomNode) : bool :=
  match n with
  | Element t _ _ => String.eqb t tag
  | TextNode _ => false
  end.

Definition hasTag (tag : string) (pn : Located) : bool :=
  isElementNamed tag (snd pn).

(** [QDomElement::elementsByTagName(tag)]. *)
Definition elementsByTagName (n : QDomNode) (tag : string) : list Located :=
  filter (hasTag tag) (descendants n).

(** [QDomElement::text()]. *)
Fixpoint text (n : QDomNode) : string :=
  match n with
  | TextNode s => s
  | Element _ _ kids =>
      (fix cat (ks : list QDomNode) : string :=
         match ks with
         | [] => ""
         | k :: ks' => String.append (text k) (cat ks')
         end) kids
  end.

(** [QDomNode::appendChild(newChild)]. *)
Definition appendChild (n newChild : QDomNode) : QDomNode :=
  match n with
  | Element t a ks => Element t a (ks ++ [newChild])
  | TextNode _ => n
  end.

Fixpoint removeNth {A : Type} (i : nat) (l : list A) : list A :=
  match l, i with
  | [], _ => []
  | _ :: l', O => l'
  | x :: l', S j => x :: removeNth j l'
  end.

(** [QDomNode::removeChild(oldChild)], [oldChild] being the node reached
    from [n] by [p]: a direct child is unlinked, anything else is refused
    and [n] stays as it is. *)
Definition removeChild (n : QDomNode) (p : Path) : QDomNode :=
  match p, n with
  | [i], Element t a ks => Element t a (removeNth i ks)
  | _, _ => n
  end.

Fixpoint nodeAt (n : QDomNode) (p : Path) : option QDomNode :=
  match p with
  | [] => Some n
  | i :: p' =>
      match n with
      | Element _ _ ks =>
          match nth_error ks i with
          | Some k => nodeAt k p'
          | None => None
          end
      | TextNode _ => None
      end
  end.

Fixpoint replaceNth {A : Type} (i : nat) (x : A) (l : list A) : list A :=
  match l, i with
  | [], _ => []
  | _ :: l', O => x :: l'
  | y :: l', S j => y :: replaceNth j x l'
  end.

(** The tree [n] after the node at [p] has become [new]: what an edit made
    through a handle does to the tree the handle points into. *)
Fixpoint replaceAt (n : QDomNode) (p : Path) (new : QDomNode) : QDomNode :=
  match p with
  | [] => new
  | i :: p' =>
      match n with
      | Element t a ks =>
          match nth_error ks i with
          | Some k => Element t a (replaceNth i (replaceAt k p' new) ks)
          | None => n
          end
      | TextNode _ => n
      end
  end.

(** A [QDomDocument], seen through [documentElement()]; [None] is the
    document without a root element. *)
Definition QDomDocument := option QDomNode.

(* ------------------------------------------------------------------ *)
(** ** XMLWorker *)

Definition ROOT_ELEMENT_NAME := "database".
Definition TABLE_ELEMENT_NAME := "table".
Definition ROW_ELEMENT_NAME := "row".
Definition CELL_ELEMENT_NAME := "cell".

Record XMLWorker : Type := mkXMLWorker {
  CurrentFilePath : string;
  XmlDocument : QDomDocument;
  AvailableTableNames : list string;
  FileLoaded : bool
}.

(** The constructor. *)
Definition newXMLWorker : XMLWorker := mkXMLWorker "" None [] false.

Definition withDocument (w : XMLWorker) (d : QDomDocument) : XMLWorker :=
  mkXMLWorker (CurrentFilePath w) d (AvailableTableNames w) (FileLoaded w).

(** [rootElement.elementsByTagName(TABLE_ELEMENT_NAME)] on the document
    element; a null root element has no descendants. *)
Definition tableNodes (d : QDomDocument) : list Located :=
  match d with
  | Some root => elementsByTagName root TABLE_ELEMENT_NAME
  | None => []
  end.

Definition namedAs (tableName : string) (pn : Located) : bool :=
  String.eqb (attribute (snd pn) "name") tableName.

(** [XMLWorker::FindTableElement]: the first table, in list order, whose
    [name] attribute equals [tableName]; [None] is the null element. *)
Definition FindTableElement (w : XMLWorker) (tableName : string)
  : option Located :=
  find (namedAs tableName) (tableNodes (XmlDocument w)).

(** [QString("Column_%1").arg(i + 1)]. *)
Definition columnPlaceholder (i : nat) : string :=
  String.append "Column_" (NilEmpty.string_of_uint (Nat.to_uint (i + 1))).

(** The loop of [ExtractColumnHeaders] from index [i] on. *)
Fixpoint headersFrom (i : nat) (cellNodes : list Located) : list string :=
  match cellNodes with
  | [] => []
  | c :: rest =>
      let columnName := attribute (snd c) "name" in
      (if String.eqb columnName "" then columnPlaceholder i else columnName)
        :: headersFrom (S i) rest
  end.

(** [XMLWorker::ExtractColumnHeaders]. *)
Definition ExtractColumnHeaders (tableElement : QDomNode) : list string :=
  match elementsByTagName tableElement ROW_ELEMENT_NAME with
  | [] => []
  | firstRow :: _ =>
      headersFrom 0 (elementsByTagName (snd firstRow) CELL_ELEMENT_NAME)
  end.

(** The inner loop of [ExtractTableRows]. *)
Fixpoint rowDataOf (cellNodes : list Located) : list string :=
  match cellNodes with
  | [] => []
  | c :: rest => text (snd c) :: rowDataOf rest
  end.

(** The outer loop of [ExtractTableRows]. *)
Fixpoint rowsOf (rowNodes : list Located) : list (list string) :=
  match rowNodes with
  | [] => []
  | r :: rest =>
      rowDataOf (elementsByTagName (snd r) CELL_ELEMENT_NAME) :: rowsOf rest
  end.

(** [XMLWorker::ExtractTableRows]. *)
Definition ExtractTableRows (tableElement : QDomNode) : list (list string) :=
  rowsOf (elementsByTagName tableElement ROW_ELEMENT_NAME).

(** The loop of [CreateRowElement] from column [i] on. *)
Fixpoint cellsFrom (i : nat) (rowData columnHeaders : list string)
  : list QDomNode :=
  match columnHeaders with
  | [] => []
  | h :: hs =>
      let cellValue :=
        if Nat.ltb i (length rowData) then nth i rowData "" else "" in
      Element CELL_ELEMENT_NAME [("name", h)] [TextNode cellValue]
        :: cellsFrom (S i) rowData hs
  end.

(** [XMLWorker::CreateRowElement]. *)
Definition CreateRowElement (rowData columnHeaders : list string) : QDomNode :=
  Element ROW_ELEMENT_NAME [] (cellsFrom 0 rowData columnHeaders).

(** What an edit of the table found at [p] leaves in the worker: the
    handle returned by [FindTableElement] aliases the document's tree. *)
Definition commit (w : XMLWorker) (p : Path) (t' : QDomNode) : XMLWorker :=
  withDocument w
    (match XmlDocument w with
     | Some root => Some (replaceAt root p t')
     | None => None
     end).

(** [XMLWorker::AddRowToTable]. *)
Definition AddRowToTable (w : XMLWorker) (tableName : string)
    (rowData : list string) : bool * XMLWorker :=
  if negb (FileLoaded w) || String.eqb tableName "" then (false, w)
  else
    match FindTableElement w tableName with
    | None => (false, w)
    | Some (p, tableElement) =>
        let columnHeaders := ExtractColumnHeaders tableElement in
        let newRowElement := CreateRowElement rowData columnHeaders in
        (true, commit w p (appendChild tableElement newRowElement))
    end.

(** [XMLWorker::DeleteRowFromTable]; [rowIndex] is a C++ [int]. *)
Definition DeleteRowFromTable (w : XMLWorker) (tableName : string)
    (rowIndex : Z) : bool * XMLWorker :=
  if negb (FileLoaded w) || String.eqb tableName "" || (rowIndex <? 0)%Z
  then (false, w)
  else
    match FindTableElement w tableName with
    | None => (false, w)
    | Some (p, tableElement) =>
        let rowNodes := elementsByTagName tableElement ROW_ELEMENT_NAME in
        if (rowIndex >=? Z.of_nat (length rowNodes))%Z then (false, w)
        else
          match nth_error rowNodes (Z.to_nat rowIndex) with
          | Some rowToDelete =>
              (true, commit w p (removeChild tableElement (fst rowToDelete)))
          | None => (false, w)
          end
    end.

(* ------------------------------------------------------------------ *)
(** ** The grid ([QTableWidget]) *)

Record QTableWidget : Type := mkQTableWidget {
  columnCount : nat;
  rowCount : nat;
  horizontalHeaderItem : nat -> option string;
  item : nat -> nat -> option string
}.

Definition clear (g : QTableWidget) : QTableWidget :=
  mkQTableWidget (columnCount g) (rowCount g) (fun _ => None) (fun _ _ => None).

Definition setColumnCount (n : nat) (g : QTableWidget) : QTableWidget :=
  mkQTableWidget n (rowCount g)
    (fun c => if Nat.ltb c n then horizontalHeaderItem g c else None)
    (fun r c => if Nat.ltb c n then item g r c else None).

Definition setRowCount (n : nat) (g : QTableWidget) : QTableWidget :=
  mkQTableWidget (columnCount g) n (horizontalHeaderItem g)
    (fun r c => if Nat.ltb r n then item g r c else None).

Definition setHorizontalHeaderLabels (labels : list string) (g : QTableWidget)
  : QTableWidget :=
  mkQTableWidget (columnCount g) (rowCount g)
    (fun c =>
       if Nat.ltb c (columnCount g) then
         match nth_error labels c with
         | Some l => Some l
         | None => horizontalHeaderItem g c
         end
       else horizontalHeaderItem g c)
    (item g).

Definition setItem (row col : nat) (v : string) (g : QTableWidget)
  : QTableWidget :=
  if Nat.ltb row (rowCount g) && Nat.ltb col (columnCount g) then
    mkQTableWidget (columnCount g) (rowCount g) (horizontalHeaderItem g)
      (fun r c => if Nat.eqb r row && Nat.eqb c col then Some v else item g r c)
  else g.

(** The inner loop of [LoadTableData]: the cells of row [row], from column
    [col] on, as long as there is a value and a header for the column. *)
Fixpoint fillRow (row col : nat) (rowData : list string) (nHeaders : nat)
    (g : QTableWidget) : QTableWidget :=
  match rowData with
  | [] => g
  | v :: rest =>
      if Nat.ltb col nHeaders
      then fillRow row (S col) rest nHeaders (setItem row col v g)
      else g
  end.

(** The outer loop of [LoadTableData]. *)
Fixpoint fillRows (row : nat) (tableRows : list (list string))
    (nHeaders : nat) (g : QTableWidget) : QTableWidget :=
  match tableRows with
  | [] => g
  | rowData :: rest =>
      fillRows (S row) rest nHeaders (fillRow row 0 rowData nHeaders g)
  end.

(** [XMLWorker::LoadTableData]; the widget pointer may be null. *)
Definition LoadTableData (w : XMLWorker) (tableName : string)
    (tableWidget : option QTableWidget) : bool * option QTableWidget :=
  match tableWidget with
  | None => (false, tableWidget)
  | Some g =>
      if negb (FileLoaded w) || String.eqb tableName ""
      then (false, tableWidget)
      else
        match FindTableElement w tableName with
        | None => (false, tableWidget)
        | Some (_, tableElement) =>
            let columnHeaders := ExtractColumnHeaders tableElement in
            let tableRows := ExtractTableRows tableElement in
            let g1 := clear g in
            let g2 := setColumnCount (length columnHeaders) g1 in
            let g3 := setRowCount (length tableRows) g2 in
            let g4 := setHorizontalHeaderLabels columnHeaders g3 in
            (true, Some (fillRows 0 tableRows (length columnHeaders) g4))
        end
  end.

(** The header-collecting loop of [UpdateCompleteTable]. *)
Definition gridHeaders (g : QTableWidget) : list string :=
  map (fun col =>
         match horizontalHeaderItem g col with
         | Some headerText => headerText
         | None => columnPlaceholder col
         end)
      (seq 0 (columnCount g)).

(** The cell-collecting loop of [UpdateCompleteTable] for one row. *)
Definition gridRow (g : QTableWidget) (row : nat) : list string :=
  map (fun col =>
         match item g row col with
         | Some cellText => cellText
         | None => ""
         end)
      (seq 0 (columnCount g)).

Definition gridRows (g : QTableWidget) : list (list string) :=
  map (gridRow g) (seq 0 (rowCount g)).

(** The loop
    [while (!_rowNodes.isEmpty() && _rowNodes.size() > 0)
       _tableElement.removeChild(_rowNodes.at(0));]
    run for at most [fuel] iterations.  The node list is live, so it is
    looked up again on every iteration; [None] means that the loop is still
    running when the fuel is used up. *)
Fixpoint removeRowsLoop (fuel : nat) (tableElement : QDomNode)
  : option QDomNode :=
  match elementsByTagName tableElement ROW_ELEMENT_NAME with
  | [] => Some tableElement
  | first :: _ =>
      match fuel with
      | O => None
      | S fuel' => removeRowsLoop fuel' (removeChild tableElement (fst first))
      end
  end.

(** The loop with as many iterations as there are rows to begin with; by
    [removeRowsLoop_fuel] below no larger number makes it finish when this
    one does not, so [None] means that the loop never ends. *)
Definition removeAllRows (tableElement : QDomNode) : option QDomNode :=
  removeRowsLoop (length (elementsByTagName tableElement ROW_ELEMENT_NAME))
    tableElement.

(** The row-appending loop of [UpdateCompleteTable]. *)
Definition appendRows (tableElement : QDomNode) (rows : list (list string))
    (columnHeaders : list string) : QDomNode :=
  fold_left
    (fun t rowData => appendChild t (CreateRowElement rowData columnHeaders))
    rows tableElement.

(** Lines 230-249 of [UpdateCompleteTable]: the table element is emptied
    of its rows and then refilled from the collected rows. *)
Definition replaceRows (tableElement : QDomNode) (rows : list (list string))
    (columnHeaders : list string) : option QDomNode :=
  match removeAllRows tableElement with
  | Some emptied => Some (appendRows emptied rows columnHeaders)
  | None => None
  end.

(** [XMLWorker::UpdateCompleteTable]; [None] when the call never returns. *)
Definition UpdateCompleteTable (w : XMLWorker) (tableName : string)
    (tableWidget : option QTableWidget) : option (bool * XMLWorker) :=
  match tableWidget with
  | None => Some (false, w)
  | Some g =>
      if negb (FileLoaded w) || String.eqb tableName "" then Some (false, w)
      else
        match FindTableElement w tableName with
        | None => Some (false, w)
        | Some (p, tableElement) =>
            match replaceRows tableElement (gridRows g) (gridHeaders g) with
            | Some t' => Some (true, commit w p t')
            | None => None
            end
        end
  end.

(* ------------------------------------------------------------------ *)
(** ** Loading a file *)

(** What [qDebug()] is given: one [DebugLine] per statement. *)
Inductive DebugItem : Type :=
| Lit (s : string)
| Quoted (s : string)
| Num (z : Z)
| Strings (l : list string).

Definition DebugLine := list DebugItem.

(** The outcome of [QDomDocument::setContent(&file, &msg, &line, &column)]:
    its return value, what the document holds afterwards, and the three
    out-parameters. *)
Record SetContentResult : Type := mkSetContentResult {
  sc_ok : bool;
  sc_document : QDomDocument;
  sc_errorMsg : string;
  sc_errorLine : Z;
  sc_errorColumn : Z
}.

(** The services of Qt that [LoadXMLFile] and [SaveXMLFile] call and that
    are not part of the program: [QFile::open] for reading, which yields
    the content of the file or fails; [QFile::open] for writing, which
    succeeds or fails; the XML parser behind [setContent], which is applied
    to the document as it is and to the content read; and the serializer
    [QDomDocument::toString(indent)]. *)
Record QtServices : Type := mkQtServices {
  openForReading : string -> option string;
  openForWriting : string -> bool;
  setContent : QDomDocument -> string -> SetContentResult;
  toString : QDomDocument -> nat -> string
}.

(** The services once [content] has been written to the file [path]. *)
Definition written (qt : QtServices) (path content : string) : QtServices :=
  mkQtServices
    (fun p => if String.eqb p path then Some content else openForReading qt p)
    (openForWriting qt) (setContent qt) (toString qt).

(** [XMLWorker::ValidateXMLStructure]. *)
Definition ValidateXMLStructure (w : XMLWorker) : bool * list DebugLine :=
  match XmlDocument w with
  | None => (false, [[Lit "Error: No root element found"]])
  | Some rootElement =>
      (true,
       [[Lit "Root element:";
         Quoted (match rootElement with
                 | Element t _ _ => t
                 | TextNode _ => ""
                 end)]]
       ++ (if Nat.eqb (length (tableNodes (XmlDocument w))) 0
           then [[Lit "Warning: No table elements found"]] else [])
       ++ [[Lit "XML structure validation passed"]])
  end.

(** The loop of [ParseXMLStructure]. *)
Fixpoint collectTableNames (nodes : list Located) : list string :=
  match nodes with
  | [] => []
  | tableElement :: rest =>
      let tableName := attribute (snd tableElement) "name" in
      if String.eqb tableName "" then collectTableNames rest
      else tableName :: collectTableNames rest
  end.

(** [XMLWorker::ParseXMLStructure]. *)
Definition ParseXMLStructure (w : XMLWorker) : XMLWorker * list DebugLine :=
  let names := collectTableNames (tableNodes (XmlDocument w)) in
  (mkXMLWorker (CurrentFilePath w) (XmlDocument w) names (FileLoaded w),
   [[Lit "Parsed XML structure, found tables:"; Strings names]]).

(** [XMLWorker::LoadXMLFile]: the value returned, the worker afterwards and
    the lines written to the debug stream. *)
Definition LoadXMLFile (qt : QtServices) (w : XMLWorker) (filePath : string)
  : bool * XMLWorker * list DebugLine :=
  if String.eqb filePath "" then
    (false, w, [[Lit "Error: Empty file path provided"]])
  else
    match openForReading qt filePath with
    | None => (false, w, [[Lit "Error: Cannot open file"; Quoted filePath]])
    | Some content =>
        let parsed := setContent qt (XmlDocument w) content in
        let w1 := withDocument w (sc_document parsed) in
        if negb (sc_ok parsed) then
          (false, w1,
           [[Lit "Error: XML parsing failed at line";
             Num (sc_errorLine parsed);
             Lit "column"; Num (sc_errorColumn parsed);
             Lit ":"; Quoted (sc_errorMsg parsed)]])
        else
          let (valid, log1) := ValidateXMLStructure w1 in
          if negb valid then
            (false, w1, log1 ++ [[Lit "Error: Invalid XML structure"]])
          else
            let w2 := mkXMLWorker filePath (XmlDocument w1)
                        (AvailableTableNames w1) (FileLoaded w1) in
            let (w3, log2) := ParseXMLStructure w2 in
            let w4 := mkXMLWorker (CurrentFilePath w3) (XmlDocument w3)
                        (AvailableTableNames w3) true in
            (true, w4,
             log1 ++ log2
             ++ [[Lit "Successfully loaded XML file:"; Quoted filePath];
                 [Lit "Found";
                  Num (Z.of_nat (length (AvailableTableNames w4)));
                  Lit "tables"]])
    end.

(** [XMLWorker::SaveXMLFile]: the value returned and the files
    afterwards. *)
Definition SaveXMLFile (qt : QtServices) (w : XMLWorker)
  : bool * QtServices :=
  if negb (FileLoaded w) || String.eqb (CurrentFilePath w) "" then (false, qt)
  else if negb (openForWriting qt (CurrentFilePath w)) then (false, qt)
  else (true,
        written qt (CurrentFilePath w) (toString qt (XmlDocument w) 4)).

(** [GetTableNames], [GetCurrentFilePath], [IsFileLoaded]. *)
Definition GetTableNames (w : XMLWorker) : list string := AvailableTableNames w.
Definition GetCurrentFilePath (w : XMLWorker) : string := CurrentFilePath w.
Definition IsFileLoaded (w : XMLWorker) : bool := FileLoaded w.

(* ------------------------------------------------------------------ *)
(** ** Sample data *)

Definition cell (name value : string) : QDomNode :=
  Element "cell" [("name", name)] [TextNode value].

(** [<table name="T"><row><cell name="Col1">a</cell><cell name="Col2">b</cell></row>
     <row><cell name="Col1">c</cell></row></table>] *)
Definition sampleTable : QDomNode :=
  Element "table" [("name", "T")]
    [Element "row" [] [cell "Col1" "a"; cell "Col2" "b"];
     Element "row" [] [cell "Col1" "c"]].

Definition sampleRoot : QDomNode := Element "database" [] [sampleTable].

Definition sampleWorker : XMLWorker :=
  mkXMLWorker "sample.xml" (Some sampleRoot) ["T"] true.

(** [<table name="T"><group><row><cell name="A">1</cell></row></group></table>]:
    the only row is a grandchild of the table. *)
Definition groupedTable : QDomNode :=
  Element "table" [("name", "T")]
    [Element "group" [] [Element "row" [] [cell "A" "1"]]].

Definition groupedRoot : QDomNode := Element "database" [] [groupedTable].

Definition groupedWorker : XMLWorker :=
  mkXMLWorker "grouped.xml" (Some groupedRoot) ["T"] true.

Definition emptyGrid : QTableWidget :=
  mkQTableWidget 0 0 (fun _ => None) (fun _ _ => None).

(** A stand-in for Qt: two files, one well-formed and one not; the parser
    empties the document before it parses, as [QDomDocument::setContent]
    does, and reports where it stopped. *)
Definition goodContent : string := "<database><table name='T'/></database>".

Definition parsedGood : QDomNode :=
  Element "database" [] [Element "table" [("name", "T")] []].

Definition sampleQt (line column : Z) (message : string) : QtServices :=
  mkQtServices
    (fun path =>
       if String.eqb path "good.xml" then Some goodContent
       else if String.eqb path "broken.xml" then Some "no markup here"
       else None)
    (fun _ => true)
    (fun _ content =>
       if String.eqb content goodContent
       then mkSetContentResult true (Some parsedGood) "" 0 0
       else mkSetContentResult false None message line column)
    (fun _ _ => goodContent).

(** The file [grouped.xml] and a parser that reads it. *)
Definition groupedContent : string :=
  "<database><table name='T'><group><row><cell name='A'>1</cell></row></group></table></database>".

Definition groupedQt : QtServices :=
  mkQtServices
    (fun path =>
       if String.eqb path "grouped.xml" then Some groupedContent else None)
    (fun _ => true)
    (fun _ content =>
       if String.eqb content groupedContent
       then mkSetContentResult true (Some groupedRoot) "" 0 0
       else mkSetContentResult false None "Start tag expected." 1 1)
    (fun _ _ => groupedContent).

Definition loadedWorker : XMLWorker :=
  snd (fst (LoadXMLFile (sampleQt 1 1 "Start tag expected.")
              newXMLWorker "good.xml")).

(** A table whose first row has, after a named cell, a cell without a
    [name] and a cell whose [name] is empty. *)
Definition unnamedTable : QDomNode :=
  Element "table" [("name", "U")]
    [Element "row" []
       [cell "Col1" "a";
        Element "cell" [] [TextNode "b"];
        Element "cell" [("name", "")] [TextNode "c"]]].

(** Two tables with the same name, [X]. *)
Definition firstX : QDomNode :=
  Element "table" [("name", "X")] [Element "row" [] [cell "A" "1"]].

Definition secondX : QDomNode :=
  Element "table" [("name", "X")] [Element "row" [] [cell "A" "2"]].

Definition twinWorker : XMLWorker :=
  mkXMLWorker "twins.xml" (Some (Element "database" [] [firstX; secondX]))
    ["X"; "X"] true.

(** A document whose only table has no rows. *)
Definition rowlessWorker : XMLWorker :=
  mkXMLWorker "good.xml" (Some parsedGood) ["T"] true.

(* ------------------------------------------------------------------ *)
(** ** Vocabulary of the statements *)

(** The header at position [i] for a cell: its [name], or the placeholder
    with the 1-based position when the name is missing or empty. *)
Definition headerOfCell (i : nat) (c : Located) : string :=
  match attributeNode (snd c) "name" with
  | Some v => if String.eqb v "" then columnPlaceholder i else v
  | None => columnPlaceholder i
  end.

(** The handles of the nodes [ks] as children number [i], [i + 1], ... *)
Fixpoint childHandles (i : nat) (ks : list QDomNode) : list Located :=
  match ks with
  | [] => []
  | k :: ks' => ([i], k) :: childHandles (S i) ks'
  end.

Definition isRow (n : QDomNode) : bool :=
  isElementNamed ROW_ELEMENT_NAME n.

Definition notRow (n : QDomNode) : bool := negb (isRow n).

(** Every [row] element below [t] is a child of [t]: no child of [t] has a
    [row] element below it. *)
Definition rowsAreChildren (t : QDomNode) : Prop :=
  match t with
  | Element _ _ ks =>
      Forall (fun k => elementsByTagName k ROW_ELEMENT_NAME = []) ks
  | TextNode _ => True
  end.

(** The cell [CreateRowElement] makes for column [i] with header [h]. *)
Definition createdCell (rowData : list string) (i : nat) (h : string)
  : QDomNode :=
  Element CELL_ELEMENT_NAME [("name", h)] [TextNode (nth i rowData "")].

(** The texts of the cells below a row, in order. *)
Definition cellTexts (rowElement : QDomNode) : list string :=
  map (fun c => text (snd c)) (elementsByTagName rowElement CELL_ELEMENT_NAME).

(** Same kind of node, same tag and same attributes (same text for a text
    node): what is left of an element when only its children change. *)
Definition sameShell (n m : QDomNode) : Prop :=
  match n, m with
  | Element t a _, Element t' a' _ => t = t' /\ a = a'
  | TextNode s, TextNode s' => s = s'
  | _, _ => False
  end.

Definition sameHandle (x y : Located) : Prop :=
  fst x = fst y /\ sameShell (snd x) (snd y).

(** The test [FindTableElement] applies along the traversal. *)
Definition isTableNamed (tableName : string) (pn : Located) : bool :=
  hasTag TABLE_ELEMENT_NAME pn && namedAs tableName pn.

(** The edits the class makes to a table element: a row appended
    ([AddRowToTable]), a node handed to [removeChild]
    ([DeleteRowFromTable]), the rows replaced ([UpdateCompleteTable]). *)
Inductive rowEdit (u : QDomNode) : QDomNode -> Prop :=
| rowAdded (rowData columnHeaders : list string) :
    rowEdit u (appendChild u (CreateRowElement rowData columnHeaders))
| rowDeleted (r : Path) :
    rowEdit u (removeChild u r)
| rowsReplaced (rows : list (list string)) (columnHeaders : list string)
    (u' : QDomNode) :
    replaceRows u rows columnHeaders = Some u' -> rowEdit u u'.

(** Two calls in a row of the row replacement with the same arguments. *)
Definition replaceRowsTwice (tableElement : QDomNode)
    (rows : list (list string)) (columnHeaders : list string)
  : option QDomNode :=
  match replaceRows tableElement rows columnHeaders with
  | Some once => replaceRows once rows columnHeaders
  | None => None
  end.

(** What a caller can see of a table: its headers and its rows. *)
Definition observe (tableElement : QDomNode)
  : list string * list (list string) :=
  (ExtractColumnHeaders tableElement, ExtractTableRows tableElement).

(** A grid of two columns and two rows; the second column has no header
    item, and the last cell has no item. *)
Definition editedGrid : QTableWidget :=
  mkQTableWidget 2 2
    (fun c => if Nat.eqb c 0 then Some "Name" else None)
    (fun r c =>
       match r, c with
       | 0, 0 => Some "Ann"
       | 0, 1 => Some "31"
       | 1, 0 => Some "Bob"
       | _, _ => None
       end).

(** A row of values fitted to [n] columns: the values at positions
    [0 .. n-1], the empty string where the row has none. *)
Definition fitRow (n : nat) (rowData : list string) : list string :=
  map (fun i => nth i rowData "") (seq 0 n).

(** Headers as they are read back from cells named after them: an empty
    name reads as the placeholder of its position, counted from [i]. *)
Fixpoint namedHeaders (i : nat) (columnHeaders : list string) : list string :=
  match columnHeaders with
  | [] => []
  | h :: hs =>
      (if String.eqb h "" then columnPlaceholder i else h)
        :: namedHeaders (S i) hs
  end.

(** [k], seen as a child of a table, is a row or has no row below it. *)
Definition rowCovered (k : QDomNode) : bool :=
  isRow k
  || match elementsByTagName k ROW_ELEMENT_NAME with
     | [] => true
     | _ :: _ => false
     end.

(** Every [row] element below [t] is a child of [t] or lies below a child
    of [t] that is a row. *)
Definition rowsUnderRowChildren (t : QDomNode) : bool :=
  match t with
  | Element _ _ ks => forallb rowCovered ks
  | TextNode _ => true
  end.

(* ------------------------------------------------------------------ *)
(** ** The grid, edited by hand *)

(** [QTableWidget::insertRow(row)]: an empty row at [row], the rows from
    [row] on moving down; refused when [row] is past the end. *)
Definition insertRow (row : nat) (g : QTableWidget) : QTableWidget :=
  if Nat.leb row (rowCount g) then
    mkQTableWidget (columnCount g) (S (rowCount g)) (horizontalHeaderItem g)
      (fun r c =>
         if Nat.ltb r row then item g r c
         else if Nat.eqb r row then None
         else item g (r - 1) c)
  else g.

(** [QTableWidget::removeRow(row)]: the rows after [row] move up; refused
    when there is no such row. *)
Definition removeRow (row : nat) (g : QTableWidget) : QTableWidget :=
  if Nat.ltb row (rowCount g) then
    mkQTableWidget (columnCount g) (rowCount g - 1) (horizontalHeaderItem g)
      (fun r c => if Nat.ltb r row then item g r c else item g (S r) c)
  else g.

(* ------------------------------------------------------------------ *)
(** ** MainWindow

    The state of the window that the slots of [mainwindow.cpp] read or
    write, and the slots themselves.  A modal dialog is an entry in the
    list of dialogs a slot returns; the answer to a question is an
    argument of the slot.  Left out, because nothing reads them back: the
    text and tool tip of [FilePathLabel], sizes, [resizeColumnsToContents]
    and [scrollToBottom].  No slot is connected to the editing of a cell
    of [DataTable]: what the user types changes the grid and nothing
    else. *)

Module MainWindow.

Definition NORMAL_BUTTON_STYLE : string :=
  "QPushButton { background-color: #f0f0f0; border: 1px solid #c0c0c0; padding: 5px; color: black; }".
Definition ACTIVE_BUTTON_STYLE : string :=
  "QPushButton { background-color: #90EE90; border: 2px solid #228B22; padding: 5px; font-weight: bold; color: black; }".
Definition DISABLED_BUTTON_STYLE : string :=
  "QPushButton:disabled { background-color: #e0e0e0; border: 1px solid #d0d0d0; padding: 5px; color: #a0a0a0; }".

(** The values of [QAbstractItemView::EditTriggers] the window uses. *)
Inductive EditTriggers : Type :=
| NoEditTriggers
| DoubleClicked
| DoubleClickedOrEditKeyPressed.

Record QPushButton : Type := mkQPushButton {
  isEnabled : bool;
  isChecked : bool;
  styleSheet : string
}.

Definition setEnabled (b : bool) (p : QPushButton) : QPushButton :=
  mkQPushButton b (isChecked p) (styleSheet p).
Definition setChecked (b : bool) (p : QPushButton) : QPushButton :=
  mkQPushButton (isEnabled p) b (styleSheet p).
Definition setStyleSheet (s : string) (p : QPushButton) : QPushButton :=
  mkQPushButton (isEnabled p) (isChecked p) s.

(** A [QComboBox]: its items, the current index ([-1] for none) and
    whether it is enabled. *)
Record QComboBox : Type := mkQComboBox {
  comboItems : list string;
  currentIndex : Z;
  comboEnabled : bool
}.

Definition currentText (c : QComboBox) : string :=
  if (currentIndex c <? 0)%Z then ""
  else nth (Z.to_nat (currentIndex c)) (comboItems c) "".

(** The modal dialogs of [QMessageBox], with title and text. *)
Inductive Dialog : Type :=
| information (title text : string)
| warning (title text : string)
| critical (title text : string)
| question (title text : string).

Record t : Type := mk {
  LoadFileButtonEnabled : bool;
  TableComboBox : QComboBox;
  AddButton : QPushButton;
  DeleteButton : QPushButton;
  EditButton : QPushButton;
  UpdateButtonEnabled : bool;
  CancelButtonEnabled : bool;
  DataTable : QTableWidget;
  editTriggers : EditTriggers;
  Worker : XMLWorker;
  CurrentFilePath : string;
  CurrentTableName : string;
  IsAddMode : bool;
  IsDeleteMode : bool;
  IsEditMode : bool;
  HasUnsavedChanges : bool
}.

Definition setLoadFileButtonEnabled (x : bool) (s : t) : t :=
  mk x (TableComboBox s) (AddButton s) (DeleteButton s) (EditButton s)
     (UpdateButtonEnabled s) (CancelButtonEnabled s) (DataTable s)
     (editTriggers s) (Worker s) (CurrentFilePath s) (CurrentTableName s)
     (IsAddMode s) (IsDeleteMode s) (IsEditMode s) (HasUnsavedChanges s).
Definition setTableComboBox (x : QComboBox) (s : t) : t :=
  mk (LoadFileButtonEnabled s) x (AddButton s) (DeleteButton s) (EditButton
     s) (UpdateButtonEnabled s) (CancelButtonEnabled s) (DataTable s)
     (editTriggers s) (Worker s) (CurrentFilePath s) (CurrentTableName s)
     (IsAddMode s) (IsDeleteMode s) (IsEditMode s) (HasUnsavedChanges s).
Definition setAddButton (x : QPushButton) (s : t) : t :=
  mk (LoadFileButtonEnabled s) (TableComboBox s) x (DeleteButton s)
     (EditButton s) (UpdateButtonEnabled s) (CancelButtonEnabled s)
     (DataTable s) (editTriggers s) (Worker s) (CurrentFilePath s)
     (CurrentTableName s) (IsAddMode s) (IsDeleteMode s) (IsEditMode s)
     (HasUnsavedChanges s).
Definition setDeleteButton (x : QPushButton) (s : t) : t :=
  mk (LoadFileButtonEnabled s) (TableComboBox s) (AddButton s) x (EditButton
     s) (UpdateButtonEnabled s) (CancelButtonEnabled s) (DataTable s)
     (editTriggers s) (Worker s) (CurrentFilePath s) (CurrentTableName s)
     (IsAddMode s) (IsDeleteMode s) (IsEditMode s) (HasUnsavedChanges s).
Definition setEditButton (x : QPushButton) (s : t) : t :=
  mk (LoadFileButtonEnabled s) (TableComboBox s) (AddButton s) (DeleteButton
     s) x (UpdateButtonEnabled s) (CancelButtonEnabled s) (DataTable s)
     (editTriggers s) (Worker s) (CurrentFilePath s) (CurrentTableName s)
     (IsAddMode s) (IsDeleteMode s) (IsEditMode s) (HasUnsavedChanges s).
Definition setUpdateButtonEnabled (x : bool) (s : t) : t :=
  mk (LoadFileButtonEnabled s) (TableComboBox s) (AddButton s) (DeleteButton
     s) (EditButton s) x (CancelButtonEnabled s) (DataTable s) (editTriggers
     s) (Worker s) (CurrentFilePath s) (CurrentTableName s) (IsAddMode s)
     (IsDeleteMode s) (IsEditMode s) (HasUnsavedChanges s).
Definition setCancelButtonEnabled (x : bool) (s : t) : t :=
  mk (LoadFileButtonEnabled s) (TableComboBox s) (AddButton s) (DeleteButton
     s) (EditButton s) (UpdateButtonEnabled s) x (DataTable s) (editTriggers
     s) (Worker s) (CurrentFilePath s) (CurrentTableName s) (IsAddMode s)
     (IsDeleteMode s) (IsEditMode s) (HasUnsavedChanges s).
Definition setDataTable (x : QTableWidget) (s : t) : t :=
  mk (LoadFileButtonEnabled s) (TableComboBox s) (AddButton s) (DeleteButton
     s) (EditButton s) (UpdateButtonEnabled s) (CancelButtonEnabled s) x
     (editTriggers s) (Worker s) (CurrentFilePath s) (CurrentTableName s)
     (IsAddMode s) (IsDeleteMode s) (IsEditMode s) (HasUnsavedChanges s).
Definition setEditTriggers (x : EditTriggers) (s : t) : t :=
  mk (LoadFileButtonEnabled s) (TableComboBox s) (AddButton s) (DeleteButton
     s) (EditButton s) (UpdateButtonEnabled s) (CancelButtonEnabled s)
     (DataTable s) x (Worker s) (CurrentFilePath s) (CurrentTableName s)
     (IsAddMode s) (IsDeleteMode s) (IsEditMode s) (HasUnsavedChanges s).
Definition setWorker (x : XMLWorker) (s : t) : t :=
  mk (LoadFileButtonEnabled s) (TableComboBox s) (AddButton s) (DeleteButton
     s) (EditButton s) (UpdateButtonEnabled s) (CancelButtonEnabled s)
     (DataTable s) (editTriggers s) x (CurrentFilePath s) (CurrentTableName
     s) (IsAddMode s) (IsDeleteMode s) (IsEditMode s) (HasUnsavedChanges s).
Definition setCurrentFilePath (x : string) (s : t) : t :=
  mk (LoadFileButtonEnabled s) (TableComboBox s) (AddButton s) (DeleteButton
     s) (EditButton s) (UpdateButtonEnabled s) (CancelButtonEnabled s)
     (DataTable s) (editTriggers s) (Worker s) x (CurrentTableName s)
     (IsAddMode s) (IsDeleteMode s) (IsEditMode s) (HasUnsavedChanges s).
Definition setCurrentTableName (x : string) (s : t) : t :=
  mk (LoadFileButtonEnabled s) (TableComboBox s) (AddButton s) (DeleteButton
     s) (EditButton s) (UpdateButtonEnabled s) (CancelButtonEnabled s)
     (DataTable s) (editTriggers s) (Worker s) (CurrentFilePath s) x
     (IsAddMode s) (IsDeleteMode s) (IsEditMode s) (HasUnsavedChanges s).
Definition setIsAddMode (x : bool) (s : t) : t :=
  mk (LoadFileButtonEnabled s) (TableComboBox s) (AddButton s) (DeleteButton
     s) (EditButton s) (UpdateButtonEnabled s) (CancelButtonEnabled s)
     (DataTable s) (editTriggers s) (Worker s) (CurrentFilePath s)
     (CurrentTableName s) x (IsDeleteMode s) (IsEditMode s)
     (HasUnsavedChanges s).
Definition setIsDeleteMode (x : bool) (s : t) : t :=
  mk (LoadFileButtonEnabled s) (TableComboBox s) (AddButton s) (DeleteButton
     s) (EditButton s) (UpdateButtonEnabled s) (CancelButtonEnabled s)
     (DataTable s) (editTriggers s) (Worker s) (CurrentFilePath s)
     (CurrentTableName s) (IsAddMode s) x (IsEditMode s) (HasUnsavedChanges
     s).
Definition setIsEditMode (x : bool) (s : t) : t :=
  mk (LoadFileButtonEnabled s) (TableComboBox s) (AddButton s) (DeleteButton
     s) (EditButton s) (UpdateButtonEnabled s) (CancelButtonEnabled s)
     (DataTable s) (editTriggers s) (Worker s) (CurrentFilePath s)
     (CurrentTableName s) (IsAddMode s) (IsDeleteMode s) x
     (HasUnsavedChanges s).
Definition setHasUnsavedChanges (x : bool) (s : t) : t :=
  mk (LoadFileButtonEnabled s) (TableComboBox s) (AddButton s) (DeleteButton
     s) (EditButton s) (UpdateButtonEnabled s) (CancelButtonEnabled s)
     (DataTable s) (editTriggers s) (Worker s) (CurrentFilePath s)
     (CurrentTableName s) (IsAddMode s) (IsDeleteMode s) (IsEditMode s) x.

(** [QString::arg] on an [int]. *)
Definition decimal (z : Z) : string := NilZero.string_of_int (Z.to_int z).

Definition initialButton : QPushButton :=
  mkQPushButton false false
    (String.append NORMAL_BUTTON_STYLE DISABLED_BUTTON_STYLE).

(** The window as the constructor and [InitializeUI] leave it. *)
Definition initial : t :=
  mk false (mkQComboBox [] (-1) false)
     initialButton initialButton initialButton false false
     (mkQTableWidget 0 0 (fun _ => None) (fun _ _ => None))
     NoEditTriggers newXMLWorker "" "" false false false false.

(** [MainWindow::EnableTableEditing] and [MainWindow::DisableTableEditing]. *)
Definition EnableTableEditing (s : t) : t :=
  setEditTriggers DoubleClickedOrEditKeyPressed s.
Definition DisableTableEditing (s : t) : t :=
  setEditTriggers NoEditTriggers s.

(** The style [ResetToggleButtons] gives a button, by whether it is
    enabled. *)
Definition resetStyle (p : QPushButton) : QPushButton :=
  if isEnabled p then setStyleSheet NORMAL_BUTTON_STYLE p
  else setStyleSheet
         (String.append NORMAL_BUTTON_STYLE DISABLED_BUTTON_STYLE) p.

(** [MainWindow::ResetToggleButtons]. *)
Definition ResetToggleButtons (s : t) : t :=
  let s := setAddButton (setChecked false (AddButton s)) s in
  let s := setDeleteButton (setChecked false (DeleteButton s)) s in
  let s := setEditButton (setChecked false (EditButton s)) s in
  let s := setAddButton (resetStyle (AddButton s)) s in
  let s := setDeleteButton (resetStyle (DeleteButton s)) s in
  let s := setEditButton (resetStyle (EditButton s)) s in
  let s := setIsAddMode false s in
  let s := setIsDeleteMode false s in
  let s := setIsEditMode false s in
  setEditTriggers NoEditTriggers s.

(** [MainWindow::LoadTableData]. *)
Definition LoadTableData (s : t) : t * list Dialog :=
  if String.eqb (CurrentTableName s) "" || negb (IsFileLoaded (Worker s))
  then (s, [])
  else
    match LoadTableData (Worker s) (CurrentTableName s) (Some (DataTable s))
    with
    | (true, Some g) => (setHasUnsavedChanges false (setDataTable g s), [])
    | (true, None) => (setHasUnsavedChanges false s, [])
    | (false, _) => (s, [warning "Warning" "Failed to load table data."])
    end.

(** [MainWindow::AddNewRow]. *)
Definition AddNewRow (s : t) : t :=
  let newRow := rowCount (DataTable s) in
  let g := insertRow newRow (DataTable s) in
  let g := fold_left (fun g col => setItem newRow col "" g)
             (seq 0 (columnCount g)) g in
  let s := setDataTable g s in
  let s := setEditTriggers DoubleClicked s in
  setHasUnsavedChanges true s.

(** [MainWindow::DeleteRow]. *)
Definition DeleteRow (row : Z) (s : t) : t :=
  if (0 <=? row)%Z && (row <? Z.of_nat (rowCount (DataTable s)))%Z
  then setHasUnsavedChanges true
         (setDataTable (removeRow (Z.to_nat row) (DataTable s)) s)
  else s.

(** [MainWindow::OnTableSelectionChanged], the slot of the combo box's
    [currentIndexChanged]. *)
Definition OnTableSelectionChanged (s : t) : t * list Dialog :=
  if (0 <=? currentIndex (TableComboBox s))%Z then
    let s := setCurrentTableName (currentText (TableComboBox s)) s in
    let (s, shown) := LoadTableData s in
    let c := TableComboBox s in
    let s := setTableComboBox
               (mkQComboBox (comboItems c) (currentIndex c) true) s in
    let s := setAddButton (setEnabled true (AddButton s)) s in
    let s := setDeleteButton (setEnabled true (DeleteButton s)) s in
    let s := setEditButton (setEnabled true (EditButton s)) s in
    let s := setUpdateButtonEnabled true s in
    let s := setCancelButtonEnabled true s in
    (ResetToggleButtons s, shown)
  else (s, []).

(** The combo box gets the current index [index]; the slot runs when the
    index changes. *)
Definition setCurrentIndex (index : Z) (s : t) : t * list Dialog :=
  let c := TableComboBox s in
  let s' := setTableComboBox
              (mkQComboBox (comboItems c) index (comboEnabled c)) s in
  if (currentIndex c =? index)%Z then (s', [])
  else OnTableSelectionChanged s'.

(** [TableComboBox->clear()]: no item and no current index. *)
Definition clearComboBox (s : t) : t * list Dialog :=
  let c := TableComboBox s in
  let s := setTableComboBox
             (mkQComboBox [] (currentIndex c) (comboEnabled c)) s in
  setCurrentIndex (-1) s.

(** [TableComboBox->addItems(names)]: the first item added to an empty
    box becomes the current one. *)
Definition addItems (names : list string) (s : t) : t * list Dialog :=
  let c := TableComboBox s in
  let s' := setTableComboBox
              (mkQComboBox (comboItems c ++ names) (currentIndex c)
                 (comboEnabled c)) s in
  match comboItems c, names with
  | [], _ :: _ => setCurrentIndex 0 s'
  | _, _ => (s', [])
  end.

(** [MainWindow::OnLoadFileClicked]. *)
Definition OnLoadFileClicked (qt : QtServices) (s : t) : t * list Dialog :=
  if String.eqb (CurrentFilePath s) "" then
    (s, [warning "Warning" "No file selected."])
  else
    let (s, shown0) := clearComboBox s in
    let s := setDataTable
               (setColumnCount 0 (setRowCount 0 (DataTable s))) s in
    let loaded := LoadXMLFile qt (Worker s) (CurrentFilePath s) in
    let s := setWorker (snd (fst loaded)) s in
    if fst (fst loaded) then
      let tableNames := GetTableNames (Worker s) in
      match tableNames with
      | [] =>
          (s, shown0
              ++ [warning "Warning" "No tables found in the XML file."])
      | _ :: _ =>
          let (s, shown1) := addItems tableNames s in
          let c := TableComboBox s in
          let s := setTableComboBox
                     (mkQComboBox (comboItems c) (currentIndex c) true) s in
          (s, shown0 ++ shown1
              ++ [information "Success" "XML file loaded successfully."])
      end
    else
      (s, shown0
          ++ [critical "Error"
                "Failed to load XML file. Please check if it is a valid XML file."]).

(** [MainWindow::OnChooseFileClicked]; [chosen] is what the file dialog
    returns, the empty string when it is cancelled. *)
Definition OnChooseFileClicked (qt : QtServices) (chosen : string) (s : t)
  : t * list Dialog :=
  if String.eqb chosen "" then (s, [])
  else
    let s := setCurrentFilePath chosen s in
    let s := setLoadFileButtonEnabled true s in
    OnLoadFileClicked qt s.

(** [MainWindow::OnAddButtonClicked]. *)
Definition OnAddButtonClicked (s : t) : t :=
  if IsAddMode s then
    let s := setIsAddMode false s in
    let s := setAddButton
               (setChecked false
                  (setStyleSheet NORMAL_BUTTON_STYLE (AddButton s))) s in
    DisableTableEditing s
  else
    let s := ResetToggleButtons s in
    let s := setIsAddMode true s in
    let s := setAddButton
               (setChecked true
                  (setStyleSheet ACTIVE_BUTTON_STYLE (AddButton s))) s in
    AddNewRow s.

(** [MainWindow::OnDeleteButtonClicked]. *)
Definition OnDeleteButtonClicked (s : t) : t * list Dialog :=
  if IsDeleteMode s then
    let s := setIsDeleteMode false s in
    (setDeleteButton
       (setChecked false
          (setStyleSheet NORMAL_BUTTON_STYLE (DeleteButton s))) s, [])
  else
    let s := ResetToggleButtons s in
    let s := setIsDeleteMode true s in
    (setDeleteButton
       (setChecked true
          (setStyleSheet ACTIVE_BUTTON_STYLE (DeleteButton s))) s,
     [information "Delete Mode"
        "Delete mode activated. Double-click any row to delete it."]).

(** [MainWindow::OnEditButtonClicked]. *)
Definition OnEditButtonClicked (s : t) : t :=
  if IsEditMode s then
    let s := setIsEditMode false s in
    let s := setEditButton
               (setChecked false
                  (setStyleSheet NORMAL_BUTTON_STYLE (EditButton s))) s in
    DisableTableEditing s
  else
    let s := ResetToggleButtons s in
    let s := setIsEditMode true s in
    let s := setEditButton
               (setChecked true
                  (setStyleSheet ACTIVE_BUTTON_STYLE (EditButton s))) s in
    EnableTableEditing s.

(** [MainWindow::OnUpdateButtonClicked]; the three branches on the mode
    make the same call.  [None] when the call of the worker never
    returns. *)
Definition OnUpdateButtonClicked (qt : QtServices) (s : t)
  : option (t * QtServices * list Dialog) :=
  if negb (HasUnsavedChanges s) && negb (IsAddMode s)
     && negb (IsDeleteMode s) && negb (IsEditMode s)
  then Some (s, qt, [information "Info" "No changes to save."])
  else
    match UpdateCompleteTable (Worker s) (CurrentTableName s)
            (Some (DataTable s)) with
    | None => None
    | Some (success, w') =>
        let s := setWorker w' s in
        if success then
          let (saved, qt') := SaveXMLFile qt (Worker s) in
          if saved then
            let s := ResetToggleButtons s in
            let (s, shown) := LoadTableData s in
            let s := setHasUnsavedChanges false s in
            Some (s, qt',
                  information "Success"
                    "Changes saved successfully to XML file." :: shown)
          else
            Some (s, qt',
                  [critical "Error" "Failed to save changes to XML file."])
        else
          Some (s, qt, [critical "Error" "Failed to update table data."])
    end.

(** [MainWindow::OnCancelButtonClicked]; [answerYes] is the answer to the
    question it asks. *)
Definition OnCancelButtonClicked (answerYes : bool) (s : t)
  : t * list Dialog :=
  if negb (HasUnsavedChanges s) && negb (IsAddMode s)
     && negb (IsDeleteMode s) && negb (IsEditMode s)
  then (s, [information "Info" "No changes to discard."])
  else
    let asked := question "Confirm Discard"
                   "Are you sure you want to discard all changes?" in
    if answerYes then
      let s := ResetToggleButtons s in
      let (s, shown) := LoadTableData s in
      let s := setHasUnsavedChanges false s in
      (s, asked :: shown
             ++ [information "Info" "All changes have been discarded."])
    else (s, [asked]).

(** [MainWindow::OnRowDoubleClicked]. *)
Definition OnRowDoubleClicked (row column : Z) (answerYes : bool) (s : t)
  : t * list Dialog :=
  if IsDeleteMode s && (0 <=? row)%Z then
    let asked :=
      question "Confirm Deletion"
        (String.append "Are you sure you want to delete row "
           (String.append (decimal (row + 1)) "?")) in
    if answerYes then
      (setHasUnsavedChanges true (DeleteRow row s), [asked])
    else (s, [asked])
  else (s, []).

(** What the user can do to the window. *)
Inductive Event : Type :=
| chooseFile (chosen : string)
| clickLoadFile
| selectTable (index : nat)
| clickAdd
| clickDelete
| clickEdit
| clickUpdate
| clickCancel (answerYes : bool)
| doubleClickCell (row column : Z) (answerYes : bool)
| typeInCell (row column : nat) (text : string).

(** A click on a checkable button flips its checked state before the
    slot runs. *)
Definition flipped (p : QPushButton) : QPushButton :=
  setChecked (negb (isChecked p)) p.

(** One event: the slot wired to it by [SetupConnections] runs, when the
    widget is enabled.  A cell takes what is typed when the grid has an
    edit trigger and the cell exists. *)
Definition step (qt : QtServices) (e : Event) (s : t)
  : option (t * QtServices * list Dialog) :=
  match e with
  | chooseFile chosen =>
      let (s', shown) := OnChooseFileClicked qt chosen s in
      Some (s', qt, shown)
  | clickLoadFile =>
      if LoadFileButtonEnabled s then
        let (s', shown) := OnLoadFileClicked qt s in Some (s', qt, shown)
      else Some (s, qt, [])
  | selectTable index =>
      if comboEnabled (TableComboBox s)
         && Nat.ltb index (length (comboItems (TableComboBox s)))
      then
        let (s', shown) := setCurrentIndex (Z.of_nat index) s in
        Some (s', qt, shown)
      else Some (s, qt, [])
  | clickAdd =>
      if isEnabled (AddButton s) then
        Some (OnAddButtonClicked (setAddButton (flipped (AddButton s)) s),
              qt, [])
      else Some (s, qt, [])
  | clickDelete =>
      if isEnabled (DeleteButton s) then
        let (s', shown) :=
          OnDeleteButtonClicked
            (setDeleteButton (flipped (DeleteButton s)) s) in
        Some (s', qt, shown)
      else Some (s, qt, [])
  | clickEdit =>
      if isEnabled (EditButton s) then
        Some (OnEditButtonClicked (setEditButton (flipped (EditButton s)) s),
              qt, [])
      else Some (s, qt, [])
  | clickUpdate =>
      if UpdateButtonEnabled s then OnUpdateButtonClicked qt s
      else Some (s, qt, [])
  | clickCancel answerYes =>
      if CancelButtonEnabled s then
        let (s', shown) := OnCancelButtonClicked answerYes s in
        Some (s', qt, shown)
      else Some (s, qt, [])
  | doubleClickCell row column answerYes =>
      let (s', shown) := OnRowDoubleClicked row column answerYes s in
      Some (s', qt, shown)
  | typeInCell row column text =>
      match editTriggers s with
      | NoEditTriggers => Some (s, qt, [])
      | _ =>
          Some (setDataTable (setItem row column text (DataTable s)) s,
                qt, [])
      end
  end.

(** A sequence of events, each on the files the one before left. *)
Fixpoint run (qt : QtServices) (events : list Event) (s : t)
  : option (t * QtServices * list Dialog) :=
  match events with
  | [] => Some (s, qt, [])
  | e :: rest =>
      match step qt e s with
      | None => None
      | Some (s', qt', shown) =>
          match run qt' rest s' with
          | None => None
          | Some (s'', qt'', shown') => Some (s'', qt'', shown ++ shown')
          end
      end
  end.

(** The window after [events], from the start. *)
Definition after (qt : QtServices) (events : list Event) : t :=
  match run qt events initial with
  | Some (s, _, _) => s
  | None => initial
  end.

(** The states the window can be in: the initial one and those that
    events lead to, whatever the files hold at each event. *)
Inductive reachable : t -> Prop :=
| reachable_initial : reachable initial
| reachable_step :
    forall s qt e s' qt' shown,
      reachable s -> step qt e s = Some (s', qt', shown) -> reachable s'.

(** The edit triggers that go with the mode flags. *)
Definition triggersFor (s : t) : EditTriggers :=
  if IsAddMode s then DoubleClicked
  else if IsEditMode s then DoubleClickedOrEditKeyPressed
  else NoEditTriggers.

Definition atMostOneMode (s : t) : bool :=
  negb (IsAddMode s && IsDeleteMode s)
  && negb (IsAddMode s && IsEditMode s)
  && negb (IsDeleteMode s && IsEditMode s).

(** A toggle button shows its mode: checked and in the active style when
    the mode is on, unchecked and in another style when it is off. *)
Definition shows (p : QPushButton) (mode : bool) : Prop :=
  isChecked p = mode /\
  String.eqb (styleSheet p) ACTIVE_BUTTON_STYLE = mode.

Definition consistent (s : t) : Prop :=
  atMostOneMode s = true /\
  shows (AddButton s) (IsAddMode s) /\
  shows (DeleteButton s) (IsDeleteMode s) /\
  shows (EditButton s) (IsEditMode s) /\
  editTriggers s = triggersFor s.

(** What [consistent] looks at. *)
Definition modeView (s : t) :=
  (IsAddMode s, IsDeleteMode s, IsEditMode s,
   (isChecked (AddButton s), styleSheet (AddButton s)),
   (isChecked (DeleteButton s), styleSheet (DeleteButton s)),
   (isChecked (EditButton s), styleSheet (EditButton s)),
   editTriggers s).

End MainWindow.

(** The file [sample.xml], which holds [sampleRoot], and a parser that
    reads it. *)
Definition sampleContent : string :=
  "<database><table name='T'><row><cell name='Col1'>a</cell><cell name='Col2'>b</cell></row><row><cell name='Col1'>c</cell></row></table></database>".

Definition rowsQt : QtServices :=
  mkQtServices
    (fun path =>
       if String.eqb path "sample.xml" then Some sampleContent else None)
    (fun _ => true)
    (fun _ content =>
       if String.eqb content sampleContent
       then mkSetContentResult true (Some sampleRoot) "" 0 0
       else mkSetContentResult false None "Start tag expected." 1 1)
    (fun _ _ => sampleContent).

(** The window once [sample.xml] has been chosen, and after a click on
    one of the toggle buttons. *)
Definition shownWindow : MainWindow.t :=
  MainWindow.after rowsQt [MainWindow.chooseFile "sample.xml"].

Definition addingWindow : MainWindow.t :=
  MainWindow.after rowsQt
    [MainWindow.chooseFile "sample.xml"; MainWindow.clickAdd].

Definition deletingWindow : MainWindow.t :=
  MainWindow.after rowsQt
    [MainWindow.chooseFile "sample.xml"; MainWindow.clickDelete].

Definition editingWindow : MainWindow.t :=
  MainWindow.after rowsQt
    [MainWindow.chooseFile "sample.xml"; MainWindow.clickEdit].

(** The file [twins.xml], which holds the two tables named [X], a parser
    that reads it, and the window once the file has been chosen and a row
    added to the grid. *)
Definition twinsContent : string :=
  "<database><table name='X'><row><cell name='A'>1</cell></row></table><table name='X'><row><cell name='A'>2</cell></row></table></database>".

Definition twinsQt : QtServices :=
  mkQtServices
    (fun path =>
       if String.eqb path "twins.xml" then Some twinsContent else None)
    (fun _ => true)
    (fun _ content =>
       if String.eqb content twinsContent
       then mkSetContentResult true
              (Some (Element "database" [] [firstX; secondX])) "" 0 0
       else mkSetContentResult false None "Start tag expected." 1 1)
    (fun _ _ => twinsContent).

Definition twinsWindow : MainWindow.t :=
  MainWindow.after twinsQt
    [MainWindow.chooseFile "twins.xml"; MainWindow.clickAdd].

(* ================================================================== *)
(** * Properties *)

(* ------------------------------------------------------------------ *)
(** ** Failed loads *)

(** C1, as the code has it: a call of [LoadXMLFile] that returns [false]
    leaves the current file path, the snapshot of table names and the
    loaded flag as they were.  The document is left as it was when the path
    is empty or the file cannot be opened; once the file has been opened
    the document is what [setContent] made of it. *)
Theorem failed_load_keeps_session_fields :
  forall (qt : QtServices) (w : XMLWorker) (filePath : string),
    fst (fst (LoadXMLFile qt w filePath)) = false ->
    let w' := snd (fst (LoadXMLFile qt w filePath)) in
    CurrentFilePath w' = CurrentFilePath w /\
    AvailableTableNames w' = AvailableTableNames w /\
    FileLoaded w' = FileLoaded w /\
    (filePath = "" \/ openForReading qt filePath = None ->
     XmlDocument w' = XmlDocument w) /\
    (forall content,
        filePath <> "" -> openForReading qt filePath = Some content ->
        XmlDocument w' = sc_document (setContent qt (XmlDocument w) content)).
Proof.
  intros qt w filePath. unfold LoadXMLFile.
  destruct (String.eqb_spec filePath "") as [Hempty | Hpath].
  - simpl. intros _. repeat split; auto. intros content Hne; contradiction.
  - destruct (openForReading qt filePath) as [content |] eqn:Hopen.
    + destruct (sc_ok (setContent qt (XmlDocument w) content)) eqn:Hok; simpl.
      * unfold ValidateXMLStructure. simpl.
        destruct (sc_document (setContent qt (XmlDocument w) content))
          as [root |] eqn:Hdoc; simpl.
        -- discriminate.
        -- intros _. repeat split; auto.
           ++ intros [H | H]; [contradiction | discriminate].
           ++ intros c _ Hc. injection Hc as <-. now rewrite Hdoc.
      * intros _. repeat split; auto.
        -- intros [H | H]; [contradiction | discriminate].
        -- intros c _ Hc. now injection Hc as <-.
    + simpl. intros _. repeat split; auto. intros c _ Hc; discriminate.
Qed.

Lemma failed_load_keeps_session_fields_witness :
  fst (fst (LoadXMLFile (sampleQt 1 1 "Start tag expected.")
              loadedWorker "broken.xml")) = false /\
  CurrentFilePath
    (snd (fst (LoadXMLFile (sampleQt 1 1 "Start tag expected.")
                 loadedWorker "broken.xml"))) = "good.xml".
Proof.
  split.
  - reflexivity.
  - exact (proj1 (failed_load_keeps_session_fields
                    (sampleQt 1 1 "Start tag expected.") loadedWorker
                    "broken.xml" eq_refl)).
Defined.

(** C1 as stated fails: after a successful load of [good.xml], loading the
    malformed [broken.xml] returns [false] and the worker's document is no
    longer the one that was loaded. *)
Lemma failed_load_changes_document :
  FileLoaded loadedWorker = true /\
  XmlDocument loadedWorker = Some parsedGood /\
  fst (fst (LoadXMLFile (sampleQt 1 1 "Start tag expected.")
              loadedWorker "broken.xml")) = false /\
  XmlDocument
    (snd (fst (LoadXMLFile (sampleQt 1 1 "Start tag expected.")
                 loadedWorker "broken.xml")))
  <> XmlDocument loadedWorker.
Proof.
  repeat split; try reflexivity.
  vm_compute. discriminate.
Qed.

(** C3, as the code has it: when the parser rejects the content of the
    file, [LoadXMLFile] returns the bare [false]; the parser's line, column
    and message go to the debug stream, in one line, and nowhere else. *)
Theorem parse_failure_is_only_logged :
  forall (qt : QtServices) (w : XMLWorker) (filePath content : string),
    filePath <> "" ->
    openForReading qt filePath = Some content ->
    sc_ok (setContent qt (XmlDocument w) content) = false ->
    let parsed := setContent qt (XmlDocument w) content in
    LoadXMLFile qt w filePath =
      (false, withDocument w (sc_document parsed),
       [[Lit "Error: XML parsing failed at line"; Num (sc_errorLine parsed);
         Lit "column"; Num (sc_errorColumn parsed);
         Lit ":"; Quoted (sc_errorMsg parsed)]]).
Proof.
  intros qt w filePath content Hpath Hopen Hok. unfold LoadXMLFile.
  destruct (String.eqb_spec filePath "") as [Hempty | _]; [contradiction |].
  rewrite Hopen. simpl. rewrite Hok. reflexivity.
Qed.

Lemma parse_failure_is_only_logged_witness :
  LoadXMLFile (sampleQt 3 7 "Opening and ending tag mismatch.")
    loadedWorker "broken.xml" =
  (false, withDocument loadedWorker None,
   [[Lit "Error: XML parsing failed at line"; Num 3;
     Lit "column"; Num 7;
     Lit ":"; Quoted "Opening and ending tag mismatch."]]).
Proof.
  apply (parse_failure_is_only_logged
           (sampleQt 3 7 "Opening and ending tag mismatch.") loadedWorker
           "broken.xml" "no markup here").
  - discriminate.
  - reflexivity.
  - reflexivity.
Defined.

(** C3 as stated fails: no function of what [LoadXMLFile] hands back to
    its caller (the boolean, and the worker it leaves) recovers the
    parser's line, column and message; two parsers that stop at different
    places give the caller the same thing. *)
Lemma parse_diagnostics_not_returned :
  ~ (exists recover : bool * XMLWorker -> Z * Z * string,
       forall (qt : QtServices) (w : XMLWorker) (filePath content : string),
         filePath <> "" ->
         openForReading qt filePath = Some content ->
         sc_ok (setContent qt (XmlDocument w) content) = false ->
         recover (fst (LoadXMLFile qt w filePath)) =
           (sc_errorLine (setContent qt (XmlDocument w) content),
            sc_errorColumn (setContent qt (XmlDocument w) content),
            sc_errorMsg (setContent qt (XmlDocument w) content))).
Proof.
  intros [recover Hrec].
  assert (Hne : "broken.xml" <> "") by discriminate.
  pose proof (Hrec (sampleQt 1 1 "Start tag expected.") loadedWorker
                "broken.xml" "no markup here" Hne eq_refl eq_refl) as H1.
  pose proof (Hrec (sampleQt 3 7 "Opening and ending tag mismatch.")
                loadedWorker "broken.xml" "no markup here" Hne eq_refl
                eq_refl) as H2.
  vm_compute in H1, H2. rewrite H1 in H2. discriminate.
Qed.

(* ------------------------------------------------------------------ *)
(** ** Saving and loading again *)

(** What the class itself does between a save and the next load of the
    same file: the text that [toString(4)] makes of the document is handed
    to [setContent], and the worker is rebuilt from what the parser
    returns; the path stays, the table names are read off the new
    document.  Whether that document shows the headers and rows of the old
    one is up to these two functions of Qt. *)
Lemma save_then_load :
  forall (qt qt' : QtServices) (w : XMLWorker),
    SaveXMLFile qt w = (true, qt') ->
    let parsed :=
      setContent qt (XmlDocument w) (toString qt (XmlDocument w) 4) in
    sc_ok parsed = true ->
    sc_document parsed <> None ->
    fst (LoadXMLFile qt' w (CurrentFilePath w))
    = (true,
       mkXMLWorker (CurrentFilePath w) (sc_document parsed)
         (collectTableNames (tableNodes (sc_document parsed))) true).
Proof.
  intros qt qt' w Hsave parsed Hok Hroot. unfold SaveXMLFile in Hsave.
  destruct (FileLoaded w); [| discriminate]. simpl in Hsave.
  destruct (String.eqb_spec (CurrentFilePath w) "") as [| Hpath];
    [discriminate |].
  destruct (openForWriting qt (CurrentFilePath w)); [| discriminate].
  injection Hsave as <-. unfold LoadXMLFile.
  destruct (String.eqb_spec (CurrentFilePath w) "") as [| _];
    [contradiction |].
  cbn [openForReading written setContent]. rewrite String.eqb_refl.
  fold parsed. rewrite Hok. cbn [negb].
  unfold ValidateXMLStructure. cbn [XmlDocument withDocument].
  destruct (sc_document parsed) as [root |]; [| contradiction].
  reflexivity.
Qed.

(* ------------------------------------------------------------------ *)
(** ** Looking tables up *)

Lemma attribute_of_attributeNode :
  forall n name v, attributeNode n name = Some v -> attribute n name = v.
Proof. intros n name v H. unfold attribute. now rewrite H. Qed.

Lemma attribute_nonempty :
  forall n name v,
    attribute n name = v -> v <> "" -> attributeNode n name = Some v.
Proof.
  intros n name v H Hv. unfold attribute in H.
  destruct (attributeNode n name) as [v' |]; congruence.
Qed.

(** [FindTableElement] answers [None] exactly when no table in the list
    carries the name. *)
Lemma FindTableElement_None :
  forall w tableName,
    FindTableElement w tableName = None <->
    forall pn, In pn (tableNodes (XmlDocument w)) ->
               attribute (snd pn) "name" <> tableName.
Proof.
  intros w tableName. unfold FindTableElement. split.
  - intros H pn Hin Heq.
    apply (find_none _ _ H) in Hin. unfold namedAs in Hin.
    apply String.eqb_neq in Hin. contradiction.
  - intros H. destruct (find (namedAs tableName) _) as [pn |] eqn:Hfind; auto.
    apply find_some in Hfind. destruct Hfind as [Hin Hname].
    unfold namedAs in Hname. apply String.eqb_eq in Hname.
    now apply H in Hin.
Qed.

(** C9: when no table element of the document has [tableName] as its
    [name] attribute, loading the table into a grid, adding a row, deleting
    a row and replacing the table all return [false], and the document (the
    whole worker, in fact) and the grid are what they were. *)
Theorem unknown_table_is_rejected :
  forall (w : XMLWorker) (tableName : string) (grid : option QTableWidget)
         (rowData : list string) (rowIndex : Z),
    (forall pn, In pn (tableNodes (XmlDocument w)) ->
                attributeNode (snd pn) "name" <> Some tableName) ->
    LoadTableData w tableName grid = (false, grid) /\
    AddRowToTable w tableName rowData = (false, w) /\
    DeleteRowFromTable w tableName rowIndex = (false, w) /\
    UpdateCompleteTable w tableName grid = Some (false, w).
Proof.
  intros w tableName grid rowData rowIndex Habsent.
  unfold LoadTableData, AddRowToTable, DeleteRowFromTable, UpdateCompleteTable.
  destruct (String.eqb_spec tableName "") as [Hempty | Hname].
  - rewrite !orb_true_r. simpl. now destruct grid.
  - assert (Hfind : FindTableElement w tableName = None).
    { apply FindTableElement_None. intros pn Hin Heq.
      apply (Habsent pn Hin). now apply attribute_nonempty. }
    rewrite Hfind, !orb_false_r.
    destruct (FileLoaded w); simpl; destruct grid;
      destruct (rowIndex <? 0)%Z; auto.
Qed.

Lemma unknown_table_is_rejected_witness :
  LoadTableData sampleWorker "Absent" (Some emptyGrid)
    = (false, Some emptyGrid) /\
  AddRowToTable sampleWorker "Absent" ["x"] = (false, sampleWorker) /\
  DeleteRowFromTable sampleWorker "Absent" 0 = (false, sampleWorker) /\
  UpdateCompleteTable sampleWorker "Absent" (Some emptyGrid)
    = Some (false, sampleWorker).
Proof.
  apply (unknown_table_is_rejected sampleWorker "Absent").
  simpl. intros pn [<- | []]. simpl. discriminate.
Defined.

(* ------------------------------------------------------------------ *)
(** ** Headers and rows *)

Lemma headersFrom_length :
  forall cells i, length (headersFrom i cells) = length cells.
Proof. induction cells as [| c cells IH]; simpl; intros i; auto. Qed.

Lemma headersFrom_nth :
  forall cells i j c,
    nth_error cells j = Some c ->
    nth_error (headersFrom i cells) j = Some (headerOfCell (i + j) c).
Proof.
  induction cells as [| c0 cells IH]; intros i j c Hj.
  - destruct j; discriminate.
  - destruct j as [| j]; simpl in *.
    + injection Hj as ->. rewrite Nat.add_0_r. unfold headerOfCell, attribute.
      destruct (attributeNode (snd c) "name") as [v |]; simpl; auto.
    + rewrite (IH (S i) j c Hj). f_equal. f_equal. lia.
Qed.

Lemma rowDataOf_map :
  forall cells, rowDataOf cells = map (fun c => text (snd c)) cells.
Proof. induction cells as [| c cells IH]; simpl; congruence. Qed.

Lemma rowsOf_map :
  forall rows,
    rowsOf rows =
    map (fun r => map (fun c => text (snd c))
                    (elementsByTagName (snd r) CELL_ELEMENT_NAME)) rows.
Proof.
  induction rows as [| r rows IH]; simpl; [reflexivity |].
  rewrite rowDataOf_map, IH. reflexivity.
Qed.

(** C5: the headers of a table are read off the cells of its first row
    and of no other, one header per cell and in the cells' order; a cell
    without a [name], or with an empty one, at position [i] (counted from
    0) stands as the text [Column_] followed by the decimal digits of
    [i + 1], its 1-based position: [Column_1] for the first cell,
    [Column_2] for the second, [Column_10] for the tenth.  A table
    without rows has no headers; the extracted rows are, row by row in
    document order, the texts of the row's cells in their order.  So a
    table with rows [a, b] and [c] whose first-row cells are named [Col1]
    and [Col2] has headers [Col1, Col2] and second row [c]. *)
Theorem headers_from_first_row_rows_positional :
  forall tableElement : QDomNode,
    let rowNodes := elementsByTagName tableElement ROW_ELEMENT_NAME in
    let cellsOf := fun r : Located =>
                     elementsByTagName (snd r) CELL_ELEMENT_NAME in
    let placeholder := fun i : nat =>
                         String.append "Column_"
                           (NilEmpty.string_of_uint (Nat.to_uint (i + 1))) in
    match rowNodes with
    | [] => ExtractColumnHeaders tableElement = []
    | firstRow :: _ =>
        length (ExtractColumnHeaders tableElement) = length (cellsOf firstRow)
        /\ (forall i c,
               nth_error (cellsOf firstRow) i = Some c ->
               nth_error (ExtractColumnHeaders tableElement) i =
                 Some match attributeNode (snd c) "name" with
                      | Some v => if String.eqb v "" then placeholder i
                                  else v
                      | None => placeholder i
                      end)
        /\ (forall i c,
               nth_error (cellsOf firstRow) i = Some c ->
               attributeNode (snd c) "name" = None \/
               attributeNode (snd c) "name" = Some "" ->
               exists digits,
                 nth_error (ExtractColumnHeaders tableElement) i
                 = Some (String.append "Column_" digits) /\
                 option_map Nat.of_uint (NilEmpty.uint_of_string digits)
                 = Some (i + 1))
    end
    /\ ExtractTableRows tableElement =
         map (fun r => map (fun c => text (snd c)) (cellsOf r)) rowNodes
    /\ (placeholder 0 = "Column_1" /\ placeholder 1 = "Column_2" /\
        placeholder 9 = "Column_10" /\ placeholder 122 = "Column_123")
    /\ forall r1 r2 c1 c2 c3,
         rowNodes = [r1; r2] ->
         cellsOf r1 = [c1; c2] -> cellsOf r2 = [c3] ->
         attributeNode (snd c1) "name" = Some "Col1" ->
         attributeNode (snd c2) "name" = Some "Col2" ->
         text (snd c1) = "a" -> text (snd c2) = "b" -> text (snd c3) = "c" ->
         ExtractColumnHeaders tableElement = ["Col1"; "Col2"] /\
         nth_error (ExtractTableRows tableElement) 1 = Some ["c"].
Proof.
  intros tableElement rowNodes cellsOf placeholder.
  split; [| split; [| split; [repeat split |]]].
  - unfold ExtractColumnHeaders. fold rowNodes.
    destruct rowNodes as [| firstRow rest]; auto.
    fold (cellsOf firstRow).
    assert (Hnth : forall i c,
               nth_error (cellsOf firstRow) i = Some c ->
               nth_error (headersFrom 0 (cellsOf firstRow)) i =
                 Some match attributeNode (snd c) "name" with
                      | Some v => if String.eqb v "" then placeholder i
                                  else v
                      | None => placeholder i
                      end).
    { intros i c Hc. apply (headersFrom_nth _ 0) in Hc. exact Hc. }
    split; [apply headersFrom_length |]. split; [exact Hnth |].
    intros i c Hc Hname. rewrite (Hnth i c Hc).
    exists (NilEmpty.string_of_uint (Nat.to_uint (i + 1))). split.
    + destruct Hname as [-> | ->]; reflexivity.
    + rewrite NilEmpty.usu. cbn [option_map]. now rewrite Unsigned.of_to.
  - unfold ExtractTableRows. apply rowsOf_map.
  - intros r1 r2 c1 c2 c3 Hrows H1 H2 Hn1 Hn2 Ha Hb Hc.
    unfold ExtractColumnHeaders, ExtractTableRows. fold rowNodes.
    rewrite Hrows. cbn [rowsOf nth_error]. fold (cellsOf r1) (cellsOf r2).
    rewrite H1, H2. cbn [headersFrom rowDataOf].
    rewrite (attribute_of_attributeNode _ _ _ Hn1),
      (attribute_of_attributeNode _ _ _ Hn2), Hc.
    split; reflexivity.
Qed.

Lemma headers_from_first_row_rows_positional_witness :
  (ExtractColumnHeaders sampleTable = ["Col1"; "Col2"] /\
   nth_error (ExtractTableRows sampleTable) 1 = Some ["c"]) /\
  length (ExtractColumnHeaders unnamedTable) = 3 /\
  nth_error (ExtractColumnHeaders unnamedTable) 0 = Some "Col1" /\
  nth_error (ExtractColumnHeaders unnamedTable) 1 = Some "Column_2" /\
  nth_error (ExtractColumnHeaders unnamedTable) 2 = Some "Column_3".
Proof.
  split.
  - pose proof (headers_from_first_row_rows_positional sampleTable)
      as (_ & _ & _ & Hexample).
    apply (Hexample
             ([0], Element "row" [] [cell "Col1" "a"; cell "Col2" "b"])
             ([1], Element "row" [] [cell "Col1" "c"])
             ([0], cell "Col1" "a") ([1], cell "Col2" "b")
             ([0], cell "Col1" "c"));
      reflexivity.
  - pose proof (headers_from_first_row_rows_positional unnamedTable)
      as ((Hlength & Hnth & _) & _).
    split; [exact Hlength |].
    split; [exact (Hnth 0 ([0], cell "Col1" "a") eq_refl) |].
    split.
    + exact (Hnth 1 ([1], Element "cell" [] [TextNode "b"]) eq_refl).
    + exact (Hnth 2 ([2], Element "cell" [("name", "")] [TextNode "c"])
               eq_refl).
Defined.

(** The sample table in a grid: the second row fills the first column
    only and leaves the second one empty. *)
Example LoadTableData_sample :
  exists g,
    LoadTableData sampleWorker "T" (Some emptyGrid) = (true, Some g) /\
    columnCount g = 2 /\ rowCount g = 2 /\
    horizontalHeaderItem g 0 = Some "Col1" /\
    horizontalHeaderItem g 1 = Some "Col2" /\
    item g 0 0 = Some "a" /\ item g 0 1 = Some "b" /\
    item g 1 0 = Some "c" /\ item g 1 1 = None.
Proof. eexists. repeat split. Qed.

(* ------------------------------------------------------------------ *)
(** ** The traversal *)

Lemma descendants_Element :
  forall t a ks, descendants (Element t a ks) = walkChildren 0 ks.
Proof.
  intros t a ks. simpl. generalize 0.
  induction ks as [| k ks IH]; intros i; simpl; [reflexivity |].
  now rewrite IH.
Qed.

Lemma walkChildren_app :
  forall l1 l2 i,
    walkChildren i (l1 ++ l2) =
    walkChildren i l1 ++ walkChildren (i + length l1) l2.
Proof.
  induction l1 as [| k l1 IH]; intros l2 i; simpl.
  - now rewrite Nat.add_0_r.
  - replace (i + S (length l1)) with (S i + length l1) by lia.
    now rewrite IH, <- app_assoc.
Qed.

Lemma walkChildren_split :
  forall l1 k l2,
    walkChildren 0 (l1 ++ k :: l2) =
    walkChildren 0 l1
      ++ ([length l1], k) :: under (length l1) (descendants k)
      ++ walkChildren (S (length l1)) l2.
Proof. intros l1 k l2. now rewrite walkChildren_app. Qed.

(** The nodes met do not depend on where the numbering starts. *)
Lemma walkChildren_nodes :
  forall ks i j,
    map snd (walkChildren i ks) = map snd (walkChildren j ks).
Proof.
  induction ks as [| k ks IH]; intros i j; simpl; [reflexivity |].
  f_equal. rewrite !map_app. f_equal.
  - unfold under. rewrite !map_map. reflexivity.
  - apply IH.
Qed.

Lemma filter_hasTag_nodes :
  forall tag (l : list Located),
    map snd (filter (hasTag tag) l) = filter (isElementNamed tag) (map snd l).
Proof.
  intros tag. induction l as [| x l IH]; simpl; [reflexivity |].
  unfold hasTag at 1. destruct (isElementNamed tag (snd x)); simpl; congruence.
Qed.

Lemma count_hasTag_nodes :
  forall tag (l l' : list Located),
    map snd l = map snd l' ->
    length (filter (hasTag tag) l) = length (filter (hasTag tag) l').
Proof.
  intros tag l l' H.
  transitivity (length (map snd (filter (hasTag tag) l))).
  - symmetry. apply length_map.
  - rewrite filter_hasTag_nodes, H, <- filter_hasTag_nodes. apply length_map.
Qed.

Lemma In_walkChildren :
  forall ks i q u,
    In (q, u) (walkChildren i ks) ->
    exists j k,
      nth_error ks j = Some k /\
      ((q = [i + j] /\ u = k) \/
       exists q', q = (i + j) :: q' /\ In (q', u) (descendants k)).
Proof.
  induction ks as [| k ks IH]; intros i q u Hin; simpl in Hin; [easy |].
  destruct Hin as [Heq | Hin].
  - injection Heq as <- <-. exists 0, k. rewrite Nat.add_0_r. auto.
  - apply in_app_or in Hin. destruct Hin as [Hin | Hin].
    + unfold under in Hin. apply in_map_iff in Hin.
      destruct Hin as [[q' u'] [Heq Hin]]. simpl in Heq.
      injection Heq as <- <-. exists 0, k. rewrite Nat.add_0_r.
      split; [reflexivity |]. right. now exists q'.
    + apply IH in Hin. destruct Hin as (j & k' & Hj & H).
      exists (S j), k'. replace (i + S j) with (S i + j) by lia. auto.
Qed.

(** A handle listed by the traversal leads to the node listed with it. *)
Lemma In_descendants_nodeAt :
  forall q n u, In (q, u) (descendants n) -> q <> [] /\ nodeAt n q = Some u.
Proof.
  induction q as [| i q IH]; intros n u Hin.
  - destruct n as [t a ks |]; [| easy].
    rewrite descendants_Element in Hin. apply In_walkChildren in Hin.
    destruct Hin as (j & k & _ & [[H _] | (q' & H & _)]); discriminate.
  - split; [discriminate |].
    destruct n as [t a ks |]; [| easy].
    rewrite descendants_Element in Hin. apply In_walkChildren in Hin.
    destruct Hin as (j & k & Hj & [[H ->] | (q' & H & Hin)]);
      simpl in H; injection H as -> ->; simpl; rewrite Hj.
    + reflexivity.
    + now apply IH in Hin.
Qed.

Lemma replaceNth_middle :
  forall (A : Type) (l1 : list A) x y l2,
    replaceNth (length l1) y (l1 ++ x :: l2) = l1 ++ y :: l2.
Proof. induction l1 as [| z l1 IH]; intros; simpl; [| rewrite IH]; auto. Qed.

Lemma removeNth_middle :
  forall (A : Type) (l1 : list A) x l2,
    removeNth (length l1) (l1 ++ x :: l2) = l1 ++ l2.
Proof. induction l1 as [| z l1 IH]; intros; simpl; [| rewrite IH]; auto. Qed.

Lemma nodeAt_replaceAt :
  forall q n u new, nodeAt n q = Some u -> nodeAt (replaceAt n q new) q = Some new.
Proof.
  induction q as [| i q IH]; intros n u new H; [reflexivity |].
  destruct n as [t a ks |]; [| discriminate]. simpl in *.
  destruct (nth_error ks i) as [k |] eqn:Hk; [| discriminate].
  apply nth_error_split in Hk. destruct Hk as (l1 & l2 & -> & <-).
  rewrite replaceNth_middle. simpl.
  rewrite nth_error_app2, Nat.sub_diag by lia. simpl. eauto.
Qed.

Lemma sameShell_refl : forall n, sameShell n n.
Proof. now destruct n. Qed.

Lemma sameHandle_refl : forall l : list Located, Forall2 sameHandle l l.
Proof.
  induction l; constructor; auto. split; [reflexivity | apply sameShell_refl].
Qed.

Lemma sameShell_replaceAt :
  forall q n new, q <> [] -> sameShell n (replaceAt n q new).
Proof.
  intros [| i q] n new H; [contradiction |].
  destruct n as [t a ks |]; simpl; auto.
  destruct (nth_error ks i); simpl; auto.
Qed.

Lemma sameHandle_under :
  forall i l l', Forall2 sameHandle l l' ->
                 Forall2 sameHandle (under i l) (under i l').
Proof.
  induction 1 as [| x y l l' [Hp Hs] _ IH]; simpl; constructor; auto.
  split; simpl; [f_equal; exact Hp | assumption].
Qed.

Lemma under_app :
  forall i l l', under i (l ++ l') = under i l ++ under i l'.
Proof. intros. apply map_app. Qed.

Lemma under_cons :
  forall i q u l, under i ((q, u) :: l) = (i :: q, u) :: under i l.
Proof. reflexivity. Qed.

(** Replacing the node at [q] by one of the same shell leaves the part of
    the traversal that comes before [q] as it was, handle by handle, up to
    the children of the nodes met. *)
Lemma replaceAt_descendants :
  forall q n u u',
    q <> [] -> nodeAt n q = Some u -> sameShell u u' ->
    exists A A' B B',
      descendants n = A ++ (q, u) :: B /\
      descendants (replaceAt n q u') = A' ++ (q, u') :: B' /\
      Forall2 sameHandle A A'.
Proof.
  induction q as [| i q IH]; intros n u u' Hq Hat Hshell; [contradiction |].
  destruct n as [t a ks |]; [| discriminate]. simpl in Hat.
  simpl replaceAt.
  destruct (nth_error ks i) as [k |] eqn:Hk; [| discriminate].
  apply nth_error_split in Hk. destruct Hk as (l1 & l2 & -> & <-).
  rewrite replaceNth_middle, !descendants_Element, !walkChildren_split.
  destruct q as [| j q].
  - injection Hat as ->. simpl.
    do 4 eexists. split; [reflexivity |]. split; [reflexivity |].
    apply sameHandle_refl.
  - destruct (IH k u u') as (A & A' & B & B' & HA & HA' & HR);
      [discriminate | assumption | assumption |].
    rewrite HA, HA', !under_app, !under_cons.
    exists (walkChildren 0 l1 ++ ([length l1], k) :: under (length l1) A).
    exists (walkChildren 0 l1
            ++ ([length l1], replaceAt k (j :: q) u') :: under (length l1) A').
    exists (under (length l1) B ++ walkChildren (S (length l1)) l2).
    exists (under (length l1) B' ++ walkChildren (S (length l1)) l2).
    split; [now rewrite <- !app_assoc |].
    split; [now rewrite <- !app_assoc |].
    apply Forall2_app; [apply sameHandle_refl |].
    constructor; [| now apply sameHandle_under].
    split; [reflexivity |]. now apply sameShell_replaceAt.
Qed.

(* ------------------------------------------------------------------ *)
(** ** Handles are unique *)

Lemma QDomNode_children_ind :
  forall P : QDomNode -> Prop,
    (forall s, P (TextNode s)) ->
    (forall t a ks, Forall P ks -> P (Element t a ks)) ->
    forall n, P n.
Proof.
  intros P Htext Helem. fix IH 1. intros [t a ks | s]; [| apply Htext].
  apply Helem. induction ks as [| k ks IHks]; constructor.
  - apply IH.
  - exact IHks.
Qed.

Lemma In_under :
  forall i q u l, In (q, u) (under i l) ->
                  exists q', q = i :: q' /\ In (q', u) l.
Proof.
  intros i q u l H. unfold under in H. apply in_map_iff in H.
  destruct H as [[q' u'] [Heq Hin]]. simpl in Heq. injection Heq as <- <-.
  now exists q'.
Qed.

Lemma walkChildren_first_index :
  forall ks i q u,
    In (q, u) (walkChildren i ks) -> exists j q', q = j :: q' /\ i <= j.
Proof.
  intros ks i q u H. apply In_walkChildren in H.
  destruct H as (j & k & _ & [[-> _] | (q' & -> & _)]);
    eexists; eexists; (split; [reflexivity | lia]).
Qed.

Lemma NoDup_under :
  forall i l, NoDup (map fst l) -> NoDup (map fst (under i l)).
Proof.
  intros i l H. unfold under. rewrite map_map. simpl.
  rewrite <- (map_map fst (cons i)).
  induction H as [| q qs Hnotin _ IH]; simpl; constructor; [| exact IH].
  intros Hin. apply in_map_iff in Hin. destruct Hin as (q' & Heq & Hin).
  injection Heq as ->. contradiction.
Qed.

Lemma NoDup_walkChildren :
  forall ks i,
    Forall (fun k => NoDup (map fst (descendants k))) ks ->
    NoDup (map fst (walkChildren i ks)).
Proof.
  induction ks as [| k ks IH]; intros i Hks; [constructor |].
  inversion Hks as [| k' ks' Hk Hks']; subst.
  cbn [walkChildren map]. rewrite map_app. constructor.
  - intros Hin. apply in_app_or in Hin. destruct Hin as [Hin | Hin];
      apply in_map_iff in Hin; destruct Hin as [[q u] [Heq Hin]];
      simpl in Heq; subst q.
    + apply In_under in Hin. destruct Hin as (q' & Heq & Hin).
      injection Heq as <-. now apply In_descendants_nodeAt in Hin.
    + apply walkChildren_first_index in Hin.
      destruct Hin as (j & q' & Heq & Hle). injection Heq as <- _. lia.
  - apply NoDup_app.
    + now apply NoDup_under.
    + now apply IH.
    + intros q Hin1 Hin2.
      apply in_map_iff in Hin1. destruct Hin1 as [[q1 u1] [Heq1 Hin1]].
      apply in_map_iff in Hin2. destruct Hin2 as [[q2 u2] [Heq2 Hin2]].
      simpl in Heq1, Heq2. subst q1 q2.
      apply In_under in Hin1. destruct Hin1 as (q' & -> & _).
      apply walkChildren_first_index in Hin2.
      destruct Hin2 as (j & q'' & Heq & Hle). injection Heq as <- _. lia.
Qed.

(** No two entries of a traversal carry the same handle. *)
Lemma NoDup_descendants :
  forall n, NoDup (map fst (descendants n)).
Proof.
  induction n as [s | t a ks IH] using QDomNode_children_ind.
  - constructor.
  - rewrite descendants_Element. now apply NoDup_walkChildren.
Qed.

Lemma NoDup_handles_filter :
  forall (f : Located -> bool) l,
    NoDup (map fst l) -> NoDup (map fst (filter f l)).
Proof.
  intros f. induction l as [| x l IH]; intros H; simpl; [constructor |].
  simpl in H. inversion H as [| q qs Hnotin Hrest]; subst.
  destruct (f x); simpl; [constructor |]; auto.
  intros Hin. apply Hnotin. apply in_map_iff in Hin.
  destruct Hin as (y & Heq & Hin). apply filter_In in Hin.
  apply in_map_iff. exists y. tauto.
Qed.

(* ------------------------------------------------------------------ *)
(** ** First match wins *)

Lemma find_filter :
  forall (A : Type) (f g : A -> bool) l,
    find f (filter g l) = find (fun x => g x && f x) l.
Proof.
  induction l as [| x l IH]; simpl; [reflexivity |].
  destruct (g x); simpl; [destruct (f x) |]; auto.
Qed.

Lemma find_hd_filter :
  forall (A : Type) (f : A -> bool) l, find f l = hd_error (filter f l).
Proof.
  induction l as [| x l IH]; simpl; [reflexivity |]. now destruct (f x).
Qed.

Lemma find_app_split :
  forall (A : Type) (f : A -> bool) l l',
    find f (l ++ l') =
    match find f l with Some x => Some x | None => find f l' end.
Proof.
  induction l as [| x l IH]; intros l'; simpl; [reflexivity |].
  now destruct (f x).
Qed.

Lemma FindTableElement_traversal :
  forall w tableName,
    FindTableElement w tableName =
    match XmlDocument w with
    | Some root => find (isTableNamed tableName) (descendants root)
    | None => None
    end.
Proof.
  intros w tableName. unfold FindTableElement, tableNodes.
  destruct (XmlDocument w) as [root |]; [| reflexivity].
  unfold elementsByTagName. apply find_filter.
Qed.

Lemma attributeNode_sameShell :
  forall n m name, sameShell n m -> attributeNode n name = attributeNode m name.
Proof.
  intros [t a ks | s] [t' a' ks' | s'] name H; simpl in *; try easy.
  destruct H as [_ ->]. reflexivity.
Qed.

Lemma isTableNamed_sameHandle :
  forall tableName x y,
    sameHandle x y -> isTableNamed tableName x = isTableNamed tableName y.
Proof.
  intros tableName [p n] [p' m] [_ H]. simpl in H.
  unfold isTableNamed, hasTag, namedAs, attribute. simpl.
  rewrite (attributeNode_sameShell _ _ "name" H).
  destruct n as [t a ks | s], m as [t' a' ks' | s']; simpl in *; try easy.
  destruct H as [-> _]. reflexivity.
Qed.

Lemma find_sameHandle :
  forall (f : Located -> bool) A A',
    (forall x y, sameHandle x y -> f x = f y) ->
    Forall2 sameHandle A A' ->
    match find f A with
    | Some x => exists y, find f A' = Some y /\ fst y = fst x
    | None => find f A' = None
    end.
Proof.
  intros f A A' Hf HR.
  induction HR as [| x y l l' Hxy _ IH]; simpl; [reflexivity |].
  rewrite <- (Hf x y Hxy). destruct (f x); [| exact IH].
  exists y. split; [reflexivity |]. symmetry. apply Hxy.
Qed.

(** An edit below a node that itself passes the test of the search does
    not move the first match: the search stops at the same handle. *)
Lemma find_after_edit :
  forall tableName root p t q u u',
    find (isTableNamed tableName) (descendants root) = Some (p, t) ->
    In (q, u) (descendants root) ->
    isTableNamed tableName (q, u) = true ->
    sameShell u u' ->
    exists t',
      find (isTableNamed tableName) (descendants (replaceAt root q u'))
        = Some (p, t')
      /\ nodeAt (replaceAt root q u') p = Some t'.
Proof.
  intros X root p t q u u' Hfind Hin Hname Hshell.
  apply In_descendants_nodeAt in Hin. destruct Hin as [Hq Hat].
  destruct (replaceAt_descendants q root u u' Hq Hat Hshell)
    as (A & A' & B & B' & HA & HA' & HR).
  assert (Hname' : isTableNamed X (q, u') = true).
  { rewrite <- Hname. symmetry. apply isTableNamed_sameHandle.
    split; [reflexivity | exact Hshell]. }
  pose proof (find_sameHandle (isTableNamed X) A A'
                (isTableNamed_sameHandle X) HR) as HAA'.
  rewrite HA, find_app_split in Hfind.
  assert (Hres : exists t',
             find (isTableNamed X) (descendants (replaceAt root q u'))
             = Some (p, t')).
  { rewrite HA', find_app_split.
    destruct (find (isTableNamed X) A) as [x |]; simpl in Hfind.
    - injection Hfind as ->. destruct HAA' as ([p' t'] & -> & Hp).
      simpl in Hp. subst p'. now exists t'.
    - rewrite HAA'. simpl in *. rewrite Hname in Hfind. rewrite Hname'.
      injection Hfind as <- <-. now exists u'. }
  destruct Hres as [t' Hres]. exists t'. split; [exact Hres |].
  apply find_some in Hres. destruct Hres as [Hres _].
  now apply In_descendants_nodeAt in Hres.
Qed.

Lemma sameShell_trans :
  forall n m o, sameShell n m -> sameShell m o -> sameShell n o.
Proof.
  intros [t a ks | s] [t' a' ks' | s'] [t'' a'' ks'' | s'']; simpl;
    try easy; try congruence.
  intros [-> ->] [-> ->]. auto.
Qed.

Lemma sameShell_appendChild : forall n c, sameShell n (appendChild n c).
Proof. intros [t a ks | s] c; simpl; auto. Qed.

Lemma sameShell_removeChild : forall n p, sameShell n (removeChild n p).
Proof.
  intros [t a ks | s] [| i [| j p]]; simpl; auto.
Qed.

Lemma sameShell_removeRowsLoop :
  forall fuel n n', removeRowsLoop fuel n = Some n' -> sameShell n n'.
Proof.
  induction fuel as [| fuel IH]; intros n n'; simpl;
    destruct (elementsByTagName n ROW_ELEMENT_NAME) as [| first rest];
    intros H; try discriminate;
    try (injection H as <-; apply sameShell_refl).
  eapply sameShell_trans; [apply sameShell_removeChild | eauto].
Qed.

Lemma sameShell_appendRows :
  forall rows hs n, sameShell n (appendRows n rows hs).
Proof.
  unfold appendRows. induction rows as [| r rows IH]; intros hs n; simpl.
  - apply sameShell_refl.
  - eapply sameShell_trans; [apply sameShell_appendChild | apply IH].
Qed.

Lemma sameShell_rowEdit : forall u u', rowEdit u u' -> sameShell u u'.
Proof.
  intros u u' [rowData hs | r | rows hs u'' H].
  - apply sameShell_appendChild.
  - apply sameShell_removeChild.
  - unfold replaceRows, removeAllRows in H.
    destruct (removeRowsLoop _ u) as [emptied |] eqn:Hloop; [| discriminate].
    injection H as <-.
    eapply sameShell_trans;
      [eapply sameShell_removeRowsLoop; eauto | apply sameShell_appendRows].
Qed.

(** C4: in a document with two or more table elements named [X],
    [FindTableElement] answers the first of them in document order; it is
    a function of the document, so it does so on every call; and after a
    row has been added to, a node removed from, or the rows replaced in,
    any later table named [X], it still answers the same element (the same
    handle), which is still the first one named [X]. *)
Theorem first_table_wins :
  forall (w : XMLWorker) (X : string) (first second : Located)
         (others : list Located),
    filter (namedAs X) (tableNodes (XmlDocument w))
      = first :: second :: others ->
    FindTableElement w X = Some first /\
    forall q u u',
      In (q, u) (second :: others) -> rowEdit u u' ->
      q <> fst first /\
      exists t',
        FindTableElement (commit w q u') X = Some (fst first, t') /\
        hd_error (filter (namedAs X) (tableNodes (XmlDocument (commit w q u'))))
          = Some (fst first, t').
Proof.
  intros w X [p t] second others Hfilter.
  assert (Hfirst : FindTableElement w X = Some (p, t)).
  { unfold FindTableElement. now rewrite find_hd_filter, Hfilter. }
  split; [exact Hfirst |].
  intros q u u' Hin Hedit. cbn [fst].
  split.
  { assert (Hnodup : NoDup (map fst (filter (namedAs X)
                                       (tableNodes (XmlDocument w))))).
    { apply NoDup_handles_filter. unfold tableNodes.
      destruct (XmlDocument w) as [root |]; [| constructor].
      apply NoDup_handles_filter, NoDup_descendants. }
    rewrite Hfilter in Hnodup. cbn [map fst] in Hnodup.
    inversion Hnodup as [| p' ps Hnotin _]; subst.
    intros ->. apply Hnotin.
    change (In (fst (p, u)) (map fst (second :: others))).
    now apply in_map. }
  assert (Hin' : In (q, u) (filter (namedAs X) (tableNodes (XmlDocument w)))).
  { rewrite Hfilter. now right. }
  apply filter_In in Hin'. destruct Hin' as [Htab Hname].
  rewrite FindTableElement_traversal in Hfirst.
  unfold tableNodes in Htab, Hfilter.
  destruct (XmlDocument w) as [root |] eqn:Hdoc; [| easy].
  apply filter_In in Htab. destruct Htab as [Hdesc Htag].
  destruct (find_after_edit X root p t q u u' Hfirst Hdesc)
    as (t' & Hfind & _).
  { unfold isTableNamed. now rewrite Htag, Hname. }
  { now apply sameShell_rowEdit. }
  exists t'.
  assert (Hgoal : FindTableElement (commit w q u') X = Some (p, t')).
  { rewrite FindTableElement_traversal. unfold commit. rewrite Hdoc. exact Hfind. }
  split; [exact Hgoal |].
  unfold FindTableElement in Hgoal. now rewrite find_hd_filter in Hgoal.
Qed.

Lemma first_table_wins_witness :
  FindTableElement twinWorker "X" = Some ([0], firstX) /\
  exists t',
    FindTableElement
      (commit twinWorker [1]
         (appendChild secondX (CreateRowElement ["3"] ["A"]))) "X"
    = Some ([0], t').
Proof.
  pose proof (first_table_wins twinWorker "X" ([0], firstX) ([1], secondX) []
                eq_refl) as [Hfirst Hlater].
  split; [exact Hfirst |].
  destruct (Hlater [1] secondX
              (appendChild secondX (CreateRowElement ["3"] ["A"])))
    as (_ & t' & Hfind & _).
  - simpl. left. reflexivity.
  - apply rowAdded.
  - exists t'. exact Hfind.
Defined.

(* ------------------------------------------------------------------ *)
(** ** Adding a row to a table without rows *)

Lemma hasTag_isElement :
  forall tag p n, hasTag tag (p, n) = true ->
                  exists a ks, n = Element tag a ks.
Proof.
  intros tag p [t a ks | s] H; [| discriminate].
  unfold hasTag in H. simpl in H. apply String.eqb_eq in H. subst. eauto.
Qed.

Lemma FindTableElement_Some :
  forall w tableName p t,
    FindTableElement w tableName = Some (p, t) ->
    exists root a ks,
      XmlDocument w = Some root /\ In (p, t) (descendants root) /\
      t = Element TABLE_ELEMENT_NAME a ks /\
      isTableNamed tableName (p, t) = true.
Proof.
  intros w tableName p t H. rewrite FindTableElement_traversal in H.
  destruct (XmlDocument w) as [root |]; [| discriminate].
  apply find_some in H. destruct H as [Hin Hname].
  pose proof Hname as Htag. unfold isTableNamed in Htag.
  apply andb_prop in Htag. destruct Htag as [Htag _].
  apply hasTag_isElement in Htag. destruct Htag as (a & ks & ->).
  exists root, a, ks. auto.
Qed.

(** The handle a lookup has answered still answers to the same name after
    the element behind it has been edited. *)
Lemma FindTableElement_commit :
  forall w tableName p t t',
    FindTableElement w tableName = Some (p, t) ->
    sameShell t t' ->
    FindTableElement (commit w p t') tableName = Some (p, t').
Proof.
  intros w tableName p t t' Hfind Hshell.
  destruct (FindTableElement_Some w tableName p t Hfind)
    as (root & a & ks & Hdoc & Hin & _ & Hname).
  rewrite FindTableElement_traversal in Hfind. rewrite Hdoc in Hfind.
  destruct (find_after_edit tableName root p t p t t' Hfind Hin Hname Hshell)
    as (t'' & Hfound & Hat).
  apply In_descendants_nodeAt in Hin. destruct Hin as [_ Hin].
  rewrite (nodeAt_replaceAt p root t t' Hin) in Hat. injection Hat as <-.
  rewrite FindTableElement_traversal. unfold commit. rewrite Hdoc. exact Hfound.
Qed.

Lemma elementsByTagName_Element :
  forall t a ks tag,
    elementsByTagName (Element t a ks) tag
    = filter (hasTag tag) (walkChildren 0 ks).
Proof.
  intros. unfold elementsByTagName. now rewrite descendants_Element.
Qed.

(** C10: adding a row, with whatever values, to a table that has no rows
    succeeds and appends a [row] element without any cell, the headers
    derived from the missing first row being none; the new row is then the
    table's only row and the table's headers are still none. *)
Theorem add_row_to_rowless_table :
  forall (w : XMLWorker) (tableName : string) (p : Path)
         (tableElement : QDomNode) (rowData : list string),
    FileLoaded w = true ->
    tableName <> "" ->
    FindTableElement w tableName = Some (p, tableElement) ->
    elementsByTagName tableElement ROW_ELEMENT_NAME = [] ->
    rowData <> [] ->
    let emptyRow := Element ROW_ELEMENT_NAME [] [] in
    let t' := appendChild tableElement emptyRow in
    AddRowToTable w tableName rowData = (true, commit w p t') /\
    FindTableElement (commit w p t') tableName = Some (p, t') /\
    (exists i, elementsByTagName t' ROW_ELEMENT_NAME = [([i], emptyRow)]) /\
    ExtractTableRows t' = [[]] /\
    ExtractColumnHeaders t' = [].
Proof.
  intros w tableName p tableElement rowData Hloaded Hname Hfind Hrows _
         emptyRow t'.
  assert (Hcommit : FindTableElement (commit w p t') tableName = Some (p, t')).
  { apply (FindTableElement_commit w tableName p tableElement t' Hfind).
    apply sameShell_appendChild. }
  assert (Hadd : AddRowToTable w tableName rowData = (true, commit w p t')).
  { unfold AddRowToTable. rewrite Hloaded, Hfind.
    apply String.eqb_neq in Hname. rewrite Hname. simpl.
    unfold ExtractColumnHeaders. rewrite Hrows. reflexivity. }
  destruct (FindTableElement_Some w tableName p tableElement Hfind)
    as (root & a & ks & _ & _ & -> & _).
  assert (Hnew : elementsByTagName t' ROW_ELEMENT_NAME
                 = [([length ks], emptyRow)]).
  { unfold t'. simpl appendChild.
    rewrite elementsByTagName_Element in *.
    rewrite walkChildren_app, filter_app, Hrows. reflexivity. }
  repeat split; auto.
  - now exists (length ks).
  - unfold ExtractTableRows. now rewrite Hnew.
  - unfold ExtractColumnHeaders. now rewrite Hnew.
Qed.

Lemma add_row_to_rowless_table_witness :
  AddRowToTable rowlessWorker "T" ["x"; "y"]
  = (true,
     commit rowlessWorker [0]
       (appendChild (Element "table" [("name", "T")] [])
          (Element "row" [] []))).
Proof.
  refine (proj1 (add_row_to_rowless_table rowlessWorker "T" [0]
                   (Element "table" [("name", "T")] []) ["x"; "y"]
                   eq_refl _ eq_refl eq_refl _)); discriminate.
Defined.

(* ------------------------------------------------------------------ *)
(** ** Replacing the rows *)

Lemma removeRowsLoop_eq :
  forall fuel t,
    removeRowsLoop fuel t =
    match elementsByTagName t ROW_ELEMENT_NAME with
    | [] => Some t
    | first :: _ =>
        match fuel with
        | O => None
        | S fuel' => removeRowsLoop fuel' (removeChild t (fst first))
        end
    end.
Proof. intros [| fuel] t; reflexivity. Qed.

(** When the loop ends, no row is left. *)
Lemma removeRowsLoop_no_rows :
  forall fuel t t',
    removeRowsLoop fuel t = Some t' ->
    elementsByTagName t' ROW_ELEMENT_NAME = [].
Proof.
  induction fuel as [| fuel IH]; intros t t' H; rewrite removeRowsLoop_eq in H;
    destruct (elementsByTagName t ROW_ELEMENT_NAME) as [| first rest] eqn:Hrows;
    try discriminate; try (injection H as <-; exact Hrows).
  eapply IH; eauto.
Qed.

Lemma filter_under :
  forall tag i l,
    filter (hasTag tag) (under i l) = under i (filter (hasTag tag) l).
Proof.
  intros tag i. induction l as [| x l IH]; simpl; [reflexivity |].
  change (hasTag tag (i :: fst x, snd x)) with (hasTag tag x).
  destruct (hasTag tag x); simpl; now rewrite IH.
Qed.

Lemma cellsFrom_no_rows :
  forall hs i rowData j,
    filter (hasTag ROW_ELEMENT_NAME) (walkChildren j (cellsFrom i rowData hs))
    = [].
Proof.
  induction hs as [| h hs IH]; intros i rowData j; simpl; [reflexivity |].
  apply IH.
Qed.

Lemma CreateRowElement_no_rows :
  forall rowData hs,
    elementsByTagName (CreateRowElement rowData hs) ROW_ELEMENT_NAME = [].
Proof.
  intros. unfold CreateRowElement. rewrite elementsByTagName_Element.
  apply cellsFrom_no_rows.
Qed.

(** Among freshly created rows the only [row] elements are the rows
    themselves. *)
Lemma created_rows_handles :
  forall rows hs i,
    filter (hasTag ROW_ELEMENT_NAME)
      (walkChildren i (map (fun r => CreateRowElement r hs) rows))
    = childHandles i (map (fun r => CreateRowElement r hs) rows).
Proof.
  induction rows as [| r rows IH]; intros hs i; [reflexivity |].
  cbn [map walkChildren childHandles filter].
  replace (hasTag ROW_ELEMENT_NAME ([i], CreateRowElement r hs)) with true
    by reflexivity.
  rewrite filter_app, filter_under.
  fold (elementsByTagName (CreateRowElement r hs) ROW_ELEMENT_NAME).
  rewrite CreateRowElement_no_rows, IH. reflexivity.
Qed.

Lemma appendRows_Element :
  forall rows hs t a ks,
    appendRows (Element t a ks) rows hs
    = Element t a (ks ++ map (fun r => CreateRowElement r hs) rows).
Proof.
  unfold appendRows.
  induction rows as [| r rows IH]; intros hs t a ks; simpl.
  - now rewrite app_nil_r.
  - rewrite IH, <- app_assoc. reflexivity.
Qed.

Lemma childHandles_length :
  forall ks i, length (childHandles i ks) = length ks.
Proof. induction ks; simpl; auto. Qed.

(** The loop takes freshly created rows away one by one, from the first. *)
Lemma removeRowsLoop_created_rows :
  forall rows hs t a ks fuel,
    filter (hasTag ROW_ELEMENT_NAME) (walkChildren 0 ks) = [] ->
    length rows <= fuel ->
    removeRowsLoop fuel
      (Element t a (ks ++ map (fun r => CreateRowElement r hs) rows))
    = Some (Element t a ks).
Proof.
  induction rows as [| r rows IH]; intros hs t a ks fuel Hks Hfuel;
    rewrite removeRowsLoop_eq, elementsByTagName_Element, walkChildren_app,
      filter_app, Hks, created_rows_handles; simpl.
  - now rewrite app_nil_r.
  - destruct fuel as [| fuel]; [simpl in Hfuel; lia |].
    rewrite removeNth_middle. apply IH; [exact Hks | simpl in Hfuel; lia].
Qed.

Lemma replaceRows_again :
  forall t rows hs once,
    replaceRows t rows hs = Some once -> replaceRows once rows hs = Some once.
Proof.
  intros t rows hs once H. unfold replaceRows, removeAllRows in H.
  destruct (removeRowsLoop _ t) as [emptied |] eqn:Hloop; [| discriminate].
  injection H as <-. apply removeRowsLoop_no_rows in Hloop.
  destruct emptied as [tg a ks | s].
  - rewrite appendRows_Element. unfold replaceRows, removeAllRows.
    rewrite elementsByTagName_Element in Hloop.
    rewrite (removeRowsLoop_created_rows rows hs tg a ks _ Hloop).
    + now rewrite appendRows_Element.
    + rewrite elementsByTagName_Element, walkChildren_app, filter_app, Hloop,
        created_rows_handles. simpl.
      rewrite childHandles_length, length_map. lia.
  - assert (Hsame : appendRows (TextNode s) rows hs = TextNode s).
    { unfold appendRows. induction rows; simpl; auto. }
    rewrite Hsame. unfold replaceRows. cbn. now rewrite Hsame.
Qed.

(** Replacing the rows of a table twice in a row with the same rows and
    headers has the outcome of replacing them once, whether or not the
    first call returns: when it does, the second call returns the very
    table the first one left. *)
Lemma replaceRowsTwice_once :
  forall (tableElement : QDomNode) (rows : list (list string))
         (columnHeaders : list string),
    replaceRowsTwice tableElement rows columnHeaders
      = replaceRows tableElement rows columnHeaders.
Proof.
  intros t rows hs. unfold replaceRowsTwice.
  destruct (replaceRows t rows hs) as [once |] eqn:Honce; [| reflexivity].
  now apply replaceRows_again in Honce.
Qed.

(** The rows of the sample table replaced by a row that is too long and
    one that is too short for the two headers. *)
Example replaceRows_sample :
  replaceRows sampleTable [["x"; "y"; "z"]; ["u"]] ["H1"; "H2"]
  = Some (Element "table" [("name", "T")]
            [Element "row" [] [cell "H1" "x"; cell "H2" "y"];
             Element "row" [] [cell "H1" "u"; cell "H2" ""]]).
Proof. reflexivity. Qed.

(* ------------------------------------------------------------------ *)
(** ** The row-removing loop and its fuel *)

Lemma removeRowsLoop_more_fuel :
  forall fuel fuel' t t',
    removeRowsLoop fuel t = Some t' -> fuel <= fuel' ->
    removeRowsLoop fuel' t = Some t'.
Proof.
  induction fuel as [| fuel IH]; intros fuel' t t' H Hle;
    rewrite removeRowsLoop_eq in H; rewrite removeRowsLoop_eq;
    destruct (elementsByTagName t ROW_ELEMENT_NAME) as [| first rest];
    try discriminate; try exact H.
  destruct fuel' as [| fuel']; [lia |]. apply IH; [exact H | lia].
Qed.

(** A first row that [removeChild] refuses stays first for ever. *)
Lemma removeRowsLoop_stuck :
  forall fuel t first rest,
    elementsByTagName t ROW_ELEMENT_NAME = first :: rest ->
    removeChild t (fst first) = t ->
    removeRowsLoop fuel t = None.
Proof.
  induction fuel as [| fuel IH]; intros t first rest Hrows Hsame;
    rewrite removeRowsLoop_eq, Hrows; [reflexivity |].
  rewrite Hsame. eapply IH; eauto.
Qed.

(** Unlinking a child that is a row leaves fewer rows below the table. *)
Lemma removeChild_fewer_rows :
  forall t i r rest,
    elementsByTagName t ROW_ELEMENT_NAME = ([i], r) :: rest ->
    length (elementsByTagName (removeChild t [i]) ROW_ELEMENT_NAME)
    < length (elementsByTagName t ROW_ELEMENT_NAME).
Proof.
  intros t i r rest Hrows.
  assert (Hin : In ([i], r) (elementsByTagName t ROW_ELEMENT_NAME))
    by (rewrite Hrows; now left).
  apply filter_In in Hin. destruct Hin as [Hin Htag].
  apply In_descendants_nodeAt in Hin. destruct Hin as [_ Hat].
  destruct t as [tg a ks |]; [| discriminate]. simpl in Hat.
  destruct (nth_error ks i) as [k |] eqn:Hk; [| discriminate].
  injection Hat as ->.
  apply nth_error_split in Hk. destruct Hk as (l1 & l2 & -> & <-).
  simpl removeChild.
  rewrite removeNth_middle, !elementsByTagName_Element, walkChildren_app,
    walkChildren_split, !filter_app.
  cbn [filter]. rewrite Htag. rewrite !length_app. cbn [length].
  rewrite filter_app, length_app.
  rewrite (count_hasTag_nodes ROW_ELEMENT_NAME
             (walkChildren (0 + length l1) l2)
             (walkChildren (S (length l1)) l2)
             (walkChildren_nodes l2 _ _)).
  lia.
Qed.

(** The loop needs no more iterations than there are rows to begin with:
    if it ends at all, it ends within that many. *)
Lemma removeRowsLoop_fuel :
  forall fuel n t t',
    removeRowsLoop fuel t = Some t' ->
    length (elementsByTagName t ROW_ELEMENT_NAME) <= n ->
    removeRowsLoop n t = Some t'.
Proof.
  induction fuel as [| fuel IH]; intros n t t' H Hn;
    rewrite removeRowsLoop_eq in H; rewrite removeRowsLoop_eq;
    destruct (elementsByTagName t ROW_ELEMENT_NAME) as [| [p r] rest] eqn:Hrows;
    try discriminate; try exact H.
  simpl in H. destruct n as [| n]; [simpl in Hn; lia |]. simpl fst.
  destruct p as [| i [| j p]].
  - assert (Hsame : removeChild t [] = t) by now destruct t.
    rewrite Hsame in H.
    rewrite (removeRowsLoop_stuck fuel t ([], r) rest Hrows Hsame) in H.
    discriminate.
  - apply IH; [exact H |].
    pose proof (removeChild_fewer_rows t i r rest Hrows) as Hlt.
    rewrite Hrows in Hlt. cbn [length] in Hlt, Hn. lia.
  - assert (Hsame : removeChild t (i :: j :: p) = t) by now destruct t.
    rewrite Hsame in H.
    rewrite (removeRowsLoop_stuck fuel t (i :: j :: p, r) rest Hrows Hsame)
      in H.
    discriminate.
Qed.

(** [removeAllRows] answers [None] only when the loop does not end
    whatever the number of iterations it is given. *)
Lemma removeAllRows_None :
  forall t, removeAllRows t = None -> forall fuel, removeRowsLoop fuel t = None.
Proof.
  intros t Hnone fuel.
  destruct (removeRowsLoop fuel t) as [t' |] eqn:H; [| reflexivity].
  apply (removeRowsLoop_fuel fuel
           (length (elementsByTagName t ROW_ELEMENT_NAME)) t t') in H;
    [| apply Nat.le_refl].
  unfold removeAllRows in Hnone. congruence.
Qed.

(* ------------------------------------------------------------------ *)
(** ** A row that is not a child of its table *)

(** C7 on [grouped.xml], a document that [LoadXMLFile] accepts: table [T]
    shows one row; deleting row 0 is reported as a success, and the row is
    still there. *)
Theorem delete_row_keeps_grouped_row :
  fst (LoadXMLFile groupedQt newXMLWorker "grouped.xml")
    = (true, groupedWorker) /\
  FindTableElement groupedWorker "T" = Some ([0], groupedTable) /\
  ExtractTableRows groupedTable = [["1"]] /\
  DeleteRowFromTable groupedWorker "T" 0 = (true, groupedWorker).
Proof. repeat split. Qed.

(** C6 on [grouped.xml]: the row-removing loop of [UpdateCompleteTable]
    never ends, whatever the grid holds; no row is removed and none is
    appended. *)
Theorem update_table_hangs_on_grouped_row :
  fst (LoadXMLFile groupedQt newXMLWorker "grouped.xml")
    = (true, groupedWorker) /\
  (forall fuel, removeRowsLoop fuel groupedTable = None) /\
  (forall rows columnHeaders,
      replaceRows groupedTable rows columnHeaders = None) /\
  (forall grid, UpdateCompleteTable groupedWorker "T" (Some grid) = None).
Proof.
  assert (Hloop : forall fuel, removeRowsLoop fuel groupedTable = None).
  { intros fuel.
    apply (removeRowsLoop_stuck fuel groupedTable
             ([0; 0], Element "row" [] [cell "A" "1"]) []); reflexivity. }
  assert (Hreplace : forall rows hs, replaceRows groupedTable rows hs = None).
  { intros rows hs. unfold replaceRows, removeAllRows. now rewrite Hloop. }
  split; [reflexivity |]. split; [exact Hloop |]. split; [exact Hreplace |].
  intros grid. unfold UpdateCompleteTable.
  replace (FindTableElement groupedWorker "T")
    with (Some ([0], groupedTable)) by reflexivity.
  cbn -[replaceRows]. now rewrite Hreplace.
Qed.

(* ------------------------------------------------------------------ *)
(** ** Tables whose rows are their children *)

Lemma childHandles_nodes :
  forall ks i, map snd (childHandles i ks) = ks.
Proof. induction ks as [| k ks IH]; intros i; simpl; [| rewrite IH]; auto. Qed.

Lemma childHandles_app :
  forall l1 l2 i,
    childHandles i (l1 ++ l2)
    = childHandles i l1 ++ childHandles (i + length l1) l2.
Proof.
  induction l1 as [| k l1 IH]; intros l2 i; simpl.
  - now rewrite Nat.add_0_r.
  - replace (i + S (length l1)) with (S i + length l1) by lia. now rewrite IH.
Qed.

Lemma rows_of_children :
  forall ks i,
    Forall (fun k => elementsByTagName k ROW_ELEMENT_NAME = []) ks ->
    filter (hasTag ROW_ELEMENT_NAME) (walkChildren i ks)
    = filter (hasTag ROW_ELEMENT_NAME) (childHandles i ks).
Proof.
  induction ks as [| k ks IH]; intros i Hflat; [reflexivity |].
  inversion Hflat as [| k' ks' Hk Hks]; subst.
  cbn [walkChildren childHandles filter].
  rewrite filter_app, filter_under. unfold elementsByTagName in Hk.
  rewrite Hk, (IH (S i) Hks). reflexivity.
Qed.

Lemma row_children_nodes :
  forall ks i,
    map snd (filter (hasTag ROW_ELEMENT_NAME) (childHandles i ks))
    = filter isRow ks.
Proof.
  intros ks i. now rewrite filter_hasTag_nodes, childHandles_nodes.
Qed.

Lemma no_row_children :
  forall ks, filter isRow ks = [] -> filter notRow ks = ks.
Proof.
  induction ks as [| k ks IH]; simpl; [reflexivity |]. unfold notRow at 1.
  destruct (isRow k); simpl; [discriminate |]. intros H. now rewrite IH.
Qed.

Lemma first_row_child :
  forall ks r rest,
    filter isRow ks = r :: rest ->
    exists l1 l2,
      ks = l1 ++ r :: l2 /\ filter isRow l1 = [] /\ isRow r = true /\
      rest = filter isRow l2.
Proof.
  induction ks as [| k ks IH]; intros r rest H; simpl in H; [discriminate |].
  destruct (isRow k) eqn:Hk.
  - injection H as -> <-. exists [], ks. auto.
  - destruct (IH r rest H) as (l1 & l2 & -> & Hl1 & Hr & ->).
    exists (k :: l1), l2. simpl. rewrite Hk. auto.
Qed.

Lemma row_handles_nil :
  forall ks i,
    filter isRow ks = [] ->
    filter (hasTag ROW_ELEMENT_NAME) (childHandles i ks) = [].
Proof.
  intros ks i H. apply map_eq_nil with (f := snd).
  now rewrite row_children_nodes.
Qed.

Lemma first_row_handle :
  forall l1 r l2,
    filter isRow l1 = [] -> isRow r = true ->
    filter (hasTag ROW_ELEMENT_NAME) (childHandles 0 (l1 ++ r :: l2))
    = ([length l1], r)
        :: filter (hasTag ROW_ELEMENT_NAME) (childHandles (S (length l1)) l2).
Proof.
  intros l1 r l2 Hl1 Hr.
  rewrite childHandles_app, filter_app, (row_handles_nil l1 0 Hl1).
  cbn [childHandles filter app Nat.add].
  change (hasTag ROW_ELEMENT_NAME ([length l1], r)) with (isRow r).
  now rewrite Hr.
Qed.

(** On such a table the loop ends and leaves the children that are not
    rows, in their order. *)
Lemma removeRowsLoop_children :
  forall fuel t a ks,
    Forall (fun k => elementsByTagName k ROW_ELEMENT_NAME = []) ks ->
    length (filter isRow ks) <= fuel ->
    removeRowsLoop fuel (Element t a ks) = Some (Element t a (filter notRow ks)).
Proof.
  induction fuel as [| fuel IH]; intros t a ks Hflat Hfuel;
    rewrite removeRowsLoop_eq, elementsByTagName_Element,
      (rows_of_children ks 0 Hflat);
    destruct (filter isRow ks) as [| r rest] eqn:Hrows.
  - now rewrite (row_handles_nil ks 0 Hrows), (no_row_children ks Hrows).
  - simpl in Hfuel. lia.
  - now rewrite (row_handles_nil ks 0 Hrows), (no_row_children ks Hrows).
  - destruct (first_row_child ks r rest Hrows) as (l1 & l2 & -> & Hl1 & Hr & ->).
    rewrite (first_row_handle l1 r l2 Hl1 Hr). cbn [fst removeChild].
    rewrite removeNth_middle.
    apply Forall_app in Hflat. destruct Hflat as [Hf1 Hf2].
    inversion Hf2 as [| r' l2' _ Hf2']; subst.
    rewrite IH.
    + do 2 f_equal. rewrite !filter_app. cbn [filter].
      replace (notRow r) with false by (unfold notRow; now rewrite Hr).
      reflexivity.
    + apply Forall_app. auto.
    + rewrite filter_app, length_app, Hl1. simpl in Hfuel. simpl. lia.
Qed.

Lemma row_count_children :
  forall t a ks,
    rowsAreChildren (Element t a ks) ->
    length (elementsByTagName (Element t a ks) ROW_ELEMENT_NAME)
    = length (filter isRow ks).
Proof.
  intros t a ks Hflat. simpl in Hflat.
  rewrite elementsByTagName_Element, (rows_of_children ks 0 Hflat).
  rewrite <- (length_map snd). now rewrite row_children_nodes.
Qed.

(** On a table whose rows are its children the replacement returns; the
    children that are not rows stay, every row child is gone, and one row
    is appended per entry of [rows], made by [CreateRowElement]. *)
Lemma replaceRows_of_row_children :
  forall t a ks rows hs,
    rowsAreChildren (Element t a ks) ->
    replaceRows (Element t a ks) rows hs
    = Some (Element t a (filter notRow ks
                         ++ map (fun r => CreateRowElement r hs) rows)).
Proof.
  intros t a ks rows hs Hflat. unfold replaceRows, removeAllRows.
  rewrite (row_count_children t a ks Hflat).
  rewrite (removeRowsLoop_children _ t a ks Hflat (Nat.le_refl _)).
  now rewrite appendRows_Element.
Qed.

Lemma cellsFrom_nth :
  forall hs i rowData j h,
    nth_error hs j = Some h ->
    nth_error (cellsFrom i rowData hs) j = Some (createdCell rowData (i + j) h).
Proof.
  induction hs as [| h0 hs IH]; intros i rowData j h Hj.
  - destruct j; discriminate.
  - destruct j as [| j]; simpl in *.
    + injection Hj as ->. rewrite Nat.add_0_r. unfold createdCell.
      destruct (Nat.ltb_spec i (length rowData)) as [Hlt | Hge];
        [reflexivity |]. now rewrite nth_overflow.
    + rewrite (IH (S i) rowData j h Hj). do 2 f_equal. lia.
Qed.

Lemma cellsFrom_length :
  forall hs i rowData, length (cellsFrom i rowData hs) = length hs.
Proof. induction hs; simpl; auto. Qed.

(** The row made for one entry: one cell per header, in the headers'
    order; the cell at position [i] is named after header [i] and holds
    the entry's value at [i], or the empty text when the entry is shorter;
    values past the last header go nowhere. *)
Lemma CreateRowElement_cells :
  forall rowData hs,
    exists cells,
      CreateRowElement rowData hs = Element ROW_ELEMENT_NAME [] cells /\
      length cells = length hs /\
      forall i h, nth_error hs i = Some h ->
                  nth_error cells i = Some (createdCell rowData i h).
Proof.
  intros rowData hs. exists (cellsFrom 0 rowData hs).
  split; [reflexivity |]. split; [apply cellsFrom_length |].
  intros i h Hi. apply (cellsFrom_nth hs 0 rowData i h Hi).
Qed.

Lemma ExtractTableRows_nodes :
  forall t,
    ExtractTableRows t
    = map cellTexts (map snd (elementsByTagName t ROW_ELEMENT_NAME)).
Proof.
  intros t. unfold ExtractTableRows. rewrite rowsOf_map, map_map. reflexivity.
Qed.

Lemma ExtractTableRows_children :
  forall t a ks,
    rowsAreChildren (Element t a ks) ->
    ExtractTableRows (Element t a ks) = map cellTexts (filter isRow ks).
Proof.
  intros t a ks Hflat. simpl in Hflat.
  rewrite ExtractTableRows_nodes, elementsByTagName_Element,
    (rows_of_children ks 0 Hflat), row_children_nodes.
  reflexivity.
Qed.

(** The bounds of a deletion: a negative index, and an index from the
    row count on, are refused and nothing is changed. *)
Lemma delete_row_out_of_range :
  forall w tableName p t rowIndex,
    FindTableElement w tableName = Some (p, t) ->
    (rowIndex < 0 \/
     Z.of_nat (length (elementsByTagName t ROW_ELEMENT_NAME)) <= rowIndex)%Z ->
    DeleteRowFromTable w tableName rowIndex = (false, w).
Proof.
  intros w tableName p t rowIndex Hfind Hrange. unfold DeleteRowFromTable.
  destruct (negb (FileLoaded w) || String.eqb tableName ""); [reflexivity |].
  destruct (Z.ltb_spec rowIndex 0) as [Hneg | Hpos]; [reflexivity |].
  simpl. rewrite Hfind.
  destruct (Z.geb_spec rowIndex
              (Z.of_nat (length (elementsByTagName t ROW_ELEMENT_NAME))))
    as [Hge | Hlt]; [reflexivity | lia].
Qed.

(** On a table whose rows are its children, deleting row 0 of a table
    that has a row succeeds, and the rows extracted afterwards are the rows
    extracted before without the first, in the same order. *)
Lemma delete_first_row_of_row_children :
  forall w tableName p t,
    FileLoaded w = true -> tableName <> "" ->
    FindTableElement w tableName = Some (p, t) ->
    rowsAreChildren t ->
    ExtractTableRows t <> [] ->
    exists t',
      DeleteRowFromTable w tableName 0 = (true, commit w p t') /\
      FindTableElement (commit w p t') tableName = Some (p, t') /\
      rowsAreChildren t' /\
      ExtractTableRows t = hd [] (ExtractTableRows t) :: ExtractTableRows t'.
Proof.
  intros w tableName p t Hloaded Hname Hfind Hflat Hrows.
  destruct (FindTableElement_Some w tableName p t Hfind)
    as (root & a & ks & _ & _ & -> & _).
  rewrite (ExtractTableRows_children _ a ks Hflat) in *.
  destruct (filter isRow ks) as [| r rest] eqn:Hfilter; [contradiction |].
  destruct (first_row_child ks r rest Hfilter)
    as (l1 & l2 & -> & Hl1 & Hr & ->).
  simpl in Hflat. pose proof Hflat as Hflat0.
  apply Forall_app in Hflat. destruct Hflat as [Hf1 Hf2].
  inversion Hf2 as [| r' l2' _ Hf2']; subst.
  assert (Hflat' : rowsAreChildren (Element TABLE_ELEMENT_NAME a (l1 ++ l2))).
  { simpl. apply Forall_app. auto. }
  exists (Element TABLE_ELEMENT_NAME a (l1 ++ l2)).
  split; [| split; [| split]].
  - unfold DeleteRowFromTable. rewrite Hloaded, Hfind.
    apply String.eqb_neq in Hname. rewrite Hname.
    cbn [negb orb Z.ltb Z.compare].
    rewrite elementsByTagName_Element, (rows_of_children _ 0 Hflat0),
      (first_row_handle l1 r l2 Hl1 Hr).
    cbn [length Z.of_nat Z.geb Z.compare Z.to_nat nth_error fst removeChild].
    now rewrite removeNth_middle.
  - apply (FindTableElement_commit w tableName p _ _ Hfind). simpl. auto.
  - exact Hflat'.
  - rewrite (ExtractTableRows_children _ a (l1 ++ l2) Hflat').
    rewrite filter_app, Hl1. reflexivity.
Qed.

(* ------------------------------------------------------------------ *)
(** ** Replacing a table twice through the worker *)

Lemma replaceNth_twice :
  forall (A : Type) (l : list A) i x y,
    replaceNth i y (replaceNth i x l) = replaceNth i y l.
Proof.
  induction l as [| z l IH]; intros [| i] x y; simpl; auto.
  now rewrite IH.
Qed.

Lemma replaceAt_twice :
  forall p n u new new',
    nodeAt n p = Some u ->
    replaceAt (replaceAt n p new) p new' = replaceAt n p new'.
Proof.
  induction p as [| i p IH]; intros n u new new' Hat; [reflexivity |].
  destruct n as [t a ks |]; [| discriminate]. simpl in *.
  destruct (nth_error ks i) as [k |] eqn:Hk; [| discriminate].
  pose proof Hk as Hsplit.
  apply nth_error_split in Hsplit. destruct Hsplit as (l1 & l2 & -> & <-).
  simpl. rewrite replaceNth_middle.
  rewrite nth_error_app2, Nat.sub_diag by lia. simpl.
  rewrite (IH k u new new' Hat).
  now rewrite <- (replaceNth_middle _ l1 k (replaceAt k p new) l2),
    replaceNth_twice, !replaceNth_middle.
Qed.

(** Seen from the class: a second [UpdateCompleteTable] with the same
    table name and the same grid returns what the first returned and
    leaves the worker as the first left it. *)
Lemma UpdateCompleteTable_again :
  forall w tableName grid b w1,
    UpdateCompleteTable w tableName grid = Some (b, w1) ->
    UpdateCompleteTable w1 tableName grid = Some (b, w1).
Proof.
  intros w tableName grid b w1. unfold UpdateCompleteTable at 1.
  destruct grid as [g |]; [| now intros [= <- <-]].
  destruct (negb (FileLoaded w) || String.eqb tableName "") eqn:Hguard;
    [intros [= <- <-]; unfold UpdateCompleteTable; now rewrite Hguard |].
  destruct (FindTableElement w tableName) as [[p t] |] eqn:Hfind;
    [| intros [= <- <-]; unfold UpdateCompleteTable;
       now rewrite Hguard, Hfind].
  destruct (replaceRows t (gridRows g) (gridHeaders g)) as [t1 |] eqn:Hrep;
    [| discriminate].
  intros [= <- <-].
  assert (Hfind1 : FindTableElement (commit w p t1) tableName = Some (p, t1)).
  { apply (FindTableElement_commit w tableName p t t1 Hfind).
    apply sameShell_rowEdit. now apply (rowsReplaced t _ _ t1 Hrep). }
  unfold UpdateCompleteTable.
  replace (FileLoaded (commit w p t1)) with (FileLoaded w) by reflexivity.
  rewrite Hguard, Hfind1, (replaceRows_again t _ _ t1 Hrep).
  do 2 f_equal.
  destruct (FindTableElement_Some w tableName p t Hfind)
    as (root & a & ks & Hdoc & Hin & _ & _).
  apply In_descendants_nodeAt in Hin. destruct Hin as [_ Hat].
  unfold commit, withDocument. simpl. rewrite Hdoc.
  now rewrite (replaceAt_twice p root t t1 t1 Hat).
Qed.

(* ================================================================== *)
(** * Further properties of the class *)

(* ------------------------------------------------------------------ *)
(** ** What a created row reads back as *)

Lemma append_empty : forall s : string, String.append s "" = s.
Proof. induction s as [| c s IH]; simpl; [| rewrite IH]; reflexivity. Qed.

Lemma cellValue_nth :
  forall i (rowData : list string),
    (if Nat.ltb i (length rowData) then nth i rowData "" else "")
    = nth i rowData "".
Proof.
  intros i rowData. destruct (Nat.ltb_spec i (length rowData)); auto.
  now rewrite nth_overflow.
Qed.

Lemma cellsFrom_cells :
  forall hs i rowData j,
    filter (hasTag CELL_ELEMENT_NAME) (walkChildren j (cellsFrom i rowData hs))
    = childHandles j (cellsFrom i rowData hs).
Proof.
  induction hs as [| h hs IH]; intros i rowData j; [reflexivity |].
  cbn -[Nat.ltb]. now rewrite IH.
Qed.

Lemma cellsFrom_texts :
  forall hs i rowData j,
    map (fun c => text (snd c)) (childHandles j (cellsFrom i rowData hs))
    = map (fun k => nth k rowData "") (seq i (length hs)).
Proof.
  induction hs as [| h hs IH]; intros i rowData j; [reflexivity |].
  cbn -[Nat.ltb]. rewrite IH, cellValue_nth, append_empty. reflexivity.
Qed.

Lemma cellTexts_CreateRowElement :
  forall rowData hs,
    cellTexts (CreateRowElement rowData hs) = fitRow (length hs) rowData.
Proof.
  intros rowData hs. unfold cellTexts, CreateRowElement.
  rewrite elementsByTagName_Element, cellsFrom_cells.
  apply cellsFrom_texts.
Qed.

Lemma cellsFrom_headers :
  forall hs i rowData j,
    headersFrom i (childHandles j (cellsFrom i rowData hs))
    = namedHeaders i hs.
Proof.
  induction hs as [| h hs IH]; intros i rowData j; [reflexivity |].
  cbn -[Nat.ltb]. f_equal. apply IH.
Qed.

Lemma headers_of_CreateRowElement :
  forall rowData hs,
    headersFrom 0
      (elementsByTagName (CreateRowElement rowData hs) CELL_ELEMENT_NAME)
    = namedHeaders 0 hs.
Proof.
  intros rowData hs. unfold CreateRowElement.
  rewrite elementsByTagName_Element, cellsFrom_cells.
  apply cellsFrom_headers.
Qed.

Lemma elementsByTagName_appendChild :
  forall t a ks new tag,
    elementsByTagName (appendChild (Element t a ks) new) tag
    = elementsByTagName (Element t a ks) tag
      ++ filter (hasTag tag)
           (([length ks], new) :: under (length ks) (descendants new)).
Proof.
  intros t a ks new tag. simpl appendChild.
  rewrite !elementsByTagName_Element, walkChildren_app, filter_app.
  simpl. now rewrite app_nil_r.
Qed.

Lemma rows_after_append :
  forall t a ks rowData hs,
    elementsByTagName
      (appendChild (Element t a ks) (CreateRowElement rowData hs))
      ROW_ELEMENT_NAME
    = elementsByTagName (Element t a ks) ROW_ELEMENT_NAME
      ++ [([length ks], CreateRowElement rowData hs)].
Proof.
  intros t a ks rowData hs. rewrite elementsByTagName_appendChild.
  f_equal. cbn [filter].
  replace (hasTag ROW_ELEMENT_NAME ([length ks], CreateRowElement rowData hs))
    with true by reflexivity.
  rewrite filter_under.
  fold (elementsByTagName (CreateRowElement rowData hs) ROW_ELEMENT_NAME).
  now rewrite CreateRowElement_no_rows.
Qed.

(* ------------------------------------------------------------------ *)
(** ** Adding a row *)

(** Adding a row to a table that is found succeeds whatever the table
    looks like: the headers read back as before, the rows read back as
    before followed by one more row, which is [rowData] fitted to the
    number of headers (cut when longer, filled up with empty values when
    shorter); the table is still the one its name resolves to. *)
Theorem add_row_reads_back :
  forall (w : XMLWorker) (tableName : string) (p : Path) (t : QDomNode)
         (rowData : list string),
    FileLoaded w = true ->
    tableName <> "" ->
    FindTableElement w tableName = Some (p, t) ->
    exists t',
      AddRowToTable w tableName rowData = (true, commit w p t') /\
      FindTableElement (commit w p t') tableName = Some (p, t') /\
      ExtractColumnHeaders t' = ExtractColumnHeaders t /\
      ExtractTableRows t'
      = ExtractTableRows t
        ++ [fitRow (length (ExtractColumnHeaders t)) rowData].
Proof.
  intros w tableName p t rowData Hloaded Hname Hfind.
  exists (appendChild t (CreateRowElement rowData (ExtractColumnHeaders t))).
  split; [| split].
  - unfold AddRowToTable. rewrite Hloaded, Hfind.
    apply String.eqb_neq in Hname. now rewrite Hname.
  - apply (FindTableElement_commit w tableName p t _ Hfind).
    apply sameShell_appendChild.
  - destruct (FindTableElement_Some w tableName p t Hfind)
      as (root & a & ks & _ & _ & -> & _).
    remember (ExtractColumnHeaders (Element TABLE_ELEMENT_NAME a ks)) as hs
      eqn:Hhs.
    split.
    + unfold ExtractColumnHeaders in *. rewrite rows_after_append.
      destruct (elementsByTagName (Element TABLE_ELEMENT_NAME a ks)
                  ROW_ELEMENT_NAME) as [| firstRow rest].
      * subst hs. reflexivity.
      * simpl. symmetry. exact Hhs.
    + rewrite !ExtractTableRows_nodes, rows_after_append, !map_app.
      cbn [map snd]. now rewrite cellTexts_CreateRowElement.
Qed.

Lemma add_row_reads_back_witness :
  exists t',
    AddRowToTable sampleWorker "T" ["x"; "y"; "z"]
      = (true, commit sampleWorker [0] t') /\
    ExtractColumnHeaders t' = ["Col1"; "Col2"] /\
    ExtractTableRows t' = [["a"; "b"]; ["c"]; ["x"; "y"]].
Proof.
  destruct (add_row_reads_back sampleWorker "T" [0] sampleTable
              ["x"; "y"; "z"] eq_refl)
    as (t' & Hadd & _ & Hheaders & Hrows).
  - discriminate.
  - reflexivity.
  - exists t'. split; [exact Hadd |]. split; [exact Hheaders | exact Hrows].
Defined.

Lemma map_snd_under :
  forall i l, map snd (under i l) = map snd l.
Proof. intros. unfold under. rewrite map_map. reflexivity. Qed.

(** Appending a child to the element at [p] leaves the traversal as it
    was, up to the children of the nodes met, but for the new child and
    what is below it. *)
Lemma appendChild_descendants :
  forall p root tg a ks new,
    p <> [] -> nodeAt root p = Some (Element tg a ks) ->
    exists L1 L1' N L2,
      descendants root = L1 ++ L2 /\
      descendants (replaceAt root p (Element tg a (ks ++ [new])))
        = L1' ++ N ++ L2 /\
      Forall2 sameHandle L1 L1' /\
      map snd N = new :: map snd (descendants new).
Proof.
  induction p as [| i p IH]; intros root tg a ks new Hp Hat; [contradiction |].
  destruct root as [tr ar kr |]; [| discriminate]. simpl in Hat.
  simpl replaceAt.
  destruct (nth_error kr i) as [k |] eqn:Hk; [| discriminate].
  apply nth_error_split in Hk. destruct Hk as (l1 & l2 & -> & <-).
  rewrite replaceNth_middle, !descendants_Element, !walkChildren_split.
  destruct p as [| j p].
  - injection Hat as ->. simpl replaceAt.
    rewrite !descendants_Element, walkChildren_app. cbn [walkChildren].
    rewrite app_nil_r, under_app.
    exists (walkChildren 0 l1
            ++ ([length l1], Element tg a ks)
                 :: under (length l1) (walkChildren 0 ks)).
    exists (walkChildren 0 l1
            ++ ([length l1], Element tg a (ks ++ [new]))
                 :: under (length l1) (walkChildren 0 ks)).
    exists (under (length l1)
              (([0 + length ks], new)
                 :: under (0 + length ks) (descendants new))).
    exists (walkChildren (S (length l1)) l2).
    split; [now rewrite <- !app_assoc |].
    split; [now rewrite <- !app_assoc |].
    split.
    + apply Forall2_app; [apply sameHandle_refl |].
      constructor; [| apply sameHandle_refl]. split; simpl; auto.
    + rewrite map_snd_under. cbn [map snd]. now rewrite map_snd_under.
  - destruct (IH k tg a ks new) as (L1 & L1' & N & L2 & HL & HL' & HR & HN);
      [discriminate | assumption |].
    rewrite HL, HL', !under_app.
    exists (walkChildren 0 l1 ++ ([length l1], k) :: under (length l1) L1).
    exists (walkChildren 0 l1
            ++ ([length l1],
                replaceAt k (j :: p) (Element tg a (ks ++ [new])))
                 :: under (length l1) L1').
    exists (under (length l1) N).
    exists (under (length l1) L2 ++ walkChildren (S (length l1)) l2).
    split; [now rewrite <- !app_assoc |].
    split; [now rewrite <- !app_assoc |].
    split.
    + apply Forall2_app; [apply sameHandle_refl |].
      constructor; [| now apply sameHandle_under].
      split; [reflexivity |]. now apply sameShell_replaceAt.
    + now rewrite map_snd_under.
Qed.

Lemma cellsFrom_no_tables :
  forall hs i rowData j,
    filter (isElementNamed TABLE_ELEMENT_NAME)
      (map snd (walkChildren j (cellsFrom i rowData hs))) = [].
Proof.
  induction hs as [| h hs IH]; intros i rowData j; [reflexivity |].
  cbn -[Nat.ltb]. apply IH.
Qed.

Lemma created_row_no_tables :
  forall rowData hs,
    filter (isElementNamed TABLE_ELEMENT_NAME)
      (CreateRowElement rowData hs
         :: map snd (descendants (CreateRowElement rowData hs))) = [].
Proof.
  intros rowData hs. unfold CreateRowElement at 1. cbn [filter isElementNamed].
  replace (String.eqb ROW_ELEMENT_NAME TABLE_ELEMENT_NAME) with false
    by reflexivity.
  unfold CreateRowElement. rewrite descendants_Element.
  apply cellsFrom_no_tables.
Qed.

Lemma no_tables_among :
  forall (N : list Located),
    filter (isElementNamed TABLE_ELEMENT_NAME) (map snd N) = [] ->
    filter (hasTag TABLE_ELEMENT_NAME) N = [].
Proof.
  intros N H. apply map_eq_nil with (f := snd).
  now rewrite filter_hasTag_nodes.
Qed.

Lemma sameHandle_filter :
  forall tag A A',
    Forall2 sameHandle A A' ->
    Forall2 sameHandle (filter (hasTag tag) A) (filter (hasTag tag) A').
Proof.
  intros tag A A' H.
  induction H as [| x y l l' Hxy _ IH]; simpl; [constructor |].
  assert (Htag : hasTag tag x = hasTag tag y).
  { destruct x as [p n], y as [q m]. destruct Hxy as [_ Hs]. simpl in Hs.
    unfold hasTag. simpl.
    destruct n as [t a ks | s], m as [t' a' ks' | s']; simpl in *; try easy.
    now destruct Hs as [-> _]. }
  rewrite <- Htag. destruct (hasTag tag x); [constructor |]; auto.
Qed.

Lemma collectTableNames_sameHandle :
  forall A A',
    Forall2 sameHandle A A' -> collectTableNames A = collectTableNames A'.
Proof.
  intros A A' H. induction H as [| x y l l' [_ Hs] _ IH]; [reflexivity |].
  simpl. unfold attribute.
  rewrite (attributeNode_sameShell _ _ "name" Hs), IH. reflexivity.
Qed.

Lemma collectTableNames_app :
  forall A B,
    collectTableNames (A ++ B) = collectTableNames A ++ collectTableNames B.
Proof.
  induction A as [| x A IH]; intros B; simpl; [reflexivity |].
  destruct (String.eqb (attribute (snd x) "name") ""); simpl; now rewrite IH.
Qed.

(** Adding a row to one table changes nothing about the tables of the
    document: every name resolves to the element it resolved to before (or
    to none, as before), and the names that a fresh reading of the document
    would list are the same, so that the list kept in
    [AvailableTableNames], which the call does not touch, is as good as it
    was. *)
Theorem add_row_keeps_tables :
  forall (w w' : XMLWorker) (tableName : string) (rowData : list string),
    AddRowToTable w tableName rowData = (true, w') ->
    (forall other,
        option_map fst (FindTableElement w' other)
        = option_map fst (FindTableElement w other)) /\
    collectTableNames (tableNodes (XmlDocument w'))
      = collectTableNames (tableNodes (XmlDocument w)) /\
    AvailableTableNames w' = AvailableTableNames w.
Proof.
  intros w w' tableName rowData. unfold AddRowToTable.
  destruct (negb (FileLoaded w) || String.eqb tableName ""); [discriminate |].
  destruct (FindTableElement w tableName) as [[p t] |] eqn:Hfind;
    [| discriminate].
  intros [= <-].
  destruct (FindTableElement_Some w tableName p t Hfind)
    as (root & a & ks & Hdoc & Hin & -> & _).
  apply In_descendants_nodeAt in Hin. destruct Hin as [Hp Hat].
  set (new := CreateRowElement rowData
                (ExtractColumnHeaders (Element TABLE_ELEMENT_NAME a ks))).
  destruct (appendChild_descendants p root TABLE_ELEMENT_NAME a ks new Hp Hat)
    as (L1 & L1' & N & L2 & HL & HL' & HR & HN).
  assert (HNt : filter (hasTag TABLE_ELEMENT_NAME) N = []).
  { apply no_tables_among. rewrite HN. apply created_row_no_tables. }
  split; [| split; [| reflexivity]].
  - intros other. rewrite !FindTableElement_traversal.
    unfold commit. cbn [XmlDocument withDocument]. rewrite Hdoc.
    simpl appendChild. fold new. rewrite HL, HL', !find_app_split.
    assert (HNf : find (isTableNamed other) N = None).
    { unfold isTableNamed.
      rewrite <- (find_filter _ (namedAs other) (hasTag TABLE_ELEMENT_NAME)).
      now rewrite HNt. }
    rewrite HNf.
    pose proof (find_sameHandle (isTableNamed other) L1 L1'
                  (isTableNamed_sameHandle other) HR) as HLL.
    destruct (find (isTableNamed other) L1) as [x |].
    + destruct HLL as (y & -> & Hxy). simpl. now rewrite Hxy.
    + now rewrite HLL.
  - unfold commit. cbn [XmlDocument withDocument]. rewrite Hdoc.
    unfold tableNodes, elementsByTagName. simpl appendChild. fold new.
    rewrite HL, HL', !filter_app, HNt, !collectTableNames_app.
    cbn [app collectTableNames]. f_equal.
    symmetry. apply collectTableNames_sameHandle.
    now apply sameHandle_filter.
Qed.

Lemma add_row_keeps_tables_witness :
  option_map fst
    (FindTableElement (snd (AddRowToTable twinWorker "X" ["9"])) "X")
  = Some [0].
Proof.
  exact (proj1 (add_row_keeps_tables twinWorker
                  (snd (AddRowToTable twinWorker "X" ["9"])) "X" ["9"]
                  eq_refl) "X").
Defined.

(* ------------------------------------------------------------------ *)
(** ** What every edit keeps *)

(** A successful [AddRowToTable], [DeleteRowFromTable] or
    [UpdateCompleteTable] for a name changes the worker in one place only:
    the element the name resolved to is replaced by an edited one with the
    same tag and attributes.  The file path, the list of table names and
    the loaded flag stay, and the name still resolves to that element, so
    that the next call for the name works on the same table. *)
Theorem edit_stays_on_its_table :
  forall (w : XMLWorker) (tableName : string) (p : Path) (t : QDomNode),
    FindTableElement w tableName = Some (p, t) ->
    forall w',
      (exists rowData, AddRowToTable w tableName rowData = (true, w')) \/
      (exists rowIndex, DeleteRowFromTable w tableName rowIndex = (true, w')) \/
      (exists grid, UpdateCompleteTable w tableName grid = Some (true, w')) ->
      exists t',
        w' = commit w p t' /\ sameShell t t' /\
        FindTableElement w' tableName = Some (p, t') /\
        CurrentFilePath w' = CurrentFilePath w /\
        AvailableTableNames w' = AvailableTableNames w /\
        FileLoaded w' = FileLoaded w.
Proof.
  intros w tableName p t Hfind w' Hedit.
  assert (Hedited : exists t', w' = commit w p t' /\ rowEdit t t').
  { destruct Hedit as [[rowData H] | [[rowIndex H] | [grid H]]].
    - unfold AddRowToTable in H. rewrite Hfind in H.
      destruct (negb (FileLoaded w) || String.eqb tableName "");
        [discriminate |].
      injection H as <-. eexists. split; [reflexivity | apply rowAdded].
    - unfold DeleteRowFromTable in H. rewrite Hfind in H.
      destruct (negb (FileLoaded w) || String.eqb tableName ""
                || (rowIndex <? 0)%Z); [discriminate |].
      destruct (rowIndex >=? _)%Z; [discriminate |].
      destruct (nth_error _ _) as [rowToDelete |]; [| discriminate].
      injection H as <-. eexists. split; [reflexivity | apply rowDeleted].
    - unfold UpdateCompleteTable in H. destruct grid as [g |]; [| discriminate].
      rewrite Hfind in H.
      destruct (negb (FileLoaded w) || String.eqb tableName "");
        [discriminate |].
      destruct (replaceRows t (gridRows g) (gridHeaders g)) as [t' |] eqn:Hrep;
        [| discriminate].
      injection H as <-. exists t'. split; [reflexivity |].
      now apply (rowsReplaced t _ _ t' Hrep). }
  destruct Hedited as (t' & -> & Hrow). exists t'.
  apply sameShell_rowEdit in Hrow.
  repeat split; auto.
  now apply (FindTableElement_commit w tableName p t t' Hfind).
Qed.

Lemma edit_stays_on_its_table_witness :
  exists t',
    FindTableElement (snd (DeleteRowFromTable sampleWorker "T" 1)) "T"
    = Some ([0], t').
Proof.
  destruct (edit_stays_on_its_table sampleWorker "T" [0] sampleTable eq_refl
              (snd (DeleteRowFromTable sampleWorker "T" 1)))
    as (t' & _ & _ & Hfind & _).
  - right. left. exists 1%Z. reflexivity.
  - exists t'. exact Hfind.
Defined.

(* ------------------------------------------------------------------ *)
(** ** Deleting a row *)

(** [DeleteRowFromTable] returns [true] exactly when a file is loaded, the
    name is not empty and resolves to a table, and the index is at least 0
    and less than the number of [row] elements below that table; whenever
    it returns [false] the worker is what it was. *)
Theorem delete_row_succeeds_iff :
  forall (w : XMLWorker) (tableName : string) (rowIndex : Z),
    (fst (DeleteRowFromTable w tableName rowIndex) = true <->
     FileLoaded w = true /\ tableName <> "" /\
     exists p t,
       FindTableElement w tableName = Some (p, t) /\
       (0 <= rowIndex
        < Z.of_nat (length (elementsByTagName t ROW_ELEMENT_NAME)))%Z) /\
    (fst (DeleteRowFromTable w tableName rowIndex) = false ->
     snd (DeleteRowFromTable w tableName rowIndex) = w).
Proof.
  intros w tableName rowIndex. unfold DeleteRowFromTable.
  destruct (FileLoaded w); simpl;
    [| split; [split; [discriminate | intros [H _]; discriminate] | auto]].
  destruct (String.eqb_spec tableName "") as [-> | Hname]; simpl;
    [split; [split; [discriminate | intros (_ & H & _); now elim H] | auto] |].
  destruct (Z.ltb_spec rowIndex 0) as [Hneg | Hpos];
    [split; [split; [discriminate | intros (_ & _ & p & t & _ & H); lia]
            | auto] |].
  destruct (FindTableElement w tableName) as [[p t] |];
    [| split; [split; [discriminate
                      | intros (_ & _ & p & t & H & _); discriminate] | auto]].
  destruct (Z.geb_spec rowIndex
              (Z.of_nat (length (elementsByTagName t ROW_ELEMENT_NAME))))
    as [Hge | Hlt]; simpl;
    [split; [split; [discriminate
                    | intros (_ & _ & p' & t' & [= <- <-] & H); lia] | auto] |].
  destruct (nth_error (elementsByTagName t ROW_ELEMENT_NAME)
              (Z.to_nat rowIndex)) as [rowToDelete |] eqn:Hnth; simpl.
  - split; [| discriminate]. split; [| reflexivity].
    intros _. repeat split; auto. exists p, t. split; [reflexivity | lia].
  - apply nth_error_None in Hnth. lia.
Qed.

(* ------------------------------------------------------------------ *)
(** ** When the row-removing loop ends *)

Lemma covered_no_rows :
  forall l i,
    forallb rowCovered l = true -> filter isRow l = [] ->
    filter (hasTag ROW_ELEMENT_NAME) (walkChildren i l) = [].
Proof.
  induction l as [| k l IH]; intros i Hcov Hrows; [reflexivity |].
  simpl in Hcov, Hrows. apply andb_prop in Hcov. destruct Hcov as [Hk Hl].
  destruct (isRow k) eqn:Hrow; [discriminate |].
  cbn [walkChildren filter].
  change (hasTag ROW_ELEMENT_NAME ([i], k)) with (isRow k). rewrite Hrow.
  rewrite filter_app, filter_under, (IH (S i) Hl Hrows).
  unfold rowCovered in Hk. rewrite Hrow in Hk. simpl in Hk.
  fold (elementsByTagName k ROW_ELEMENT_NAME).
  destruct (elementsByTagName k ROW_ELEMENT_NAME); [reflexivity | discriminate].
Qed.

Lemma forallb_false_split :
  forall (A : Type) (f : A -> bool) l,
    forallb f l = false ->
    exists l1 x l2, l = l1 ++ x :: l2 /\ forallb f l1 = true /\ f x = false.
Proof.
  induction l as [| y l IH]; intros H; [discriminate |]. simpl in H.
  destruct (f y) eqn:Hy.
  - destruct (IH H) as (l1 & x & l2 & -> & Hl1 & Hx).
    exists (y :: l1), x, l2. simpl. rewrite Hy. auto.
  - exists [], y, l. auto.
Qed.

Lemma removeRowsLoop_covered :
  forall fuel t a ks,
    forallb rowCovered ks = true ->
    length (filter isRow ks) <= fuel ->
    removeRowsLoop fuel (Element t a ks) = Some (Element t a (filter notRow ks)).
Proof.
  induction fuel as [| fuel IH]; intros t a ks Hcov Hfuel;
    rewrite removeRowsLoop_eq, elementsByTagName_Element;
    destruct (filter isRow ks) as [| r rest] eqn:Hrows.
  - now rewrite (covered_no_rows ks 0 Hcov Hrows), (no_row_children ks Hrows).
  - simpl in Hfuel. lia.
  - now rewrite (covered_no_rows ks 0 Hcov Hrows), (no_row_children ks Hrows).
  - destruct (first_row_child ks r rest Hrows) as (l1 & l2 & -> & Hl1 & Hr & ->).
    rewrite forallb_app in Hcov. apply andb_prop in Hcov.
    destruct Hcov as [Hc1 Hc2]. simpl in Hc2. apply andb_prop in Hc2.
    destruct Hc2 as [_ Hc2].
    rewrite walkChildren_split, filter_app, (covered_no_rows l1 0 Hc1 Hl1).
    cbn [app filter].
    change (hasTag ROW_ELEMENT_NAME ([length l1], r)) with (isRow r).
    rewrite Hr. cbn [fst removeChild]. rewrite removeNth_middle, IH.
    + do 2 f_equal. rewrite !filter_app. cbn [filter].
      replace (notRow r) with false by (unfold notRow; now rewrite Hr).
      reflexivity.
    + rewrite forallb_app. now rewrite Hc1, Hc2.
    + rewrite filter_app, length_app, Hl1. simpl in Hfuel. simpl. lia.
Qed.

Lemma removeRowsLoop_uncovered :
  forall fuel t a ks,
    forallb rowCovered ks = false ->
    removeRowsLoop fuel (Element t a ks) = None.
Proof.
  induction fuel as [| fuel IH]; intros t a ks Hcov;
    destruct (forallb_false_split _ rowCovered ks Hcov)
      as (l1 & k & l2 & -> & Hc1 & Hk);
    unfold rowCovered in Hk; apply orb_false_elim in Hk;
    destruct Hk as [Hrow Hbelow];
    destruct (elementsByTagName k ROW_ELEMENT_NAME) as [| [q x] below]
      eqn:Hrowsk; try discriminate;
    assert (Hq : q <> [])
      by (assert (Hin : In (q, x) (elementsByTagName k ROW_ELEMENT_NAME))
            by (rewrite Hrowsk; now left);
          apply filter_In in Hin; destruct Hin as [Hin _];
          now apply In_descendants_nodeAt in Hin);
    destruct (filter isRow l1) as [| r rest] eqn:Hrows.
  - apply (removeRowsLoop_stuck 0 _ (length l1 :: q, x)
             (under (length l1) below
              ++ filter (hasTag ROW_ELEMENT_NAME)
                   (walkChildren (S (length l1)) l2))).
    + rewrite elementsByTagName_Element, walkChildren_split, filter_app,
        (covered_no_rows l1 0 Hc1 Hrows).
      cbn [app filter].
      change (hasTag ROW_ELEMENT_NAME ([length l1], k)) with (isRow k).
      rewrite Hrow, filter_app, filter_under.
      fold (elementsByTagName k ROW_ELEMENT_NAME). now rewrite Hrowsk.
    + destruct q; [contradiction | reflexivity].
  - rewrite removeRowsLoop_eq, elementsByTagName_Element.
    destruct (first_row_child l1 r rest Hrows)
      as (m1 & m2 & -> & Hm1 & Hr & ->).
    rewrite forallb_app in Hc1. apply andb_prop in Hc1.
    destruct Hc1 as [Hcm1 _].
    rewrite <- app_assoc. cbn [app].
    rewrite walkChildren_split, filter_app, (covered_no_rows m1 0 Hcm1 Hm1).
    cbn [app filter].
    change (hasTag ROW_ELEMENT_NAME ([length m1], r)) with (isRow r).
    now rewrite Hr.
  - apply (removeRowsLoop_stuck (S fuel) _ (length l1 :: q, x)
             (under (length l1) below
              ++ filter (hasTag ROW_ELEMENT_NAME)
                   (walkChildren (S (length l1)) l2))).
    + rewrite elementsByTagName_Element, walkChildren_split, filter_app,
        (covered_no_rows l1 0 Hc1 Hrows).
      cbn [app filter].
      change (hasTag ROW_ELEMENT_NAME ([length l1], k)) with (isRow k).
      rewrite Hrow, filter_app, filter_under.
      fold (elementsByTagName k ROW_ELEMENT_NAME). now rewrite Hrowsk.
    + destruct q; [contradiction | reflexivity].
  - rewrite removeRowsLoop_eq, elementsByTagName_Element.
    destruct (first_row_child l1 r rest Hrows)
      as (m1 & m2 & -> & Hm1 & Hr & ->).
    rewrite forallb_app in Hc1. apply andb_prop in Hc1.
    destruct Hc1 as [Hcm1 Hcm2]. simpl in Hcm2. apply andb_prop in Hcm2.
    destruct Hcm2 as [_ Hcm2].
    rewrite <- app_assoc. cbn [app].
    rewrite walkChildren_split, filter_app, (covered_no_rows m1 0 Hcm1 Hm1).
    cbn [app filter].
    change (hasTag ROW_ELEMENT_NAME ([length m1], r)) with (isRow r).
    rewrite Hr. cbn [fst removeChild]. rewrite removeNth_middle.
    rewrite app_assoc. apply IH.
    rewrite forallb_app, forallb_app, Hcm1, Hcm2. simpl.
    unfold rowCovered at 1. now rewrite Hrow, Hrowsk.
Qed.

Lemma replaceRows_covered :
  forall t a ks rows hs,
    forallb rowCovered ks = true ->
    replaceRows (Element t a ks) rows hs
    = Some (Element t a
              (filter notRow ks ++ map (fun r => CreateRowElement r hs) rows)).
Proof.
  intros t a ks rows hs Hcov. unfold replaceRows, removeAllRows.
  pose proof (removeRowsLoop_covered _ t a ks Hcov (Nat.le_refl _)) as Hloop.
  rewrite (removeRowsLoop_fuel _ _ _ _ Hloop (Nat.le_refl _)).
  now rewrite appendRows_Element.
Qed.

(** The row replacement of [UpdateCompleteTable] returns exactly when
    every [row] element below the table is a child of the table or lies
    below a child that is a row.  It then leaves the children that are not
    rows, in their order, followed by one created row per entry of [rows];
    otherwise the row-removing loop runs for ever, whatever the number of
    iterations it is given. *)
Theorem replaceRows_returns_iff :
  forall (t : string) (a : list (string * string)) (ks : list QDomNode)
         (rows : list (list string)) (hs : list string),
    replaceRows (Element t a ks) rows hs
    = (if rowsUnderRowChildren (Element t a ks)
       then Some (Element t a
                    (filter notRow ks
                     ++ map (fun r => CreateRowElement r hs) rows))
       else None)
    /\ (rowsUnderRowChildren (Element t a ks) = false ->
        forall fuel, removeRowsLoop fuel (Element t a ks) = None).
Proof.
  intros t a ks rows hs. cbn [rowsUnderRowChildren].
  destruct (forallb rowCovered ks) eqn:Hcov.
  - split; [| discriminate]. now apply replaceRows_covered.
  - split.
    + unfold replaceRows, removeAllRows.
      now rewrite (removeRowsLoop_uncovered _ t a ks Hcov).
    + intros _ fuel. now apply removeRowsLoop_uncovered.
Qed.

(* ------------------------------------------------------------------ *)
(** ** What a replaced table reads back as *)

Lemma fitRow_exact :
  forall l : list string, fitRow (length l) l = l.
Proof.
  unfold fitRow. induction l as [| x l IH]; [reflexivity |].
  cbn [length seq map nth]. rewrite <- seq_shift, map_map. cbn [nth].
  now rewrite IH.
Qed.

Lemma gridHeaders_length :
  forall g, length (gridHeaders g) = columnCount g.
Proof. intros g. unfold gridHeaders. now rewrite length_map, length_seq. Qed.

Lemma gridRow_length :
  forall g r, length (gridRow g r) = columnCount g.
Proof. intros g r. unfold gridRow. now rewrite length_map, length_seq. Qed.

Lemma fit_gridRows :
  forall g,
    map (fitRow (length (gridHeaders g))) (gridRows g) = gridRows g.
Proof.
  intros g. unfold gridRows. rewrite map_map. apply map_ext. intros r.
  rewrite gridHeaders_length, <- (gridRow_length g r). apply fitRow_exact.
Qed.

Lemma covered_not_rows :
  forall ks,
    forallb rowCovered ks = true ->
    Forall (fun k => elementsByTagName k ROW_ELEMENT_NAME = [])
      (filter notRow ks)
    /\ filter isRow (filter notRow ks) = [].
Proof.
  induction ks as [| k ks IH]; intros Hcov; [split; [constructor | reflexivity] |].
  simpl in Hcov. apply andb_prop in Hcov. destruct Hcov as [Hk Hks].
  destruct (IH Hks) as [IH1 IH2]. cbn [filter].
  destruct (isRow k) eqn:Hrow.
  { replace (notRow k) with false by (unfold notRow; now rewrite Hrow).
    now split. }
  replace (notRow k) with true by (unfold notRow; now rewrite Hrow).
  split.
  - constructor; [| exact IH1]. unfold rowCovered in Hk. rewrite Hrow in Hk.
    simpl in Hk.
    destruct (elementsByTagName k ROW_ELEMENT_NAME); [reflexivity | discriminate].
  - cbn [filter]. now rewrite Hrow.
Qed.

Lemma created_rows_are_rows :
  forall rows hs,
    Forall (fun k => elementsByTagName k ROW_ELEMENT_NAME = [])
      (map (fun r => CreateRowElement r hs) rows)
    /\ filter isRow (map (fun r => CreateRowElement r hs) rows)
       = map (fun r => CreateRowElement r hs) rows.
Proof.
  induction rows as [| r rows IH]; intros hs; [split; [constructor | reflexivity] |].
  destruct (IH hs) as [IH1 IH2]. split.
  - constructor; [apply CreateRowElement_no_rows | exact IH1].
  - cbn [map filter].
    replace (isRow (CreateRowElement r hs)) with true by reflexivity.
    now rewrite IH2.
Qed.

(** The table that the row replacement leaves, read back. *)
Lemma replaced_table_reads_back :
  forall t a ks rows hs,
    forallb rowCovered ks = true ->
    let t' := Element t a (filter notRow ks
                           ++ map (fun r => CreateRowElement r hs) rows) in
    rowsAreChildren t' /\
    ExtractTableRows t' = map (fitRow (length hs)) rows /\
    ExtractColumnHeaders t'
    = match rows with [] => [] | _ :: _ => namedHeaders 0 hs end.
Proof.
  intros t a ks rows hs Hcov t'.
  destruct (covered_not_rows ks Hcov) as [Hold1 Hold2].
  destruct (created_rows_are_rows rows hs) as [Hnew1 Hnew2].
  assert (Hflat : rowsAreChildren t').
  { unfold t'. simpl. apply Forall_app. now split. }
  split; [exact Hflat |]. split.
  - unfold t'. rewrite (ExtractTableRows_children _ _ _ Hflat).
    rewrite filter_app, Hold2, Hnew2. cbn [app]. rewrite map_map.
    apply map_ext. intros r. apply cellTexts_CreateRowElement.
  - unfold ExtractColumnHeaders, t'.
    rewrite elementsByTagName_Element, walkChildren_app, filter_app.
    simpl in Hflat. apply Forall_app in Hflat. destruct Hflat as [Hf1 _].
    rewrite (rows_of_children _ 0 Hf1), (row_handles_nil _ 0 Hold2).
    rewrite created_rows_handles. cbn [app].
    destruct rows as [| r rows]; [reflexivity |].
    cbn [map childHandles snd]. apply headers_of_CreateRowElement.
Qed.

(** C8 on [grouped.xml]: the file loads and its table reads as one row
    under the header [A], but the first of two replacements of its rows
    never returns, whatever the rows, the headers or the grid: neither one
    call nor two leave the table in any state.  Two calls leave what one
    call leaves, and leave a table at all, exactly on the tables all of
    whose [row] elements are children of the table or lie below a child
    that is a row. *)
Theorem replacing_twice_leaves_no_table_on_grouped_row :
  fst (LoadXMLFile groupedQt newXMLWorker "grouped.xml")
    = (true, groupedWorker) /\
  FindTableElement groupedWorker "T" = Some ([0], groupedTable) /\
  observe groupedTable = (["A"], [["1"]]) /\
  (forall rows columnHeaders,
      replaceRows groupedTable rows columnHeaders = None /\
      replaceRowsTwice groupedTable rows columnHeaders = None) /\
  (forall grid, UpdateCompleteTable groupedWorker "T" (Some grid) = None) /\
  (forall tag attributes children rows columnHeaders,
      let tableElement := Element tag attributes children in
      (exists once,
          replaceRows tableElement rows columnHeaders = Some once /\
          replaceRowsTwice tableElement rows columnHeaders = Some once /\
          observe once
          = (match rows with
             | [] => []
             | _ :: _ => namedHeaders 0 columnHeaders
             end,
             map (fitRow (length columnHeaders)) rows))
      <-> rowsUnderRowChildren tableElement = true).
Proof.
  assert (Hgrouped : forall rows hs, replaceRows groupedTable rows hs = None).
  { intros rows hs. unfold replaceRows, removeAllRows.
    now rewrite (removeRowsLoop_uncovered _ "table" [("name", "T")]
                   [Element "group" [] [Element "row" [] [cell "A" "1"]]]
                   eq_refl). }
  split; [reflexivity |]. split; [reflexivity |]. split; [reflexivity |].
  split; [| split].
  - intros rows hs. rewrite replaceRowsTwice_once. now split.
  - intros grid. unfold UpdateCompleteTable.
    replace (FindTableElement groupedWorker "T")
      with (Some ([0], groupedTable)) by reflexivity.
    cbn -[replaceRows]. now rewrite Hgrouped.
  - intros t a ks rows hs tableElement. unfold tableElement.
    cbn [rowsUnderRowChildren].
    destruct (forallb rowCovered ks) eqn:Hcov.
    + split; [reflexivity | intros _].
      pose proof (replaceRows_covered t a ks rows hs Hcov) as Hrep.
      destruct (replaced_table_reads_back t a ks rows hs Hcov)
        as (_ & Hrows & Hheaders).
      eexists. split; [exact Hrep |].
      split; [rewrite replaceRowsTwice_once; exact Hrep |].
      unfold observe. now rewrite Hrows, Hheaders.
    + split; [| discriminate]. intros (once & Hrep & _).
      unfold replaceRows, removeAllRows in Hrep.
      now rewrite (removeRowsLoop_uncovered _ t a ks Hcov) in Hrep.
Qed.

(** [UpdateCompleteTable] on a table whose rows are covered. *)
Lemma UpdateCompleteTable_covered :
  forall (w : XMLWorker) (tableName : string) (g : QTableWidget)
         (p : Path) (t : QDomNode),
    FileLoaded w = true ->
    tableName <> "" ->
    FindTableElement w tableName = Some (p, t) ->
    rowsUnderRowChildren t = true ->
    exists t',
      UpdateCompleteTable w tableName (Some g) = Some (true, commit w p t') /\
      FindTableElement (commit w p t') tableName = Some (p, t') /\
      ExtractTableRows t' = gridRows g /\
      ExtractColumnHeaders t'
      = (if Nat.eqb (rowCount g) 0 then []
         else namedHeaders 0 (gridHeaders g)).
Proof.
  intros w tableName g p t Hloaded Hname Hfind Hcov.
  destruct (FindTableElement_Some w tableName p t Hfind)
    as (root & a & ks & _ & _ & -> & _).
  simpl in Hcov.
  pose proof (replaceRows_covered TABLE_ELEMENT_NAME a ks
                (gridRows g) (gridHeaders g) Hcov) as Hrep.
  destruct (replaced_table_reads_back TABLE_ELEMENT_NAME a ks (gridRows g)
              (gridHeaders g) Hcov) as (_ & Hrows & Hheaders).
  eexists. split; [| split; [| split]].
  - unfold UpdateCompleteTable. rewrite Hloaded, Hfind, Hrep.
    apply String.eqb_neq in Hname. now rewrite Hname.
  - apply (FindTableElement_commit w tableName p _ _ Hfind). simpl. auto.
  - rewrite Hrows. apply fit_gridRows.
  - rewrite Hheaders. unfold gridRows.
    destruct (rowCount g); reflexivity.
Qed.

(** Writing a grid into a table all of whose rows are, or lie below, row
    children of the table succeeds, and the table then reads back as the
    grid: its rows are the grid's rows, cell by cell, an absent item being
    the empty string; its headers are the grid's headers, an empty header
    text being replaced by [Column_<position>].  A grid without rows leaves
    a table without headers: the column names are not kept. *)
Theorem update_reads_back :
  forall (w : XMLWorker) (tableName : string) (g : QTableWidget)
         (p : Path) (t : QDomNode),
    FileLoaded w = true ->
    tableName <> "" ->
    FindTableElement w tableName = Some (p, t) ->
    rowsUnderRowChildren t = true ->
    exists t',
      UpdateCompleteTable w tableName (Some g) = Some (true, commit w p t') /\
      FindTableElement (commit w p t') tableName = Some (p, t') /\
      ExtractTableRows t' = gridRows g /\
      ExtractColumnHeaders t'
      = (if Nat.eqb (rowCount g) 0 then []
         else namedHeaders 0 (gridHeaders g)).
Proof.
  intros w tableName g p t Hloaded Hname Hfind Hcov.
  exact (UpdateCompleteTable_covered w tableName g p t Hloaded Hname Hfind
           Hcov).
Qed.

Lemma update_reads_back_witness :
  exists t',
    UpdateCompleteTable sampleWorker "T" (Some editedGrid)
      = Some (true, commit sampleWorker [0] t') /\
    ExtractTableRows t' = [["Ann"; "31"]; ["Bob"; ""]] /\
    ExtractColumnHeaders t' = ["Name"; "Column_2"].
Proof.
  destruct (update_reads_back sampleWorker "T" editedGrid [0] sampleTable
              eq_refl)
    as (t' & Hupdate & _ & Hrows & Hheaders).
  - discriminate.
  - reflexivity.
  - reflexivity.
  - exists t'. split; [exact Hupdate |]. split; [exact Hrows | exact Hheaders].
Defined.

(* ------------------------------------------------------------------ *)
(** ** Deleting the row at an index *)

Lemma nth_row_child :
  forall ks s i q r,
    nth_error (filter (hasTag ROW_ELEMENT_NAME) (childHandles s ks)) i
      = Some (q, r) ->
    exists j,
      q = [s + j] /\
      filter isRow (removeNth j ks) = removeNth i (filter isRow ks) /\
      (forall P : QDomNode -> Prop, Forall P ks -> Forall P (removeNth j ks)).
Proof.
  induction ks as [| k ks IH]; intros s i q r H; [now destruct i |].
  cbn [childHandles filter] in H.
  change (hasTag ROW_ELEMENT_NAME ([s], k)) with (isRow k) in H.
  destruct (isRow k) eqn:Hk.
  - destruct i as [| i]; simpl in H.
    + injection H as <- <-. exists 0. rewrite Nat.add_0_r.
      split; [reflexivity |]. simpl. rewrite Hk. split; [reflexivity |].
      intros P HP. now inversion HP.
    + destruct (IH (S s) i q r H) as (j & -> & Hfilter & HP).
      exists (S j). split; [f_equal; lia |]. simpl. rewrite Hk. simpl.
      rewrite Hfilter. split; [reflexivity |].
      intros P HPk. inversion HPk; subst. constructor; auto.
  - destruct (IH (S s) i q r H) as (j & -> & Hfilter & HP).
    exists (S j). split; [f_equal; lia |]. simpl. rewrite Hk.
    split; [exact Hfilter |].
    intros P HPk. inversion HPk; subst. constructor; auto.
Qed.

Lemma map_removeNth :
  forall (A B : Type) (f : A -> B) l i,
    map f (removeNth i l) = removeNth i (map f l).
Proof.
  induction l as [| x l IH]; intros [| i]; simpl; auto. now rewrite IH.
Qed.

(** On a table whose rows are all its children, deleting the row at an
    index from 0 up to the row count succeeds and takes exactly that row
    away: the rows read back afterwards are the rows read before without
    the one at the index, the others in their order. *)
Theorem delete_row_removes_that_row :
  forall (w : XMLWorker) (tableName : string) (p : Path) (t : QDomNode)
         (i : nat),
    FileLoaded w = true ->
    tableName <> "" ->
    FindTableElement w tableName = Some (p, t) ->
    rowsAreChildren t ->
    i < length (ExtractTableRows t) ->
    exists t',
      DeleteRowFromTable w tableName (Z.of_nat i) = (true, commit w p t') /\
      FindTableElement (commit w p t') tableName = Some (p, t') /\
      rowsAreChildren t' /\
      ExtractTableRows t' = removeNth i (ExtractTableRows t).
Proof.
  intros w tableName p t i Hloaded Hname Hfind Hflat Hi.
  destruct (FindTableElement_Some w tableName p t Hfind)
    as (root & a & ks & _ & _ & -> & _).
  rewrite (ExtractTableRows_children _ a ks Hflat), length_map in Hi.
  pose proof (row_count_children _ a ks Hflat) as Hcount.
  simpl in Hflat.
  destruct (nth_error (filter (hasTag ROW_ELEMENT_NAME) (childHandles 0 ks)) i)
    as [[q r] |] eqn:Hnth.
  2:{ apply nth_error_None in Hnth.
      rewrite <- (length_map snd), row_children_nodes in Hnth. lia. }
  destruct (nth_row_child ks 0 i q r Hnth) as (j & -> & Hfilter & HP).
  assert (Hflat' : rowsAreChildren
                     (Element TABLE_ELEMENT_NAME a (removeNth j ks))).
  { simpl. now apply HP. }
  exists (Element TABLE_ELEMENT_NAME a (removeNth j ks)).
  split; [| split; [| split]].
  - unfold DeleteRowFromTable. rewrite Hloaded, Hfind.
    apply String.eqb_neq in Hname. rewrite Hname.
    replace (Z.of_nat i <? 0)%Z with false by (symmetry; apply Z.ltb_ge; lia).
    cbn [negb orb]. rewrite Hcount.
    replace (Z.of_nat i >=? Z.of_nat (length (filter isRow ks)))%Z with false
      by (symmetry; rewrite Z.geb_leb; apply Z.leb_gt; lia).
    rewrite Nat2Z.id, elementsByTagName_Element, (rows_of_children ks 0 Hflat),
      Hnth.
    reflexivity.
  - apply (FindTableElement_commit w tableName p _ _ Hfind). simpl. auto.
  - exact Hflat'.
  - rewrite (ExtractTableRows_children _ a _ Hflat'),
      (ExtractTableRows_children _ a ks Hflat), Hfilter.
    apply map_removeNth.
Qed.

Lemma delete_row_removes_that_row_witness :
  exists t',
    DeleteRowFromTable sampleWorker "T" 1 = (true, commit sampleWorker [0] t')
    /\ ExtractTableRows t' = [["a"; "b"]].
Proof.
  destruct (delete_row_removes_that_row sampleWorker "T" [0] sampleTable 1
              eq_refl)
    as (t' & Hdelete & _ & _ & Hrows).
  - discriminate.
  - reflexivity.
  - simpl. repeat constructor.
  - simpl. lia.
  - exists t'. split; [exact Hdelete | exact Hrows].
Defined.

(* ------------------------------------------------------------------ *)
(** ** Loading a table into the grid *)

Lemma fillRow_spec :
  forall rowData row col n g,
    row < rowCount g -> n <= columnCount g ->
    columnCount (fillRow row col rowData n g) = columnCount g /\
    rowCount (fillRow row col rowData n g) = rowCount g /\
    (forall c, horizontalHeaderItem (fillRow row col rowData n g) c
               = horizontalHeaderItem g c) /\
    forall r c,
      item (fillRow row col rowData n g) r c
      = if Nat.eqb r row && Nat.leb col c && Nat.ltb c n
        then match nth_error rowData (c - col) with
             | Some v => Some v
             | None => item g r c
             end
        else item g r c.
Proof.
  induction rowData as [| v rest IH]; intros row col n g Hrow Hn.
  - simpl. repeat split; auto. intros r c.
    destruct (Nat.eqb r row && Nat.leb col c && Nat.ltb c n); auto.
    now destruct (c - col).
  - cbn [fillRow]. destruct (Nat.ltb_spec col n) as [Hcol | Hcol].
    + assert (Hset : setItem row col v g
                     = mkQTableWidget (columnCount g) (rowCount g)
                         (horizontalHeaderItem g)
                         (fun r c => if Nat.eqb r row && Nat.eqb c col
                                     then Some v else item g r c)).
      { unfold setItem.
        destruct (Nat.ltb_spec row (rowCount g)); [| lia].
        destruct (Nat.ltb_spec col (columnCount g)); [| lia]. reflexivity. }
      rewrite Hset.
      destruct (IH row (S col) n
                  (mkQTableWidget (columnCount g) (rowCount g)
                     (horizontalHeaderItem g)
                     (fun r c => if Nat.eqb r row && Nat.eqb c col
                                 then Some v else item g r c))
                  Hrow Hn) as (Hc & Hr & Hh & Hi).
      cbn [columnCount rowCount horizontalHeaderItem item] in *.
      split; [exact Hc |]. split; [exact Hr |]. split; [exact Hh |].
      intros r c. rewrite Hi.
      destruct (Nat.eqb_spec r row) as [-> | Hneq]; cbn [andb];
        [| reflexivity].
      destruct (lt_eq_lt_dec c col) as [[Hlt | Heq] | Hgt].
      * destruct (Nat.leb_spec (S col) c); [lia |].
        destruct (Nat.leb_spec col c); [lia |].
        destruct (Nat.eqb_spec c col); [lia | reflexivity].
      * subst c. destruct (Nat.leb_spec (S col) col); [lia |].
        rewrite Nat.leb_refl, Nat.eqb_refl, Nat.sub_diag. cbn [andb].
        destruct (Nat.ltb_spec col n); [reflexivity | lia].
      * destruct (Nat.leb_spec (S col) c); [| lia].
        destruct (Nat.leb_spec col c); [| lia].
        destruct (Nat.eqb_spec c col); [lia |]. cbn [andb].
        destruct (Nat.ltb c n); [| reflexivity].
        replace (c - col) with (S (c - S col)) by lia. reflexivity.
    + repeat split; auto. intros r c.
      destruct (Nat.eqb r row); cbn [andb]; auto.
      destruct (Nat.leb_spec col c); cbn [andb]; auto.
      destruct (Nat.ltb_spec c n); [lia | reflexivity].
Qed.

Lemma fillRows_spec :
  forall tableRows row n g,
    row + length tableRows <= rowCount g -> n <= columnCount g ->
    columnCount (fillRows row tableRows n g) = columnCount g /\
    rowCount (fillRows row tableRows n g) = rowCount g /\
    (forall c, horizontalHeaderItem (fillRows row tableRows n g) c
               = horizontalHeaderItem g c) /\
    forall r c,
      item (fillRows row tableRows n g) r c
      = if Nat.leb row r && Nat.ltb c n
        then match nth_error tableRows (r - row) with
             | Some rowData =>
                 match nth_error rowData c with
                 | Some v => Some v
                 | None => item g r c
                 end
             | None => item g r c
             end
        else item g r c.
Proof.
  induction tableRows as [| rowData rest IH]; intros row n g Hrows Hn.
  - simpl. repeat split; auto. intros r c.
    destruct (Nat.leb row r && Nat.ltb c n); auto. now destruct (r - row).
  - cbn [fillRows]. cbn [length] in Hrows.
    destruct (fillRow_spec rowData row 0 n g) as (Hc1 & Hr1 & Hh1 & Hi1);
      [lia | exact Hn |].
    destruct (IH (S row) n (fillRow row 0 rowData n g))
      as (Hc & Hr & Hh & Hi); [rewrite Hr1; lia | rewrite Hc1; exact Hn |].
    split; [congruence |]. split; [congruence |].
    split; [intros c; now rewrite Hh, Hh1 |].
    intros r c. rewrite Hi, Hi1.
    replace (Nat.leb 0 c) with true by reflexivity. rewrite Nat.sub_0_r.
    destruct (Nat.ltb c n); rewrite ?andb_false_r, ?andb_true_r;
      [| reflexivity].
    destruct (lt_eq_lt_dec r row) as [[Hlt | Heq] | Hgt].
    + destruct (Nat.leb_spec (S row) r); [lia |].
      destruct (Nat.leb_spec row r); [lia |].
      destruct (Nat.eqb_spec r row); [lia | reflexivity].
    + subst r. destruct (Nat.leb_spec (S row) row); [lia |].
      now rewrite Nat.leb_refl, Nat.eqb_refl, Nat.sub_diag.
    + destruct (Nat.leb_spec (S row) r); [| lia].
      destruct (Nat.leb_spec row r); [| lia].
      destruct (Nat.eqb_spec r row); [lia |].
      replace (r - row) with (S (r - S row)) by lia. reflexivity.
Qed.

(** The grid that a successful [LoadTableData] leaves. *)
Lemma LoadTableData_grid :
  forall w tableName g0 p t,
    FileLoaded w = true -> tableName <> "" ->
    FindTableElement w tableName = Some (p, t) ->
    exists g,
      LoadTableData w tableName (Some g0) = (true, Some g) /\
      columnCount g = length (ExtractColumnHeaders t) /\
      rowCount g = length (ExtractTableRows t) /\
      (forall c, horizontalHeaderItem g c
                 = nth_error (ExtractColumnHeaders t) c) /\
      (forall r c,
          item g r c
          = match nth_error (ExtractTableRows t) r with
            | Some rowData =>
                if Nat.ltb c (length (ExtractColumnHeaders t))
                then nth_error rowData c else None
            | None => None
            end).
Proof.
  intros w tableName g0 p t Hloaded Hname Hfind.
  unfold LoadTableData. rewrite Hloaded, Hfind.
  apply String.eqb_neq in Hname. rewrite Hname. cbn [negb orb].
  set (hs := ExtractColumnHeaders t). set (rows := ExtractTableRows t).
  set (g4 := setHorizontalHeaderLabels hs
               (setRowCount (length rows)
                  (setColumnCount (length hs) (clear g0)))).
  destruct (fillRows_spec rows 0 (length hs) g4) as (Hc & Hr & Hh & Hi);
    [simpl; lia | simpl; lia |].
  eexists. split; [reflexivity |].
  split; [exact Hc |]. split; [exact Hr |]. split.
  - intros c. rewrite Hh. simpl.
    destruct (Nat.ltb_spec c (length hs)) as [Hlt | Hge].
    + now destruct (nth_error hs c).
    + symmetry. now apply nth_error_None.
  - intros r c. rewrite Hi. cbn [Nat.leb andb]. rewrite Nat.sub_0_r.
    simpl item. destruct (Nat.ltb c (length hs)).
    + destruct (nth_error rows r) as [rowData |]; [| now destruct (Nat.ltb r _)].
      destruct (nth_error rowData c); [reflexivity |].
      now destruct (Nat.ltb r (length rows)).
    + destruct (nth_error rows r); now destruct (Nat.ltb r (length rows)).
Qed.

(** [LoadTableData] returns [true] exactly when there is a grid, a file is
    loaded, and the name is not empty and resolves to a table; when it
    returns [false] the grid is untouched.  On success the grid has one
    column per extracted header and one row per extracted row, the header
    items are the headers, and the item at a row and column holds the
    row's value at that column when the row has one and the column has a
    header; a row's values past the last header are not shown and a row's
    missing values leave no item. *)
Theorem load_table_fills_grid :
  forall (w : XMLWorker) (tableName : string) (grid : option QTableWidget),
    (fst (LoadTableData w tableName grid) = true <->
     grid <> None /\ FileLoaded w = true /\ tableName <> "" /\
     FindTableElement w tableName <> None) /\
    (fst (LoadTableData w tableName grid) = false ->
     snd (LoadTableData w tableName grid) = grid) /\
    (forall p t,
        fst (LoadTableData w tableName grid) = true ->
        FindTableElement w tableName = Some (p, t) ->
        exists g,
          snd (LoadTableData w tableName grid) = Some g /\
          columnCount g = length (ExtractColumnHeaders t) /\
          rowCount g = length (ExtractTableRows t) /\
          (forall c, horizontalHeaderItem g c
                     = nth_error (ExtractColumnHeaders t) c) /\
          (forall r c,
              item g r c
              = match nth_error (ExtractTableRows t) r with
                | Some rowData =>
                    if Nat.ltb c (length (ExtractColumnHeaders t))
                    then nth_error rowData c else None
                | None => None
                end)).
Proof.
  intros w tableName grid.
  destruct grid as [g0 |].
  2:{ simpl. split; [split; [discriminate | intros [H _]; now elim H] |].
      split; [reflexivity | discriminate]. }
  destruct (FileLoaded w) eqn:Hloaded.
  2:{ unfold LoadTableData. rewrite Hloaded. simpl.
      split; [split; [discriminate | intros (_ & H & _); discriminate] |].
      split; [reflexivity | discriminate]. }
  destruct (String.eqb_spec tableName "") as [Hempty | Hname].
  { unfold LoadTableData. rewrite Hloaded. subst tableName. simpl.
    split; [split; [discriminate | intros (_ & _ & H & _); now elim H] |].
    split; [reflexivity | discriminate]. }
  destruct (FindTableElement w tableName) as [[p t] |] eqn:Hfind.
  - destruct (LoadTableData_grid w tableName g0 p t Hloaded Hname Hfind)
      as (g & Hload & Hgrid).
    rewrite Hload. simpl. split; [| split; [discriminate |]].
    + split; [| reflexivity]. intros _. repeat split; auto; discriminate.
    + intros p' t' _ [= <- <-]. exists g. split; [reflexivity | exact Hgrid].
  - unfold LoadTableData. rewrite Hloaded, Hfind.
    apply String.eqb_neq in Hname. rewrite Hname. simpl.
    split; [split; [discriminate | intros (_ & _ & _ & H); now elim H] |].
    split; [reflexivity | discriminate].
Qed.

Lemma seq_nth_map :
  forall (A : Type) (d : A) (l : list A),
    map (fun i => nth i l d) (seq 0 (length l)) = l.
Proof.
  intros A d. induction l as [| x l IH]; [reflexivity |].
  cbn [length seq map nth]. rewrite <- seq_shift, map_map. cbn [nth].
  now rewrite IH.
Qed.

Lemma nth_error_default :
  forall (l : list string) i,
    match nth_error l i with Some v => v | None => "" end = nth i l "".
Proof.
  induction l as [| x l IH]; intros [| i]; simpl; auto.
Qed.

(** What [UpdateCompleteTable] collects from a grid filled by
    [LoadTableData]. *)
Lemma loaded_grid_collected :
  forall (g : QTableWidget) (hs : list string) (rows : list (list string)),
    columnCount g = length hs ->
    rowCount g = length rows ->
    (forall c, horizontalHeaderItem g c = nth_error hs c) ->
    (forall r c,
        item g r c
        = match nth_error rows r with
          | Some rowData =>
              if Nat.ltb c (length hs) then nth_error rowData c else None
          | None => None
          end) ->
    gridHeaders g = hs /\ gridRows g = map (fitRow (length hs)) rows.
Proof.
  intros g hs rows Hc Hr Hh Hi. split.
  - unfold gridHeaders. rewrite Hc.
    rewrite <- (seq_nth_map _ "" hs) at 2.
    apply map_ext_in. intros c Hin. apply in_seq in Hin. rewrite Hh.
    destruct (nth_error hs c) as [h |] eqn:Hnth.
    + symmetry. now apply nth_error_nth.
    + apply nth_error_None in Hnth. lia.
  - unfold gridRows. rewrite Hr.
    rewrite <- (seq_nth_map _ [] rows) at 2. rewrite map_map.
    apply map_ext_in. intros r Hin. apply in_seq in Hin.
    unfold gridRow, fitRow. rewrite Hc.
    apply map_ext_in. intros c Hcin. apply in_seq in Hcin. rewrite Hi.
    destruct (nth_error rows r) as [rowData |] eqn:Hnth.
    + rewrite (nth_error_nth _ _ [] Hnth).
      destruct (Nat.ltb_spec c (length hs)); [| lia].
      apply nth_error_default.
    + apply nth_error_None in Hnth. lia.
Qed.

Lemma fitRow_length :
  forall n rowData, length (fitRow n rowData) = n.
Proof. intros. unfold fitRow. now rewrite length_map, length_seq. Qed.

Lemma fitRow_idem :
  forall n rowData, fitRow n (fitRow n rowData) = fitRow n rowData.
Proof.
  intros n rowData.
  rewrite <- (fitRow_length n rowData) at 1. apply fitRow_exact.
Qed.

Lemma placeholder_not_empty :
  forall i, String.eqb (columnPlaceholder i) "" = false.
Proof. reflexivity. Qed.

Lemma namedHeaders_headersFrom :
  forall cells i, namedHeaders i (headersFrom i cells) = headersFrom i cells.
Proof.
  induction cells as [| c cells IH]; intros i; [reflexivity |].
  cbn [headersFrom namedHeaders]. rewrite IH. f_equal.
  destruct (String.eqb (attribute (snd c) "name") "") eqn:Hname.
  - now rewrite placeholder_not_empty.
  - now rewrite Hname.
Qed.

Lemma namedHeaders_ExtractColumnHeaders :
  forall t, namedHeaders 0 (ExtractColumnHeaders t) = ExtractColumnHeaders t.
Proof.
  intros t. unfold ExtractColumnHeaders.
  destruct (elementsByTagName t ROW_ELEMENT_NAME); [reflexivity |].
  apply namedHeaders_headersFrom.
Qed.

(** Loading a table into the grid and writing the grid back as it is,
    for a table all of whose rows are, or lie below, row children: both
    calls succeed; the headers read back as before, and every row reads
    back as before fitted to the number of headers (values past the last
    header are lost, missing values become empty cells).  A table whose
    rows all have one value per header reads back unchanged. *)
Theorem load_then_update :
  forall (w : XMLWorker) (tableName : string) (g0 : QTableWidget)
         (p : Path) (t : QDomNode),
    FileLoaded w = true ->
    tableName <> "" ->
    FindTableElement w tableName = Some (p, t) ->
    rowsUnderRowChildren t = true ->
    exists g t',
      LoadTableData w tableName (Some g0) = (true, Some g) /\
      UpdateCompleteTable w tableName (Some g) = Some (true, commit w p t') /\
      ExtractColumnHeaders t' = ExtractColumnHeaders t /\
      ExtractTableRows t'
      = map (fitRow (length (ExtractColumnHeaders t))) (ExtractTableRows t) /\
      (Forall (fun rowData => length rowData
                              = length (ExtractColumnHeaders t))
         (ExtractTableRows t) ->
       ExtractTableRows t' = ExtractTableRows t).
Proof.
  intros w tableName g0 p t Hloaded Hname Hfind Hcov.
  destruct (LoadTableData_grid w tableName g0 p t Hloaded Hname Hfind)
    as (g & Hload & Hc & Hr & Hh & Hi).
  destruct (loaded_grid_collected g _ _ Hc Hr Hh Hi) as [Hheaders Hrows].
  destruct (FindTableElement_Some w tableName p t Hfind)
    as (root & a & ks & _ & _ & -> & _).
  simpl in Hcov.
  set (t0 := Element TABLE_ELEMENT_NAME a ks) in *.
  pose proof (replaceRows_covered TABLE_ELEMENT_NAME a ks
                (gridRows g) (gridHeaders g) Hcov) as Hrep.
  destruct (replaced_table_reads_back TABLE_ELEMENT_NAME a ks (gridRows g)
              (gridHeaders g) Hcov) as (_ & Hback & Hhback).
  fold t0 in Hrep.
  exists g. eexists. split; [exact Hload |]. split; [| split; [| split]].
  - unfold UpdateCompleteTable. rewrite Hloaded, Hfind, Hrep.
    apply String.eqb_neq in Hname. now rewrite Hname.
  - rewrite Hhback, Hheaders, Hrows.
    destruct (ExtractTableRows t0) as [| r rest] eqn:Hex.
    + simpl. unfold ExtractTableRows in Hex. unfold ExtractColumnHeaders.
      destruct (elementsByTagName t0 ROW_ELEMENT_NAME); [reflexivity |].
      discriminate.
    + simpl. apply namedHeaders_ExtractColumnHeaders.
  - rewrite Hback, Hheaders, Hrows, map_map.
    apply map_ext. intros r. apply fitRow_idem.
  - intros Hrect. rewrite Hback, Hheaders, Hrows, map_map.
    transitivity (map (fun r : list string => r) (ExtractTableRows t0));
      [| apply map_id].
    apply map_ext_in. intros r Hin. rewrite fitRow_idem.
    rewrite Forall_forall in Hrect. rewrite <- (Hrect r Hin).
    apply fitRow_exact.
Qed.

Lemma load_then_update_witness :
  exists g t',
    LoadTableData sampleWorker "T" (Some emptyGrid) = (true, Some g) /\
    UpdateCompleteTable sampleWorker "T" (Some g)
      = Some (true, commit sampleWorker [0] t') /\
    ExtractTableRows t' = [["a"; "b"]; ["c"; ""]].
Proof.
  destruct (load_then_update sampleWorker "T" emptyGrid [0] sampleTable
              eq_refl)
    as (g & t' & Hload & Hupdate & _ & Hrows & _).
  - discriminate.
  - reflexivity.
  - reflexivity.
  - exists g, t'. split; [exact Hload |]. split; [exact Hupdate | exact Hrows].
Defined.

(* ------------------------------------------------------------------ *)
(** ** The created row *)

(** The row that [CreateRowElement] makes has one cell per header, in the
    headers' order; the cell at a position is named after the header at
    that position and holds one text node with the value of [rowData] at
    that position, or the empty text when [rowData] is shorter; values of
    [rowData] past the last header appear nowhere.  Read back, the row
    gives [rowData] fitted to the number of headers. *)
Theorem created_row_shape :
  forall (rowData columnHeaders : list string),
    exists cells,
      CreateRowElement rowData columnHeaders
        = Element ROW_ELEMENT_NAME [] cells /\
      length cells = length columnHeaders /\
      (forall i, length columnHeaders <= i -> nth_error cells i = None) /\
      (forall i h,
          nth_error columnHeaders i = Some h ->
          nth_error cells i
          = Some (Element CELL_ELEMENT_NAME [("name", h)]
                    [TextNode (nth i rowData "")])) /\
      cellTexts (CreateRowElement rowData columnHeaders)
        = fitRow (length columnHeaders) rowData.
Proof.
  intros rowData hs.
  destruct (CreateRowElement_cells rowData hs) as (cells & Hrow & Hlen & Hnth).
  exists cells. split; [exact Hrow |]. split; [exact Hlen |].
  split; [| split].
  - intros i Hi. apply nth_error_None. lia.
  - intros i h Hi. apply (Hnth i h Hi).
  - apply cellTexts_CreateRowElement.
Qed.

(* ------------------------------------------------------------------ *)
(** ** Loading a file, and the names it lists *)

(** [LoadXMLFile] returns [true] exactly when the path is not empty, the
    file can be opened, the parser accepts its content and the document
    parsed has a root element, whatever the root's tag and also when there
    is no table at all.  The worker then holds the path, the parsed
    document, the table names read off that document, and the loaded
    flag. *)
Theorem load_succeeds_iff :
  forall (qt : QtServices) (w : XMLWorker) (filePath : string),
    (fst (fst (LoadXMLFile qt w filePath)) = true <->
     filePath <> "" /\
     exists content,
       openForReading qt filePath = Some content /\
       sc_ok (setContent qt (XmlDocument w) content) = true /\
       sc_document (setContent qt (XmlDocument w) content) <> None) /\
    (forall content,
        fst (fst (LoadXMLFile qt w filePath)) = true ->
        openForReading qt filePath = Some content ->
        snd (fst (LoadXMLFile qt w filePath))
        = mkXMLWorker filePath
            (sc_document (setContent qt (XmlDocument w) content))
            (collectTableNames
               (tableNodes
                  (sc_document (setContent qt (XmlDocument w) content))))
            true).
Proof.
  intros qt w filePath. unfold LoadXMLFile.
  destruct (String.eqb_spec filePath "") as [Hempty | Hpath].
  { simpl. split; [split; [discriminate | intros [H _]; contradiction] |].
    intros content H. discriminate. }
  destruct (openForReading qt filePath) as [content |] eqn:Hopen.
  2:{ simpl. split; [split; [discriminate
                           | intros (_ & c & H & _); discriminate] |].
      intros c H. discriminate. }
  destruct (sc_ok (setContent qt (XmlDocument w) content)) eqn:Hok.
  2:{ simpl. split; [split; [discriminate |] |].
      - intros (_ & c & [= <-] & H & _). congruence.
      - intros c H. discriminate. }
  cbn [negb]. unfold ValidateXMLStructure. cbn [XmlDocument withDocument].
  destruct (sc_document (setContent qt (XmlDocument w) content))
    as [root |] eqn:Hdoc.
  - cbn. split.
    + split; [| reflexivity]. intros _. split; [exact Hpath |].
      exists content. rewrite Hok, Hdoc. repeat split; discriminate.
    + intros c _ [= <-]. now rewrite Hdoc.
  - cbn. split; [split; [discriminate |] |].
    + intros (_ & c & [= <-] & _ & H). rewrite Hdoc in H. now elim H.
    + intros c H. discriminate.
Qed.

Lemma In_collectTableNames :
  forall l name,
    In name (collectTableNames l) <->
    name <> "" /\ exists x, In x l /\ attribute (snd x) "name" = name.
Proof.
  induction l as [| y l IH]; intros name; simpl.
  - split; [contradiction | intros (_ & x & [] & _)].
  - destruct (String.eqb_spec (attribute (snd y) "name") "") as [Hy | Hy].
    + rewrite IH. split.
      * intros (Hn & x & Hin & Hx). split; [exact Hn |]. exists x. auto.
      * intros (Hn & x & [<- | Hin] & Hx); [congruence |].
        split; [exact Hn |]. now exists x.
    + simpl. rewrite IH. split.
      * intros [<- | (Hn & x & Hin & Hx)].
        -- split; [exact Hy |]. exists y. auto.
        -- split; [exact Hn |]. exists x. auto.
      * intros (Hn & x & [<- | Hin] & Hx); [now left |].
        right. split; [exact Hn |]. now exists x.
Qed.

(** After a successful [LoadXMLFile] the names that [GetTableNames] lists
    are exactly the names, other than the empty one, that
    [FindTableElement] resolves: every listed name can be looked up, and
    every table that carries a non-empty name is listed. *)
Theorem listed_names_resolve :
  forall (qt : QtServices) (w w' : XMLWorker) (filePath : string)
         (log : list DebugLine),
    LoadXMLFile qt w filePath = (true, w', log) ->
    forall name,
      In name (GetTableNames w') <->
      name <> "" /\ FindTableElement w' name <> None.
Proof.
  intros qt w w' filePath log Hload name.
  assert (Hnames : AvailableTableNames w'
                   = collectTableNames (tableNodes (XmlDocument w'))).
  { unfold LoadXMLFile in Hload.
    destruct (String.eqb filePath ""); [discriminate |].
    destruct (openForReading qt filePath) as [content |]; [| discriminate].
    destruct (negb (sc_ok (setContent qt (XmlDocument w) content)));
      [discriminate |].
    destruct (ValidateXMLStructure _) as [valid log1].
    destruct (negb valid); [discriminate |].
    injection Hload as <- _. reflexivity. }
  unfold GetTableNames. rewrite Hnames, In_collectTableNames.
  split; intros [Hn H]; (split; [exact Hn |]).
  - destruct H as (x & Hin & Hx). intros Hnone.
    apply (proj1 (FindTableElement_None w' name) Hnone x Hin Hx).
  - destruct (FindTableElement w' name) as [x |] eqn:Hfind; [| now elim H].
    unfold FindTableElement in Hfind. apply find_some in Hfind.
    destruct Hfind as [Hin Hx]. exists x. split; [exact Hin |].
    unfold namedAs in Hx. now apply String.eqb_eq.
Qed.

Lemma listed_names_resolve_witness :
  In "T" (GetTableNames loadedWorker) <->
  "T" <> "" /\ FindTableElement loadedWorker "T" <> None.
Proof.
  exact (listed_names_resolve (sampleQt 1 1 "Start tag expected.")
           newXMLWorker loadedWorker "good.xml" _ eq_refl "T").
Defined.

Lemma save_then_load_witness :
  fst (LoadXMLFile
         (snd (SaveXMLFile (sampleQt 1 1 "Start tag expected.") loadedWorker))
         loadedWorker "good.xml")
  = (true, loadedWorker).
Proof.
  refine (save_then_load (sampleQt 1 1 "Start tag expected.")
            (snd (SaveXMLFile (sampleQt 1 1 "Start tag expected.")
                    loadedWorker))
            loadedWorker eq_refl eq_refl _).
  discriminate.
Defined.

(* ================================================================== *)
(** * Properties of the window *)

(* ------------------------------------------------------------------ *)
(** ** Modes, buttons and edit triggers *)

Lemma normal_style_not_active :
  String.eqb MainWindow.NORMAL_BUTTON_STYLE MainWindow.ACTIVE_BUTTON_STYLE
  = false.
Proof. reflexivity. Qed.

Lemma disabled_style_not_active :
  String.eqb
    (String.append MainWindow.NORMAL_BUTTON_STYLE
       MainWindow.DISABLED_BUTTON_STYLE)
    MainWindow.ACTIVE_BUTTON_STYLE
  = false.
Proof. reflexivity. Qed.

Lemma shows_reset :
  forall p,
    MainWindow.shows
      (MainWindow.resetStyle (MainWindow.setChecked false p)) false.
Proof.
  intros [en ch st]. unfold MainWindow.shows, MainWindow.resetStyle.
  cbn [MainWindow.setChecked MainWindow.isEnabled MainWindow.isChecked
       MainWindow.styleSheet].
  destruct en;
    cbn [MainWindow.setStyleSheet MainWindow.isChecked MainWindow.styleSheet
         MainWindow.isEnabled];
    split; auto using normal_style_not_active, disabled_style_not_active.
Qed.

Lemma consistent_ResetToggleButtons :
  forall s, MainWindow.consistent (MainWindow.ResetToggleButtons s).
Proof.
  intros s. unfold MainWindow.consistent, MainWindow.ResetToggleButtons.
  cbn. repeat split; try apply shows_reset; try reflexivity;
    destruct (MainWindow.isEnabled _); cbn;
    auto using normal_style_not_active, disabled_style_not_active.
Qed.

Lemma consistent_modeView :
  forall s s',
    MainWindow.modeView s' = MainWindow.modeView s ->
    MainWindow.consistent s -> MainWindow.consistent s'.
Proof.
  intros s s' Hview. unfold MainWindow.modeView in Hview.
  injection Hview as Ha Hd He Hac Has Hdc Hds Hec Hes Ht.
  unfold MainWindow.consistent, MainWindow.shows, MainWindow.atMostOneMode,
    MainWindow.triggersFor.
  now rewrite Ha, Hd, He, Hac, Has, Hdc, Hds, Hec, Hes, Ht.
Qed.

Lemma modeView_LoadTableData :
  forall s,
    MainWindow.modeView (fst (MainWindow.LoadTableData s))
    = MainWindow.modeView s.
Proof.
  intros s. unfold MainWindow.LoadTableData.
  destruct (String.eqb (MainWindow.CurrentTableName s) ""
            || negb (IsFileLoaded (MainWindow.Worker s))); [reflexivity |].
  destruct (LoadTableData _ _ _) as [[|] [g |]]; reflexivity.
Qed.

Lemma consistent_OnTableSelectionChanged :
  forall s,
    MainWindow.consistent s ->
    MainWindow.consistent (fst (MainWindow.OnTableSelectionChanged s)).
Proof.
  intros s Hs. unfold MainWindow.OnTableSelectionChanged.
  destruct (0 <=? MainWindow.currentIndex (MainWindow.TableComboBox s))%Z;
    [| exact Hs].
  destruct (MainWindow.LoadTableData _) as [s1 shown].
  apply consistent_ResetToggleButtons.
Qed.

Lemma consistent_setCurrentIndex :
  forall index s,
    MainWindow.consistent s ->
    MainWindow.consistent (fst (MainWindow.setCurrentIndex index s)).
Proof.
  intros index s Hs. unfold MainWindow.setCurrentIndex.
  destruct (MainWindow.currentIndex (MainWindow.TableComboBox s) =? index)%Z.
  - exact Hs.
  - apply consistent_OnTableSelectionChanged. exact Hs.
Qed.

Lemma consistent_OnLoadFileClicked :
  forall qt s,
    MainWindow.consistent s ->
    MainWindow.consistent (fst (MainWindow.OnLoadFileClicked qt s)).
Proof.
  intros qt s Hs. unfold MainWindow.OnLoadFileClicked.
  destruct (String.eqb (MainWindow.CurrentFilePath s) ""); [exact Hs |].
  unfold MainWindow.clearComboBox.
  pose proof (consistent_setCurrentIndex (-1)
                (MainWindow.setTableComboBox
                   (MainWindow.mkQComboBox []
                      (MainWindow.currentIndex (MainWindow.TableComboBox s))
                      (MainWindow.comboEnabled (MainWindow.TableComboBox s)))
                   s) Hs) as H1.
  destruct (MainWindow.setCurrentIndex (-1) _) as [s1 shown0].
  cbn [fst] in H1.
  set (s2 := MainWindow.setDataTable _ s1).
  assert (H2 : MainWindow.consistent s2) by exact H1.
  destruct (fst (fst (LoadXMLFile qt (MainWindow.Worker s2)
                        (MainWindow.CurrentFilePath s2)))); [| exact H2].
  set (s3 := MainWindow.setWorker _ s2).
  assert (H3 : MainWindow.consistent s3) by exact H2.
  destruct (GetTableNames (MainWindow.Worker s3)) as [| n names];
    [exact H3 |].
  unfold MainWindow.addItems.
  set (s4 := MainWindow.setTableComboBox _ s3).
  assert (H4 : MainWindow.consistent s4) by exact H3.
  destruct (MainWindow.comboItems (MainWindow.TableComboBox s3)).
  - pose proof (consistent_setCurrentIndex 0 s4 H4) as H5.
    destruct (MainWindow.setCurrentIndex 0 s4) as [s5 shown1]. exact H5.
  - exact H4.
Qed.

Lemma active_style_is_active :
  String.eqb MainWindow.ACTIVE_BUTTON_STYLE MainWindow.ACTIVE_BUTTON_STYLE
  = true.
Proof. apply String.eqb_refl. Qed.

Create HintDb window.

#[local] Hint Resolve normal_style_not_active disabled_style_not_active
  active_style_is_active : window.

(** Splits a state into its fields and [consistent] into its parts. *)
Ltac window_fields s :=
  destruct s as [lf cb [ae ac ast] [de dc dst] [ee ec est]
                   ue ce g tr w fp tn a d e un].

Ltac window_unfold :=
  unfold MainWindow.consistent, MainWindow.shows, MainWindow.atMostOneMode,
    MainWindow.triggersFor;
  cbn -[String.eqb MainWindow.ACTIVE_BUTTON_STYLE
        MainWindow.NORMAL_BUTTON_STYLE MainWindow.DISABLED_BUTTON_STYLE
        String.append].

(** Runs the setters and getters of the window's state. *)
Ltac window_state :=
  cbv [MainWindow.setLoadFileButtonEnabled MainWindow.setTableComboBox
       MainWindow.setAddButton MainWindow.setDeleteButton
       MainWindow.setEditButton MainWindow.setUpdateButtonEnabled
       MainWindow.setCancelButtonEnabled MainWindow.setDataTable
       MainWindow.setEditTriggers MainWindow.setWorker
       MainWindow.setCurrentFilePath MainWindow.setCurrentTableName
       MainWindow.setIsAddMode MainWindow.setIsDeleteMode
       MainWindow.setIsEditMode MainWindow.setHasUnsavedChanges
       MainWindow.LoadFileButtonEnabled MainWindow.TableComboBox
       MainWindow.AddButton MainWindow.DeleteButton MainWindow.EditButton
       MainWindow.UpdateButtonEnabled MainWindow.CancelButtonEnabled
       MainWindow.DataTable MainWindow.editTriggers MainWindow.Worker
       MainWindow.CurrentFilePath MainWindow.CurrentTableName
       MainWindow.IsAddMode MainWindow.IsDeleteMode MainWindow.IsEditMode
       MainWindow.HasUnsavedChanges
       MainWindow.setEnabled MainWindow.setChecked MainWindow.setStyleSheet
       MainWindow.isEnabled MainWindow.isChecked MainWindow.styleSheet
       MainWindow.comboItems MainWindow.currentIndex MainWindow.comboEnabled
       MainWindow.resetStyle].

Ltac window_split :=
  repeat match goal with |- _ /\ _ => split end;
  auto with window.

Lemma consistent_OnAddButtonClicked :
  forall b s,
    MainWindow.consistent s ->
    MainWindow.consistent
      (MainWindow.OnAddButtonClicked
         (MainWindow.setAddButton
            (MainWindow.setChecked b (MainWindow.AddButton s)) s)).
Proof.
  intros b s. window_fields s. unfold MainWindow.OnAddButtonClicked.
  window_unfold. intros (Hone & [Hac Has] & [Hdc Hds] & [Hec Hes] & Htr).
  destruct a; window_unfold.
  - destruct d, e; simpl in Hone; try discriminate. window_split.
  - destruct ae, de, ee; window_unfold; window_split.
Qed.

Lemma consistent_OnDeleteButtonClicked :
  forall b s,
    MainWindow.consistent s ->
    MainWindow.consistent
      (fst (MainWindow.OnDeleteButtonClicked
              (MainWindow.setDeleteButton
                 (MainWindow.setChecked b (MainWindow.DeleteButton s)) s))).
Proof.
  intros b s. window_fields s. unfold MainWindow.OnDeleteButtonClicked.
  window_unfold. intros (Hone & [Hac Has] & [Hdc Hds] & [Hec Hes] & Htr).
  destruct d; window_unfold.
  - destruct a, e; simpl in Hone; try discriminate. window_split.
  - destruct ae, de, ee; window_unfold; window_split.
Qed.

Lemma consistent_OnEditButtonClicked :
  forall b s,
    MainWindow.consistent s ->
    MainWindow.consistent
      (MainWindow.OnEditButtonClicked
         (MainWindow.setEditButton
            (MainWindow.setChecked b (MainWindow.EditButton s)) s)).
Proof.
  intros b s. window_fields s. unfold MainWindow.OnEditButtonClicked.
  window_unfold. intros (Hone & [Hac Has] & [Hdc Hds] & [Hec Hes] & Htr).
  destruct e; window_unfold.
  - destruct a, d; simpl in Hone; try discriminate. window_split.
  - destruct ae, de, ee; window_unfold; window_split.
Qed.

Lemma consistent_OnChooseFileClicked :
  forall qt chosen s,
    MainWindow.consistent s ->
    MainWindow.consistent (fst (MainWindow.OnChooseFileClicked qt chosen s)).
Proof.
  intros qt chosen s Hs. unfold MainWindow.OnChooseFileClicked.
  destruct (String.eqb chosen ""); [exact Hs |].
  apply consistent_OnLoadFileClicked. exact Hs.
Qed.

Lemma modeView_setHasUnsavedChanges :
  forall b s,
    MainWindow.modeView (MainWindow.setHasUnsavedChanges b s)
    = MainWindow.modeView s.
Proof. reflexivity. Qed.

Lemma consistent_reset_and_reload :
  forall s,
    MainWindow.consistent
      (MainWindow.setHasUnsavedChanges false
         (fst (MainWindow.LoadTableData (MainWindow.ResetToggleButtons s)))).
Proof.
  intros s.
  apply (consistent_modeView
           (fst (MainWindow.LoadTableData (MainWindow.ResetToggleButtons s))));
    [apply modeView_setHasUnsavedChanges |].
  apply (consistent_modeView (MainWindow.ResetToggleButtons s));
    [apply modeView_LoadTableData | apply consistent_ResetToggleButtons].
Qed.

Lemma consistent_OnUpdateButtonClicked :
  forall qt s s' qt' shown,
    MainWindow.consistent s ->
    MainWindow.OnUpdateButtonClicked qt s = Some (s', qt', shown) ->
    MainWindow.consistent s'.
Proof.
  intros qt s s' qt' shown Hs. unfold MainWindow.OnUpdateButtonClicked.
  destruct (negb (MainWindow.HasUnsavedChanges s) && _ && _ && _).
  { intros H. injection H as <- _ _. exact Hs. }
  destruct (UpdateCompleteTable _ _ _) as [[success w'] |]; [| discriminate].
  destruct success.
  - destruct (SaveXMLFile qt _) as [saved qt1]. destruct saved.
    + pose proof (consistent_reset_and_reload
                    (MainWindow.setWorker w' s)) as Hr.
      destruct (MainWindow.LoadTableData _) as [s1 shown1].
      intros H. injection H as <- _ _. exact Hr.
    + intros H. injection H as <- _ _. exact Hs.
  - intros H. injection H as <- _ _. exact Hs.
Qed.

Lemma consistent_OnCancelButtonClicked :
  forall answerYes s,
    MainWindow.consistent s ->
    MainWindow.consistent
      (fst (MainWindow.OnCancelButtonClicked answerYes s)).
Proof.
  intros answerYes s Hs. unfold MainWindow.OnCancelButtonClicked.
  destruct (negb (MainWindow.HasUnsavedChanges s) && _ && _ && _);
    [exact Hs |].
  destruct answerYes; [| exact Hs].
  pose proof (consistent_reset_and_reload s) as Hr.
  destruct (MainWindow.LoadTableData _) as [s1 shown1]. exact Hr.
Qed.

Lemma modeView_DeleteRow :
  forall row s,
    MainWindow.modeView (MainWindow.DeleteRow row s) = MainWindow.modeView s.
Proof.
  intros row s. unfold MainWindow.DeleteRow.
  now destruct ((0 <=? row)%Z && _).
Qed.

Lemma consistent_OnRowDoubleClicked :
  forall row column answerYes s,
    MainWindow.consistent s ->
    MainWindow.consistent
      (fst (MainWindow.OnRowDoubleClicked row column answerYes s)).
Proof.
  intros row column answerYes s Hs. unfold MainWindow.OnRowDoubleClicked.
  destruct (MainWindow.IsDeleteMode s && (0 <=? row)%Z); [| exact Hs].
  destruct answerYes; [| exact Hs].
  apply (consistent_modeView s); [| exact Hs].
  cbn [fst]. rewrite modeView_setHasUnsavedChanges.
  apply modeView_DeleteRow.
Qed.

Lemma consistent_step :
  forall qt e s s' qt' shown,
    MainWindow.consistent s ->
    MainWindow.step qt e s = Some (s', qt', shown) ->
    MainWindow.consistent s'.
Proof.
  intros qt e s s' qt' shown Hs.
  destruct e as [chosen | | index | | | | | answerYes | row column answerYes
                | row column text];
    cbn [MainWindow.step].
  - pose proof (consistent_OnChooseFileClicked qt chosen s Hs) as H1.
    destruct (MainWindow.OnChooseFileClicked qt chosen s) as [s1 sh].
    intros H. injection H as <- _ _. exact H1.
  - destruct (MainWindow.LoadFileButtonEnabled s).
    + pose proof (consistent_OnLoadFileClicked qt s Hs) as H1.
      destruct (MainWindow.OnLoadFileClicked qt s) as [s1 sh].
      intros H. injection H as <- _ _. exact H1.
    + intros H. injection H as <- _ _. exact Hs.
  - destruct (MainWindow.comboEnabled _ && _).
    + pose proof (consistent_setCurrentIndex (Z.of_nat index) s Hs) as H1.
      destruct (MainWindow.setCurrentIndex (Z.of_nat index) s) as [s1 sh].
      intros H. injection H as <- _ _. exact H1.
    + intros H. injection H as <- _ _. exact Hs.
  - destruct (MainWindow.isEnabled (MainWindow.AddButton s)).
    + intros H. injection H as <- _ _.
      apply consistent_OnAddButtonClicked. exact Hs.
    + intros H. injection H as <- _ _. exact Hs.
  - destruct (MainWindow.isEnabled (MainWindow.DeleteButton s)).
    + pose proof (consistent_OnDeleteButtonClicked
                    (negb (MainWindow.isChecked (MainWindow.DeleteButton s)))
                    s Hs) as H1.
      unfold MainWindow.flipped.
      destruct (MainWindow.OnDeleteButtonClicked _) as [s1 sh].
      intros H. injection H as <- _ _. exact H1.
    + intros H. injection H as <- _ _. exact Hs.
  - destruct (MainWindow.isEnabled (MainWindow.EditButton s)).
    + intros H. injection H as <- _ _.
      apply consistent_OnEditButtonClicked. exact Hs.
    + intros H. injection H as <- _ _. exact Hs.
  - destruct (MainWindow.UpdateButtonEnabled s).
    + apply consistent_OnUpdateButtonClicked. exact Hs.
    + intros H. injection H as <- _ _. exact Hs.
  - destruct (MainWindow.CancelButtonEnabled s).
    + pose proof (consistent_OnCancelButtonClicked answerYes s Hs) as H1.
      destruct (MainWindow.OnCancelButtonClicked answerYes s) as [s1 sh].
      intros H. injection H as <- _ _. exact H1.
    + intros H. injection H as <- _ _. exact Hs.
  - pose proof (consistent_OnRowDoubleClicked row column answerYes s Hs)
      as H1.
    destruct (MainWindow.OnRowDoubleClicked row column answerYes s)
      as [s1 sh].
    intros H. injection H as <- _ _. exact H1.
  - destruct (MainWindow.editTriggers s) eqn:Htr;
      intros H; injection H as <- _ _; try exact Hs;
      apply (consistent_modeView s); try exact Hs; reflexivity.
Qed.

Lemma consistent_initial : MainWindow.consistent MainWindow.initial.
Proof.
  unfold MainWindow.consistent, MainWindow.shows. cbn.
  repeat match goal with |- _ /\ _ => split end; reflexivity.
Qed.

Lemma reachable_run :
  forall events qt s s' qt' shown,
    MainWindow.reachable s ->
    MainWindow.run qt events s = Some (s', qt', shown) ->
    MainWindow.reachable s'.
Proof.
  induction events as [| e rest IH]; intros qt s s' qt' shown Hs; simpl.
  - intros H. injection H as <- _ _. exact Hs.
  - destruct (MainWindow.step qt e s) as [[[s1 qt1] sh1] |] eqn:Hstep;
      [| discriminate].
    destruct (MainWindow.run qt1 rest s1) as [[[s2 qt2] sh2] |] eqn:Hrun;
      [| discriminate].
    intros H. injection H as <- _ _.
    apply (IH qt1 s1 s2 qt2 sh2); [| exact Hrun].
    exact (MainWindow.reachable_step s qt e s1 qt1 sh1 Hs Hstep).
Qed.

Lemma reachable_after :
  forall qt events, MainWindow.reachable (MainWindow.after qt events).
Proof.
  intros qt events. unfold MainWindow.after.
  destruct (MainWindow.run qt events MainWindow.initial)
    as [[[s qt'] shown] |] eqn:Hrun.
  - exact (reachable_run events qt MainWindow.initial s qt' shown
             MainWindow.reachable_initial Hrun).
  - exact MainWindow.reachable_initial.
Qed.

(** Whatever the user does and whatever the files hold, the window shows
    its mode: at most one of the add, delete and edit modes is on; each of
    the three toggle buttons is checked and in the active style exactly
    when its mode is on; and the grid takes double clicks in add mode,
    double clicks and the edit key in edit mode, and no edit otherwise. *)
Theorem window_shows_its_mode :
  forall s : MainWindow.t,
    MainWindow.reachable s ->
    MainWindow.atMostOneMode s = true /\
    MainWindow.shows (MainWindow.AddButton s) (MainWindow.IsAddMode s) /\
    MainWindow.shows (MainWindow.DeleteButton s) (MainWindow.IsDeleteMode s) /\
    MainWindow.shows (MainWindow.EditButton s) (MainWindow.IsEditMode s) /\
    MainWindow.editTriggers s
    = (if MainWindow.IsAddMode s then MainWindow.DoubleClicked
       else if MainWindow.IsEditMode s
            then MainWindow.DoubleClickedOrEditKeyPressed
            else MainWindow.NoEditTriggers).
Proof.
  intros s Hs. change (MainWindow.consistent s).
  induction Hs as [| s qt e s' qt' shown _ IH Hstep].
  - exact consistent_initial.
  - exact (consistent_step qt e s s' qt' shown IH Hstep).
Qed.

Lemma window_shows_its_mode_witness :
  MainWindow.reachable addingWindow /\
  MainWindow.IsAddMode addingWindow = true /\
  MainWindow.isChecked (MainWindow.AddButton addingWindow) = true /\
  MainWindow.isChecked (MainWindow.DeleteButton addingWindow) = false /\
  MainWindow.editTriggers addingWindow = MainWindow.DoubleClicked.
Proof.
  assert (Hr : MainWindow.reachable addingWindow).
  { apply (MainWindow.reachable_step shownWindow rowsQt MainWindow.clickAdd
             addingWindow rowsQt []).
    - apply (MainWindow.reachable_step MainWindow.initial rowsQt
               (MainWindow.chooseFile "sample.xml") shownWindow rowsQt
               [MainWindow.information "Success"
                  "XML file loaded successfully."]).
      + apply MainWindow.reachable_initial.
      + vm_compute. reflexivity.
    - vm_compute. reflexivity. }
  split; [exact Hr |].
  destruct (window_shows_its_mode addingWindow Hr)
    as (_ & [Ha _] & [Hd _] & _ & Htr).
  split; [reflexivity |]. split; [exact Ha |]. split; [exact Hd |].
  exact Htr.
Defined.

(* ------------------------------------------------------------------ *)
(** ** The grid under the window's edits *)

Lemma removeNth_beyond :
  forall (A : Type) (l : list A) i, length l <= i -> removeNth i l = l.
Proof.
  induction l as [| x l IH]; intros [| i] Hi; simpl in *; try reflexivity.
  - lia.
  - rewrite IH; [reflexivity | lia].
Qed.

Lemma removeNth_map_seq :
  forall (A : Type) (h : nat -> A) n a i,
    i < n ->
    removeNth i (map h (seq a n))
    = map (fun r => if Nat.ltb r (a + i) then h r else h (S r))
        (seq a (n - 1)).
Proof.
  intros A h. induction n as [| n IH]; intros a i Hi; [lia |].
  cbn [seq map]. destruct i as [| j].
  - cbn [removeNth]. replace (S n - 1) with n by lia.
    rewrite <- seq_shift, map_map. apply map_ext_in.
    intros r Hr. apply in_seq in Hr.
    destruct (Nat.ltb_spec r (a + 0)); [lia | reflexivity].
  - cbn [removeNth]. rewrite (IH (S a) j) by lia.
    replace (S n - 1) with (S (n - 1)) by lia. cbn [seq map].
    destruct (Nat.ltb_spec a (a + S j)); [| lia]. f_equal.
    apply map_ext. intros r. now replace (S a + j) with (a + S j) by lia.
Qed.

Lemma gridRows_removeRow :
  forall g row,
    gridRows (removeRow row g) = removeNth row (gridRows g) /\
    gridHeaders (removeRow row g) = gridHeaders g.
Proof.
  intros g row. unfold removeRow.
  destruct (Nat.ltb_spec row (rowCount g)) as [Hlt | Hge].
  - split; [| reflexivity]. unfold gridRows at 2.
    rewrite (removeNth_map_seq _ (gridRow g) (rowCount g) 0 row Hlt).
    unfold gridRows. cbn [rowCount]. apply map_ext. intros r.
    unfold gridRow. cbn [columnCount item]. cbn [Nat.add].
    now destruct (Nat.ltb r row).
  - split; [| reflexivity]. symmetry. apply removeNth_beyond.
    unfold gridRows. now rewrite length_map, length_seq.
Qed.

Lemma fold_setItem_spec :
  forall row v cols g,
    let g' := fold_left (fun g col => setItem row col v g) cols g in
    columnCount g' = columnCount g /\
    rowCount g' = rowCount g /\
    horizontalHeaderItem g' = horizontalHeaderItem g /\
    (forall r c, r <> row -> item g' r c = item g r c) /\
    (forall c, item g' row c = Some v \/ item g' row c = item g row c).
Proof.
  intros row v. induction cols as [| col cols IH]; intros g; cbn.
  - repeat split; auto.
  - destruct (IH (setItem row col v g)) as (Hc & Hr & Hh & Hother & Hrow).
    cbn zeta in *.
    assert (Hset : columnCount (setItem row col v g) = columnCount g /\
                   rowCount (setItem row col v g) = rowCount g /\
                   horizontalHeaderItem (setItem row col v g)
                   = horizontalHeaderItem g /\
                   (forall r c, r <> row ->
                                item (setItem row col v g) r c = item g r c) /\
                   (forall c, item (setItem row col v g) row c = Some v \/
                              item (setItem row col v g) row c
                              = item g row c)).
    { unfold setItem.
      destruct (Nat.ltb row (rowCount g) && Nat.ltb col (columnCount g));
        cbn; repeat split; auto.
      - intros r c Hne. apply Nat.eqb_neq in Hne. now rewrite Hne.
      - intros c. rewrite Nat.eqb_refl. cbn.
        destruct (Nat.eqb c col); auto. }
    destruct Hset as (Hc' & Hr' & Hh' & Hother' & Hrow').
    split; [congruence |]. split; [congruence |]. split; [congruence |].
    split.
    + intros r c Hne. now rewrite Hother, Hother'.
    + intros c. destruct (Hrow c) as [H | H]; [now left |].
      rewrite H. apply Hrow'.
Qed.

Lemma map_const_repeat :
  forall (A B : Type) (v : B) (l : list A),
    map (fun _ => v) l = repeat v (length l).
Proof. induction l as [| x l IH]; simpl; [| rewrite IH]; auto. Qed.

(** The grid that [AddNewRow] leaves. *)
Lemma gridRows_AddNewRow :
  forall s,
    gridRows (MainWindow.DataTable (MainWindow.AddNewRow s))
    = gridRows (MainWindow.DataTable s)
        ++ [repeat "" (columnCount (MainWindow.DataTable s))] /\
    gridHeaders (MainWindow.DataTable (MainWindow.AddNewRow s))
    = gridHeaders (MainWindow.DataTable s).
Proof.
  intros s. unfold MainWindow.AddNewRow. cbn [MainWindow.DataTable
    MainWindow.setDataTable MainWindow.setEditTriggers
    MainWindow.setHasUnsavedChanges].
  set (g := MainWindow.DataTable s).
  set (g1 := insertRow (rowCount g) g).
  assert (Hg1 : g1 = mkQTableWidget (columnCount g) (S (rowCount g))
                       (horizontalHeaderItem g)
                       (fun r c =>
                          if Nat.ltb r (rowCount g) then item g r c
                          else if Nat.eqb r (rowCount g) then None
                               else item g (r - 1) c)).
  { unfold g1, insertRow. now rewrite Nat.leb_refl. }
  destruct (fold_setItem_spec (rowCount g) "" (seq 0 (columnCount g1)) g1)
    as (Hc & Hr & Hh & Hother & Hrow).
  cbn zeta in *.
  set (g2 := fold_left (fun g0 col => setItem (rowCount g) col "" g0)
               (seq 0 (columnCount g1)) g1) in *.
  rewrite Hg1 in Hc, Hr, Hh, Hother, Hrow.
  cbn [columnCount rowCount horizontalHeaderItem item]
    in Hc, Hr, Hh, Hother, Hrow.
  split.
  - unfold gridRows. rewrite Hr, seq_S, map_app. cbn [Nat.add map].
    f_equal.
    + apply map_ext_in. intros r Hin. apply in_seq in Hin.
      unfold gridRow. rewrite Hc. apply map_ext. intros c.
      rewrite Hother by lia.
      destruct (Nat.ltb_spec r (rowCount g)); [reflexivity | lia].
    + f_equal. unfold gridRow. rewrite Hc.
      rewrite (map_ext _ (fun _ : nat => ""));
        [now rewrite map_const_repeat, length_seq |].
      intros c. destruct (Hrow c) as [H | H]; rewrite H; [reflexivity |].
      rewrite Nat.ltb_irrefl, Nat.eqb_refl. reflexivity.
  - unfold gridHeaders. now rewrite Hc, Hh.
Qed.

(** The window's [LoadTableData] when the current table is found: the
    grid shows the table. *)
Lemma window_LoadTableData_found :
  forall s p t,
    FileLoaded (MainWindow.Worker s) = true ->
    MainWindow.CurrentTableName s <> "" ->
    FindTableElement (MainWindow.Worker s) (MainWindow.CurrentTableName s)
    = Some (p, t) ->
    exists g,
      MainWindow.LoadTableData s
      = (MainWindow.setHasUnsavedChanges false (MainWindow.setDataTable g s),
         []) /\
      gridHeaders g = ExtractColumnHeaders t /\
      gridRows g
      = map (fitRow (length (ExtractColumnHeaders t))) (ExtractTableRows t).
Proof.
  intros s p t Hloaded Hname Hfind.
  destruct (LoadTableData_grid (MainWindow.Worker s)
              (MainWindow.CurrentTableName s) (MainWindow.DataTable s) p t
              Hloaded Hname Hfind) as (g & Hload & Hc & Hr & Hh & Hi).
  exists g. split.
  - unfold MainWindow.LoadTableData, IsFileLoaded. rewrite Hloaded, Hload.
    apply String.eqb_neq in Hname. now rewrite Hname.
  - exact (loaded_grid_collected g _ _ Hc Hr Hh Hi).
Qed.

(* ------------------------------------------------------------------ *)
(** ** Rows added and deleted in the grid *)

(** In delete mode a double click on the row [row] asks for confirmation.
    On Yes the row at that index leaves the grid, the rows after it moving
    up, and the window has unsaved changes, also when there is no such
    row; the headers stay and the worker's document is not touched.  On
    No nothing changes. *)
Theorem double_click_deletes_from_the_grid :
  forall (row column : Z) (s : MainWindow.t),
    MainWindow.IsDeleteMode s = true ->
    (0 <= row)%Z ->
    (exists s' asked,
        MainWindow.OnRowDoubleClicked row column true s
        = (s', [MainWindow.question "Confirm Deletion" asked]) /\
        gridRows (MainWindow.DataTable s')
        = removeNth (Z.to_nat row) (gridRows (MainWindow.DataTable s)) /\
        gridHeaders (MainWindow.DataTable s')
        = gridHeaders (MainWindow.DataTable s) /\
        MainWindow.HasUnsavedChanges s' = true /\
        MainWindow.Worker s' = MainWindow.Worker s /\
        MainWindow.modeView s' = MainWindow.modeView s) /\
    fst (MainWindow.OnRowDoubleClicked row column false s) = s.
Proof.
  intros row column s Hmode Hrow. unfold MainWindow.OnRowDoubleClicked.
  rewrite Hmode. apply Z.leb_le in Hrow. rewrite Hrow. cbn [andb fst].
  split; [| reflexivity].
  eexists. eexists. split; [reflexivity |].
  unfold MainWindow.DeleteRow. rewrite Hrow. cbn [andb].
  destruct (Z.ltb_spec row (Z.of_nat (rowCount (MainWindow.DataTable s))))
    as [Hlt | Hge].
  - cbn [MainWindow.DataTable MainWindow.setHasUnsavedChanges
         MainWindow.setDataTable MainWindow.HasUnsavedChanges
         MainWindow.Worker].
    destruct (gridRows_removeRow (MainWindow.DataTable s) (Z.to_nat row))
      as [Hrows Hheaders].
    repeat split; assumption.
  - cbn [MainWindow.DataTable MainWindow.setHasUnsavedChanges
         MainWindow.HasUnsavedChanges MainWindow.Worker].
    split; [| repeat split].
    symmetry. apply removeNth_beyond. unfold gridRows.
    rewrite length_map, length_seq. lia.
Qed.

Lemma double_click_deletes_from_the_grid_witness :
  MainWindow.IsDeleteMode deletingWindow = true /\
  gridRows (MainWindow.DataTable deletingWindow) = [["a"; "b"]; ["c"; ""]] /\
  exists s' asked,
    MainWindow.OnRowDoubleClicked 0 0 true deletingWindow
    = (s', [MainWindow.question "Confirm Deletion" asked]) /\
    gridRows (MainWindow.DataTable s') = [["c"; ""]] /\
    MainWindow.Worker s' = MainWindow.Worker deletingWindow.
Proof.
  split; [reflexivity |]. split; [reflexivity |].
  destruct (double_click_deletes_from_the_grid 0 0 deletingWindow eq_refl)
    as [(s' & asked & Hrun & Hrows & _ & _ & Hworker & _) _].
  - lia.
  - exists s', asked. split; [exact Hrun |]. split; [exact Hrows |].
    exact Hworker.
Defined.

(** A click on the enabled Add button, outside add mode, switches to add
    mode alone and appends one row of empty cells to the grid, which then
    takes double clicks; the window has unsaved changes and the worker's
    document is not touched.  A click in add mode leaves the mode, and the
    grid, with the row that was added, stays as it is. *)
Theorem add_click_appends_an_empty_row :
  forall (qt : QtServices) (s : MainWindow.t),
    MainWindow.isEnabled (MainWindow.AddButton s) = true ->
    exists s',
      MainWindow.step qt MainWindow.clickAdd s = Some (s', qt, []) /\
      MainWindow.Worker s' = MainWindow.Worker s /\
      if MainWindow.IsAddMode s then
        MainWindow.IsAddMode s' = false /\
        MainWindow.DataTable s' = MainWindow.DataTable s /\
        MainWindow.HasUnsavedChanges s' = MainWindow.HasUnsavedChanges s /\
        MainWindow.editTriggers s' = MainWindow.NoEditTriggers
      else
        MainWindow.IsAddMode s' = true /\
        MainWindow.IsDeleteMode s' = false /\
        MainWindow.IsEditMode s' = false /\
        gridRows (MainWindow.DataTable s')
        = gridRows (MainWindow.DataTable s)
            ++ [repeat "" (columnCount (MainWindow.DataTable s))] /\
        gridHeaders (MainWindow.DataTable s')
        = gridHeaders (MainWindow.DataTable s) /\
        MainWindow.HasUnsavedChanges s' = true /\
        MainWindow.editTriggers s' = MainWindow.DoubleClicked.
Proof.
  intros qt s Henabled. cbn [MainWindow.step]. rewrite Henabled.
  eexists. split; [reflexivity |].
  unfold MainWindow.OnAddButtonClicked.
  cbn [MainWindow.IsAddMode MainWindow.setAddButton].
  destruct (MainWindow.IsAddMode s) eqn:Hmode.
  - repeat split.
  - set (s3 := MainWindow.setAddButton _ _).
    destruct (gridRows_AddNewRow s3) as [Hrows Hheaders].
    split; [reflexivity |]. split; [reflexivity |].
    split; [reflexivity |]. split; [reflexivity |].
    split; [exact Hrows |]. split; [exact Hheaders |].
    split; reflexivity.
Qed.

Lemma add_click_appends_an_empty_row_witness :
  MainWindow.isEnabled (MainWindow.AddButton shownWindow) = true /\
  gridRows (MainWindow.DataTable shownWindow) = [["a"; "b"]; ["c"; ""]] /\
  exists s',
    MainWindow.step rowsQt MainWindow.clickAdd shownWindow
    = Some (s', rowsQt, []) /\
    gridRows (MainWindow.DataTable s') = [["a"; "b"]; ["c"; ""]; [""; ""]].
Proof.
  split; [reflexivity |]. split; [reflexivity |].
  destruct (add_click_appends_an_empty_row rowsQt shownWindow eq_refl)
    as (s' & Hstep & _ & _ & _ & _ & Hrows & _).
  exists s'. split; [exact Hstep |]. exact Hrows.
Defined.

(* ------------------------------------------------------------------ *)
(** ** What reaches the document *)

Lemma Worker_LoadTableData :
  forall s,
    MainWindow.Worker (fst (MainWindow.LoadTableData s)) = MainWindow.Worker s
    /\ MainWindow.CurrentFilePath (fst (MainWindow.LoadTableData s))
       = MainWindow.CurrentFilePath s.
Proof.
  intros s. unfold MainWindow.LoadTableData.
  destruct (String.eqb (MainWindow.CurrentTableName s) ""
            || negb (IsFileLoaded (MainWindow.Worker s))); [now split |].
  destruct (LoadTableData _ _ _) as [[|] [g |]]; now split.
Qed.

Lemma Worker_OnTableSelectionChanged :
  forall s,
    MainWindow.Worker (fst (MainWindow.OnTableSelectionChanged s))
    = MainWindow.Worker s
    /\ MainWindow.CurrentFilePath (fst (MainWindow.OnTableSelectionChanged s))
       = MainWindow.CurrentFilePath s.
Proof.
  intros s. unfold MainWindow.OnTableSelectionChanged.
  destruct (0 <=? MainWindow.currentIndex (MainWindow.TableComboBox s))%Z;
    [| now split].
  pose proof (Worker_LoadTableData
                (MainWindow.setCurrentTableName
                   (MainWindow.currentText (MainWindow.TableComboBox s)) s))
    as H.
  destruct (MainWindow.LoadTableData _) as [s1 shown]. exact H.
Qed.

Lemma Worker_setCurrentIndex :
  forall index s,
    MainWindow.Worker (fst (MainWindow.setCurrentIndex index s))
    = MainWindow.Worker s
    /\ MainWindow.CurrentFilePath (fst (MainWindow.setCurrentIndex index s))
       = MainWindow.CurrentFilePath s.
Proof.
  intros index s. unfold MainWindow.setCurrentIndex.
  destruct (MainWindow.currentIndex (MainWindow.TableComboBox s) =? index)%Z;
    [now split |].
  apply (Worker_OnTableSelectionChanged
           (MainWindow.setTableComboBox
              (MainWindow.mkQComboBox
                 (MainWindow.comboItems (MainWindow.TableComboBox s)) index
                 (MainWindow.comboEnabled (MainWindow.TableComboBox s))) s)).
Qed.

Lemma Worker_OnCancelButtonClicked :
  forall answerYes s,
    MainWindow.Worker (fst (MainWindow.OnCancelButtonClicked answerYes s))
    = MainWindow.Worker s
    /\ MainWindow.CurrentFilePath
         (fst (MainWindow.OnCancelButtonClicked answerYes s))
       = MainWindow.CurrentFilePath s.
Proof.
  intros answerYes s. unfold MainWindow.OnCancelButtonClicked.
  destruct (negb (MainWindow.HasUnsavedChanges s) && _ && _ && _);
    [now split |].
  destruct answerYes; [| now split].
  pose proof (Worker_LoadTableData (MainWindow.ResetToggleButtons s)) as H.
  destruct (MainWindow.LoadTableData _) as [s1 shown]. exact H.
Qed.

(** No event other than a click on Update writes a file, and no event
    other than that click, the choice of a file and a click on Load
    changes the worker, and with it the document: rows added, deleted or
    typed, a change of mode, the choice of another table and Cancel stay
    in the window. *)
Theorem edits_stay_in_the_window :
  forall (qt : QtServices) (e : MainWindow.Event) (s s' : MainWindow.t)
         (qt' : QtServices) (shown : list MainWindow.Dialog),
    MainWindow.step qt e s = Some (s', qt', shown) ->
    match e with
    | MainWindow.clickUpdate => True
    | MainWindow.chooseFile _ | MainWindow.clickLoadFile => qt' = qt
    | _ =>
        qt' = qt /\
        MainWindow.Worker s' = MainWindow.Worker s /\
        MainWindow.CurrentFilePath s' = MainWindow.CurrentFilePath s
    end.
Proof.
  intros qt e s s' qt' shown.
  destruct e as [chosen | | index | | | | | answerYes | row column answerYes
                | row column text];
    cbn [MainWindow.step].
  - destruct (MainWindow.OnChooseFileClicked qt chosen s) as [s1 sh].
    now intros [= _ <- _].
  - destruct (MainWindow.LoadFileButtonEnabled s).
    + destruct (MainWindow.OnLoadFileClicked qt s) as [s1 sh].
      now intros [= _ <- _].
    + now intros [= _ <- _].
  - destruct (MainWindow.comboEnabled _ && _).
    + pose proof (Worker_setCurrentIndex (Z.of_nat index) s) as H.
      destruct (MainWindow.setCurrentIndex (Z.of_nat index) s) as [s1 sh].
      intros [= <- <- _]. split; [reflexivity | exact H].
    + intros [= <- <- _]. now repeat split.
  - destruct (MainWindow.isEnabled (MainWindow.AddButton s));
      intros [= <- <- _]; [| now repeat split].
    unfold MainWindow.OnAddButtonClicked.
    cbn [MainWindow.IsAddMode MainWindow.setAddButton].
    destruct (MainWindow.IsAddMode s); now repeat split.
  - destruct (MainWindow.isEnabled (MainWindow.DeleteButton s)).
    + unfold MainWindow.OnDeleteButtonClicked.
      cbn [MainWindow.IsDeleteMode MainWindow.setDeleteButton].
      destruct (MainWindow.IsDeleteMode s); intros [= <- <- _];
        now repeat split.
    + intros [= <- <- _]. now repeat split.
  - destruct (MainWindow.isEnabled (MainWindow.EditButton s));
      intros [= <- <- _]; [| now repeat split].
    unfold MainWindow.OnEditButtonClicked.
    cbn [MainWindow.IsEditMode MainWindow.setEditButton].
    destruct (MainWindow.IsEditMode s); now repeat split.
  - trivial.
  - destruct (MainWindow.CancelButtonEnabled s).
    + pose proof (Worker_OnCancelButtonClicked answerYes s) as H.
      destruct (MainWindow.OnCancelButtonClicked answerYes s) as [s1 sh].
      intros [= <- <- _]. split; [reflexivity | exact H].
    + intros [= <- <- _]. now repeat split.
  - unfold MainWindow.OnRowDoubleClicked.
    destruct (MainWindow.IsDeleteMode s && (0 <=? row)%Z);
      [| intros [= <- <- _]; now repeat split].
    destruct answerYes; intros [= <- <- _]; [| now repeat split].
    unfold MainWindow.DeleteRow.
    destruct ((0 <=? row)%Z && _); now repeat split.
  - destruct (MainWindow.editTriggers s); intros [= <- <- _];
      now repeat split.
Qed.

Lemma edits_stay_in_the_window_witness :
  exists s',
    MainWindow.step rowsQt (MainWindow.typeInCell 1 1 "d") editingWindow
    = Some (s', rowsQt, []) /\
    gridRows (MainWindow.DataTable s') = [["a"; "b"]; ["c"; "d"]] /\
    MainWindow.Worker s' = MainWindow.Worker editingWindow.
Proof.
  eexists. split; [reflexivity |]. split; [reflexivity |].
  exact (proj1 (proj2
    (edits_stay_in_the_window rowsQt (MainWindow.typeInCell 1 1 "d")
       editingWindow _ rowsQt [] eq_refl))).
Defined.

(* ------------------------------------------------------------------ *)
(** ** Showing a table: Cancel, the choice of a table, Update *)



(** The choice of another entry of the enabled combo box makes it the
    current table and shows it: the grid holds the table's headers and its
    rows fitted to the number of headers.  What was in the grid is
    dropped without a question, all modes are switched off, nothing is
    unsaved, and the five action buttons are enabled.  The worker is not
    touched. *)
Theorem choosing_a_table_shows_it :
  forall (qt : QtServices) (s : MainWindow.t) (index : nat)
         (p : Path) (t : QDomNode),
    MainWindow.comboEnabled (MainWindow.TableComboBox s) = true ->
    index < length (MainWindow.comboItems (MainWindow.TableComboBox s)) ->
    MainWindow.currentIndex (MainWindow.TableComboBox s) <> Z.of_nat index ->
    FileLoaded (MainWindow.Worker s) = true ->
    nth index (MainWindow.comboItems (MainWindow.TableComboBox s)) "" <> "" ->
    FindTableElement (MainWindow.Worker s)
      (nth index (MainWindow.comboItems (MainWindow.TableComboBox s)) "")
    = Some (p, t) ->
    exists s',
      MainWindow.step qt (MainWindow.selectTable index) s = Some (s', qt, [])
      /\ MainWindow.CurrentTableName s'
         = nth index (MainWindow.comboItems (MainWindow.TableComboBox s)) ""
      /\ MainWindow.currentIndex (MainWindow.TableComboBox s')
         = Z.of_nat index
      /\ gridHeaders (MainWindow.DataTable s') = ExtractColumnHeaders t
      /\ gridRows (MainWindow.DataTable s')
         = map (fitRow (length (ExtractColumnHeaders t)))
             (ExtractTableRows t)
      /\ MainWindow.HasUnsavedChanges s' = false
      /\ (MainWindow.IsAddMode s' = false
          /\ MainWindow.IsDeleteMode s' = false
          /\ MainWindow.IsEditMode s' = false
          /\ MainWindow.editTriggers s' = MainWindow.NoEditTriggers)
      /\ (MainWindow.isEnabled (MainWindow.AddButton s') = true
          /\ MainWindow.isEnabled (MainWindow.DeleteButton s') = true
          /\ MainWindow.isEnabled (MainWindow.EditButton s') = true
          /\ MainWindow.UpdateButtonEnabled s' = true
          /\ MainWindow.CancelButtonEnabled s' = true)
      /\ MainWindow.Worker s' = MainWindow.Worker s.
Proof.
  intros qt s index p t Henabled Hindex Hother Hloaded Hname Hfind.
  cbn [MainWindow.step]. rewrite Henabled.
  apply Nat.ltb_lt in Hindex. rewrite Hindex. cbn [andb].
  unfold MainWindow.setCurrentIndex.
  apply Z.eqb_neq in Hother. rewrite Hother.
  unfold MainWindow.OnTableSelectionChanged.
  cbn [MainWindow.TableComboBox MainWindow.setTableComboBox
       MainWindow.currentIndex].
  replace (0 <=? Z.of_nat index)%Z with true
    by (symmetry; apply Z.leb_le; lia).
  unfold MainWindow.currentText.
  cbn [MainWindow.currentIndex MainWindow.comboItems].
  replace (Z.of_nat index <? 0)%Z with false
    by (symmetry; apply Z.ltb_ge; lia).
  rewrite Nat2Z.id.
  set (name := nth index
                 (MainWindow.comboItems (MainWindow.TableComboBox s)) "")
    in *.
  set (s1 := MainWindow.setCurrentTableName name _).
  destruct (window_LoadTableData_found s1 p t Hloaded Hname Hfind)
    as (g & Hload & Hheaders & Hrows).
  rewrite Hload. eexists. split; [reflexivity |].
  split; [reflexivity |]. split; [reflexivity |].
  split; [exact Hheaders |]. split; [exact Hrows |]. repeat split.
Qed.

Lemma choosing_a_table_shows_it_witness :
  MainWindow.comboItems (MainWindow.TableComboBox twinsWindow) = ["X"; "X"] /\
  gridRows (MainWindow.DataTable twinsWindow) = [["1"]; [""]] /\
  exists s',
    MainWindow.step twinsQt (MainWindow.selectTable 1) twinsWindow
    = Some (s', twinsQt, []) /\
    gridRows (MainWindow.DataTable s') = [["1"]] /\
    MainWindow.IsAddMode s' = false.
Proof.
  split; [reflexivity |]. split; [reflexivity |].
  destruct (choosing_a_table_shows_it twinsQt twinsWindow 1 [0] firstX
              eq_refl)
    as (s' & Hstep & _ & _ & _ & Hrows & _ & (Hmode & _) & _).
  - vm_compute. lia.
  - vm_compute. discriminate.
  - reflexivity.
  - vm_compute. discriminate.
  - reflexivity.
  - exists s'. split; [exact Hstep |]. split; [exact Hrows | exact Hmode].
Defined.

Lemma namedHeaders_length :
  forall hs i, length (namedHeaders i hs) = length hs.
Proof. induction hs as [| h hs IH]; intros i; simpl; auto. Qed.

(** With something to save, a click on Update writes the grid into the
    current table of the document, when all the table's rows are, or lie
    below, row children of it, and writes the document to the worker's
    file, when that can be opened: the table's rows are then the grid's
    rows, the file holds [toString(4)] of the new document, one dialog
    reports success, all modes are off and nothing is unsaved.  The grid
    is filled again from the table: its rows are as before; its headers
    are as the table reads them back, so that a grid without rows comes
    back without columns. *)
Theorem update_click_saves_the_grid :
  forall (qt : QtServices) (s : MainWindow.t) (p : Path) (t : QDomNode),
    negb (MainWindow.HasUnsavedChanges s) && negb (MainWindow.IsAddMode s)
      && negb (MainWindow.IsDeleteMode s) && negb (MainWindow.IsEditMode s)
    = false ->
    FileLoaded (MainWindow.Worker s) = true ->
    MainWindow.CurrentTableName s <> "" ->
    FindTableElement (MainWindow.Worker s) (MainWindow.CurrentTableName s)
    = Some (p, t) ->
    rowsUnderRowChildren t = true ->
    CurrentFilePath (MainWindow.Worker s) <> "" ->
    openForWriting qt (CurrentFilePath (MainWindow.Worker s)) = true ->
    exists s' t',
      MainWindow.OnUpdateButtonClicked qt s
      = Some (s',
              written qt (CurrentFilePath (MainWindow.Worker s))
                (toString qt (XmlDocument (MainWindow.Worker s')) 4),
              [MainWindow.information "Success"
                 "Changes saved successfully to XML file."])
      /\ MainWindow.Worker s' = commit (MainWindow.Worker s) p t'
      /\ FindTableElement (MainWindow.Worker s')
           (MainWindow.CurrentTableName s) = Some (p, t')
      /\ ExtractTableRows t' = gridRows (MainWindow.DataTable s)
      /\ gridRows (MainWindow.DataTable s')
         = gridRows (MainWindow.DataTable s)
      /\ gridHeaders (MainWindow.DataTable s')
         = (if Nat.eqb (rowCount (MainWindow.DataTable s)) 0 then []
            else namedHeaders 0 (gridHeaders (MainWindow.DataTable s)))
      /\ MainWindow.HasUnsavedChanges s' = false
      /\ MainWindow.IsAddMode s' = false
      /\ MainWindow.IsDeleteMode s' = false
      /\ MainWindow.IsEditMode s' = false
      /\ MainWindow.editTriggers s' = MainWindow.NoEditTriggers.
Proof.
  intros qt s p t Hpending Hloaded Hname Hfind Hcov Hpath Hopen.
  destruct (UpdateCompleteTable_covered (MainWindow.Worker s)
              (MainWindow.CurrentTableName s) (MainWindow.DataTable s) p t
              Hloaded Hname Hfind Hcov)
    as (t' & Hupdate & Hfind' & Hrows & Hheaders).
  set (w' := commit (MainWindow.Worker s) p t') in *.
  assert (Hloaded' : FileLoaded w' = true) by exact Hloaded.
  assert (Hpath' : CurrentFilePath w' = CurrentFilePath (MainWindow.Worker s))
    by reflexivity.
  unfold MainWindow.OnUpdateButtonClicked. rewrite Hpending, Hupdate.
  cbn [MainWindow.Worker MainWindow.setWorker].
  unfold SaveXMLFile. rewrite Hloaded', Hpath'.
  apply String.eqb_neq in Hpath. rewrite Hpath, Hopen. cbn [negb orb].
  set (s1 := MainWindow.ResetToggleButtons (MainWindow.setWorker w' s)).
  destruct (window_LoadTableData_found s1 p t' Hloaded' Hname Hfind')
    as (g & Hload & Hgh & Hgr).
  rewrite Hload.
  set (s2 := MainWindow.setHasUnsavedChanges false
               (MainWindow.setHasUnsavedChanges false
                  (MainWindow.setDataTable g s1))).
  assert (HW : MainWindow.Worker s2 = w') by reflexivity.
  assert (HD : MainWindow.DataTable s2 = g) by reflexivity.
  exists s2, t'. rewrite HW, HD.
  split; [reflexivity |]. split; [reflexivity |].
  split; [exact Hfind' |]. split; [exact Hrows |].
  split; [| split; [| repeat split]].
  - rewrite Hgr, Hrows, Hheaders.
    destruct (rowCount (MainWindow.DataTable s)) eqn:Hcount.
    + unfold gridRows. now rewrite Hcount.
    + cbn [Nat.eqb]. rewrite namedHeaders_length. apply fit_gridRows.
  - now rewrite Hgh, Hheaders.
Qed.

Lemma update_click_saves_the_grid_witness :
  exists s' t',
    MainWindow.OnUpdateButtonClicked rowsQt addingWindow
    = Some (s', written rowsQt "sample.xml" sampleContent,
            [MainWindow.information "Success"
               "Changes saved successfully to XML file."]) /\
    ExtractTableRows t' = [["a"; "b"]; ["c"; ""]; [""; ""]] /\
    FindTableElement (MainWindow.Worker s') "T" = Some ([0], t').
Proof.
  destruct (update_click_saves_the_grid rowsQt addingWindow [0] sampleTable
              eq_refl eq_refl)
    as (s' & t' & Hrun & _ & Hfind & Hrows & _).
  - vm_compute. discriminate.
  - reflexivity.
  - reflexivity.
  - vm_compute. discriminate.
  - reflexivity.
  - exists s', t'. split; [exact Hrun |]. split; [exact Hrows | exact Hfind].
Defined.

(* ------------------------------------------------------------------ *)
(** ** Choosing a file *)

Lemma clearComboBox_eq :
  forall s,
    MainWindow.clearComboBox s
    = (MainWindow.setTableComboBox
         (MainWindow.mkQComboBox []
            (-1) (MainWindow.comboEnabled (MainWindow.TableComboBox s))) s,
       []).
Proof.
  intros s. unfold MainWindow.clearComboBox, MainWindow.setCurrentIndex.
  cbn [MainWindow.TableComboBox MainWindow.setTableComboBox
       MainWindow.currentIndex MainWindow.comboItems MainWindow.comboEnabled].
  destruct (Z.eqb_spec (MainWindow.currentIndex (MainWindow.TableComboBox s))
              (-1)) as [Heq | Hne].
  - reflexivity.
  - reflexivity.
Qed.

Lemma LoadXMLFile_parsed :
  forall qt w filePath content root,
    filePath <> "" ->
    openForReading qt filePath = Some content ->
    sc_ok (setContent qt (XmlDocument w) content) = true ->
    sc_document (setContent qt (XmlDocument w) content) = Some root ->
    fst (LoadXMLFile qt w filePath)
    = (true,
       mkXMLWorker filePath (Some root)
         (collectTableNames (tableNodes (Some root))) true).
Proof.
  intros qt w filePath content root Hpath Hopen Hok Hdoc.
  unfold LoadXMLFile. apply String.eqb_neq in Hpath.
  rewrite Hpath, Hopen, Hok. cbn [negb].
  unfold ValidateXMLStructure. cbn [XmlDocument withDocument].
  rewrite Hdoc. reflexivity.
Qed.

Lemma listed_name_found :
  forall w name,
    In name (collectTableNames (tableNodes (XmlDocument w))) ->
    name <> "" /\ exists p t, FindTableElement w name = Some (p, t).
Proof.
  intros w name Hin. apply In_collectTableNames in Hin.
  destruct Hin as (Hname & x & Hx & Hattr). split; [exact Hname |].
  destruct (FindTableElement w name) as [[p t] |] eqn:Hfind.
  - now exists p, t.
  - exfalso. exact (proj1 (FindTableElement_None w name) Hfind x Hx Hattr).
Qed.

(** The choice of a file that can be opened, that the parser accepts and
    whose document lists at least one table name loads it and shows its
    first table, whatever the window showed before: the combo box lists
    the names with the first one current, the grid holds the headers and
    the fitted rows of the table that name resolves to, the five action
    buttons are enabled, all modes are off, nothing is unsaved, and one
    dialog reports success. *)
Theorem chosen_file_shows_its_first_table :
  forall (qt : QtServices) (s : MainWindow.t) (chosen content : string)
         (root : QDomNode) (name : string) (names : list string),
    chosen <> "" ->
    openForReading qt chosen = Some content ->
    sc_ok (setContent qt (XmlDocument (MainWindow.Worker s)) content)
    = true ->
    sc_document (setContent qt (XmlDocument (MainWindow.Worker s)) content)
    = Some root ->
    collectTableNames (tableNodes (Some root)) = name :: names ->
    exists s' p t,
      MainWindow.OnChooseFileClicked qt chosen s
      = (s', [MainWindow.information "Success"
                "XML file loaded successfully."])
      /\ MainWindow.CurrentFilePath s' = chosen
      /\ MainWindow.Worker s'
         = mkXMLWorker chosen (Some root) (name :: names) true
      /\ MainWindow.TableComboBox s'
         = MainWindow.mkQComboBox (name :: names) 0 true
      /\ MainWindow.CurrentTableName s' = name
      /\ FindTableElement (MainWindow.Worker s') name = Some (p, t)
      /\ gridHeaders (MainWindow.DataTable s') = ExtractColumnHeaders t
      /\ gridRows (MainWindow.DataTable s')
         = map (fitRow (length (ExtractColumnHeaders t)))
             (ExtractTableRows t)
      /\ MainWindow.HasUnsavedChanges s' = false
      /\ (MainWindow.IsAddMode s' = false
          /\ MainWindow.IsDeleteMode s' = false
          /\ MainWindow.IsEditMode s' = false
          /\ MainWindow.editTriggers s' = MainWindow.NoEditTriggers)
      /\ (MainWindow.LoadFileButtonEnabled s' = true
          /\ MainWindow.isEnabled (MainWindow.AddButton s') = true
          /\ MainWindow.isEnabled (MainWindow.DeleteButton s') = true
          /\ MainWindow.isEnabled (MainWindow.EditButton s') = true
          /\ MainWindow.UpdateButtonEnabled s' = true
          /\ MainWindow.CancelButtonEnabled s' = true).
Proof.
  intros qt s chosen content root name names Hchosen Hopen Hok Hdoc Hnames.
  set (w' := mkXMLWorker chosen (Some root) (name :: names) true).
  assert (Hin : In name (collectTableNames (tableNodes (XmlDocument w')))).
  { cbn [XmlDocument w']. rewrite Hnames. now left. }
  destruct (listed_name_found w' name Hin) as (Hname & p & t & Hfind).
  pose proof (LoadXMLFile_parsed qt (MainWindow.Worker s) chosen content root
                Hchosen Hopen Hok Hdoc) as Hload.
  rewrite Hnames in Hload. fold w' in Hload.
  pose proof Hchosen as Hchosen'. apply String.eqb_neq in Hchosen'.
  unfold MainWindow.OnChooseFileClicked. rewrite Hchosen'.
  unfold MainWindow.OnLoadFileClicked. window_fields s.
  rewrite clearComboBox_eq. window_state. rewrite Hchosen'.
  cbn [MainWindow.Worker] in Hload. rewrite Hload. cbn [fst snd].
  window_state.
  cbn [GetTableNames AvailableTableNames w']. fold w'.
  unfold MainWindow.addItems, MainWindow.setCurrentIndex. window_state.
  cbn [app Z.eqb].
  unfold MainWindow.OnTableSelectionChanged, MainWindow.currentText.
  window_state. cbn [Z.leb Z.ltb Z.compare Z.to_nat nth].
  set (s1 := MainWindow.mk _ _ _ _ _ _ _ _ _ _ _ _ _ _ _ _).
  destruct (window_LoadTableData_found s1 p t eq_refl Hname Hfind)
    as (g1 & Hshow & Hheaders & Hrows).
  rewrite Hshow. unfold s1, MainWindow.ResetToggleButtons. window_state.
  eexists. exists p, t. split; [reflexivity |].
  cbn [MainWindow.CurrentFilePath MainWindow.Worker MainWindow.TableComboBox
       MainWindow.CurrentTableName MainWindow.DataTable
       MainWindow.HasUnsavedChanges MainWindow.IsAddMode
       MainWindow.IsDeleteMode MainWindow.IsEditMode MainWindow.editTriggers
       MainWindow.LoadFileButtonEnabled MainWindow.AddButton
       MainWindow.DeleteButton MainWindow.EditButton MainWindow.isEnabled
       MainWindow.UpdateButtonEnabled MainWindow.CancelButtonEnabled].
  split; [reflexivity |]. split; [reflexivity |]. split; [reflexivity |].
  split; [reflexivity |]. split; [exact Hfind |].
  split; [exact Hheaders |]. split; [exact Hrows |]. repeat split.
Qed.

Lemma chosen_file_shows_its_first_table_witness :
  exists s' p t,
    MainWindow.OnChooseFileClicked rowsQt "sample.xml" MainWindow.initial
    = (s', [MainWindow.information "Success"
              "XML file loaded successfully."]) /\
    MainWindow.CurrentTableName s' = "T" /\
    FindTableElement (MainWindow.Worker s') "T" = Some (p, t) /\
    gridHeaders (MainWindow.DataTable s') = ["Col1"; "Col2"] /\
    gridRows (MainWindow.DataTable s') = [["a"; "b"]; ["c"; ""]].
Proof.
  destruct (chosen_file_shows_its_first_table rowsQt MainWindow.initial
              "sample.xml" sampleContent sampleRoot "T" [])
    as (s' & p & t & Hrun & _ & Hworker & _ & Hname & Hfind & Hheaders
        & Hrows & _).
  - discriminate.
  - reflexivity.
  - reflexivity.
  - reflexivity.
  - reflexivity.
  - exists s', p, t. split; [exact Hrun |]. split; [exact Hname |].
    split; [exact Hfind |].
    rewrite Hworker in Hfind. vm_compute in Hfind.
    injection Hfind as <- <-. split; [exact Hheaders | exact Hrows].
Defined.

(** A load that fails, from the Load button, empties the combo box and
    the grid and reports the error; the current table name, the modes,
    the unsaved-changes flag and the enabled buttons stay as they were,
    and the window keeps the worker as the failed load left it. *)
Theorem failed_load_empties_the_view :
  forall (qt : QtServices) (s : MainWindow.t),
    MainWindow.CurrentFilePath s <> "" ->
    fst (fst (LoadXMLFile qt (MainWindow.Worker s)
                (MainWindow.CurrentFilePath s))) = false ->
    exists s',
      MainWindow.OnLoadFileClicked qt s
      = (s', [MainWindow.critical "Error"
                "Failed to load XML file. Please check if it is a valid XML file."])
      /\ MainWindow.comboItems (MainWindow.TableComboBox s') = []
      /\ MainWindow.currentIndex (MainWindow.TableComboBox s') = (-1)%Z
      /\ rowCount (MainWindow.DataTable s') = 0
      /\ columnCount (MainWindow.DataTable s') = 0
      /\ MainWindow.Worker s'
         = snd (fst (LoadXMLFile qt (MainWindow.Worker s)
                       (MainWindow.CurrentFilePath s)))
      /\ MainWindow.CurrentTableName s' = MainWindow.CurrentTableName s
      /\ MainWindow.HasUnsavedChanges s' = MainWindow.HasUnsavedChanges s
      /\ MainWindow.modeView s' = MainWindow.modeView s
      /\ MainWindow.UpdateButtonEnabled s' = MainWindow.UpdateButtonEnabled s.
Proof.
  intros qt s Hpath Hfail. unfold MainWindow.OnLoadFileClicked.
  apply String.eqb_neq in Hpath. rewrite Hpath, clearComboBox_eq.
  window_fields s. window_state.
  cbn [MainWindow.Worker MainWindow.CurrentFilePath] in Hfail.
  rewrite Hfail. eexists. split; [reflexivity |]. repeat split.
Qed.

Lemma failed_load_empties_the_view_witness :
  exists s',
    MainWindow.OnLoadFileClicked rowsQt
      (MainWindow.setCurrentFilePath "missing.xml" addingWindow)
    = (s', [MainWindow.critical "Error"
              "Failed to load XML file. Please check if it is a valid XML file."])
    /\ gridRows (MainWindow.DataTable s') = []
    /\ MainWindow.IsAddMode s' = true
    /\ MainWindow.CurrentTableName s' = "T".
Proof.
  destruct (failed_load_empties_the_view rowsQt
              (MainWindow.setCurrentFilePath "missing.xml" addingWindow))
    as (s' & Hrun & _ & _ & Hrows & _ & _ & Hname & _ & Hview & _).
  - vm_compute. discriminate.
  - reflexivity.
  - exists s'. split; [exact Hrun |]. unfold gridRows. rewrite Hrows.
    split; [reflexivity |]. split; [| exact Hname].
    change (MainWindow.IsAddMode s')
      with (fst (fst (fst (fst (fst (fst (MainWindow.modeView s'))))))).
    rewrite Hview. reflexivity.
Defined.

(* ------------------------------------------------------------------ *)
(** ** What is typed in edit mode *)

(** What is typed into a cell marks nothing as unsaved.  From a window
    in edit mode without unsaved changes: text typed into a cell, then a
    click on Edit to leave the mode, then a click on Update, end with the
    dialog that there is nothing to save; the grid shows the text, and
    neither the worker nor a file has changed. *)
Theorem typed_text_is_not_saved_after_edit_mode :
  forall (qt : QtServices) (s : MainWindow.t) (row column : nat)
         (text : string),
    MainWindow.consistent s ->
    MainWindow.IsEditMode s = true ->
    MainWindow.HasUnsavedChanges s = false ->
    MainWindow.isEnabled (MainWindow.EditButton s) = true ->
    MainWindow.UpdateButtonEnabled s = true ->
    exists s',
      MainWindow.run qt
        [MainWindow.typeInCell row column text; MainWindow.clickEdit;
         MainWindow.clickUpdate] s
      = Some (s', qt, [MainWindow.information "Info" "No changes to save."])
      /\ MainWindow.DataTable s'
         = setItem row column text (MainWindow.DataTable s)
      /\ MainWindow.Worker s' = MainWindow.Worker s
      /\ MainWindow.IsEditMode s' = false.
Proof.
  intros qt s row column text Hs Hmode Hsaved Henabled Hupdate.
  window_fields s. unfold MainWindow.consistent in Hs.
  cbn [MainWindow.IsEditMode MainWindow.HasUnsavedChanges MainWindow.isEnabled
       MainWindow.EditButton MainWindow.UpdateButtonEnabled]
    in Hmode, Hsaved, Henabled, Hupdate.
  subst e un ee ue.
  destruct Hs as (Hone & _ & _ & _ & Htr).
  unfold MainWindow.atMostOneMode, MainWindow.triggersFor in Hone, Htr.
  cbn [MainWindow.IsAddMode MainWindow.IsDeleteMode MainWindow.IsEditMode
       MainWindow.editTriggers] in Hone, Htr.
  destruct a, d; try discriminate Hone. subst tr.
  eexists. split; [reflexivity |]. repeat split.
Qed.

Lemma typed_text_is_not_saved_after_edit_mode_witness :
  exists s',
    MainWindow.run rowsQt
      [MainWindow.typeInCell 1 1 "d"; MainWindow.clickEdit;
       MainWindow.clickUpdate] editingWindow
    = Some (s', rowsQt, [MainWindow.information "Info" "No changes to save."])
    /\ gridRows (MainWindow.DataTable s') = [["a"; "b"]; ["c"; "d"]]
    /\ MainWindow.Worker s' = MainWindow.Worker editingWindow.
Proof.
  destruct (typed_text_is_not_saved_after_edit_mode rowsQt editingWindow 1 1
              "d")
    as (s' & Hrun & Hgrid & Hworker & _).
  - unfold MainWindow.consistent, MainWindow.shows.
    repeat match goal with |- _ /\ _ => split end; reflexivity.
  - reflexivity.
  - reflexivity.
  - reflexivity.
  - reflexivity.
  - exists s'. split; [exact Hrun |]. rewrite Hgrid.
    split; [reflexivity | exact Hworker].
Defined.
